(** * Akro: metadata extraction, relationship inference and progress log

    A shallow embedding of [v6-akro/akro_script.py] and the properties of
    its documentation pipeline.

    Modelling choices:
    - a Python [str] is a [string]; the operations that depend on
      character classes ([str.title], [str.capitalize], [str.lower],
      [str.strip], the regex class [\d]) are modelled on 7-bit ASCII text,
      where they are Python's; what is stated about the title of a file
      and about the stage patterns of the inference rules is stated for
      ASCII text ([is_ascii]);
    - a [pathlib.Path] is its normalised string [str(path)];
    - the host file system is a list of regular files with their text, in
      the order the file system lists them, and a list of directories; an
      [OSError] of an operation is the result [None];
    - the clock ([get_timestamp]), [Path.home()], [Path.cwd()] and
      [str.format] on a template are arguments;
    - [print] appends a line to the output of a run. *)

From Stdlib Require Import String Ascii List Bool Arith ZArith Lia.
From Stdlib Require Import Numbers.DecimalString.
Import ListNotations.

Open Scope list_scope.
Open Scope string_scope.

(* ================================================================== *)
(** * Python string operations *)
(* ================================================================== *)

Module PyStr.

(** Characters that cannot be typed inside a literal. *)
Definition NL : string := String "010"%char EmptyString.
Definition QUOTE : string := String "034"%char EmptyString.

Definition code (c : ascii) : nat := nat_of_ascii c.


(** The decimal digits of ASCII, [0] to [9]: the regex class [\d] on
    ASCII text.  Outside ASCII Python counts every Unicode decimal digit,
    which this class does not. *)
Definition is_digit (c : ascii) : bool :=
  (48 <=? code c)%nat && (code c <=? 57)%nat.

Definition is_upper (c : ascii) : bool :=
  (65 <=? code c)%nat && (code c <=? 90)%nat.

Definition is_lower (c : ascii) : bool :=
  (97 <=? code c)%nat && (code c <=? 122)%nat.

(** [str.isspace] on ASCII: TAB, LF, VT, FF, CR, FS, GS, RS, US, SPACE.
    Outside ASCII Python has further white space (U+0085, U+00A0, U+3000
    and others), which this class does not hold. *)
Definition is_space (c : ascii) : bool :=
  ((9 <=? code c)%nat && (code c <=? 13)%nat)
  || ((28 <=? code c)%nat && (code c <=? 32)%nat).

Definition to_upper (c : ascii) : ascii :=
  if is_lower c then ascii_of_nat (code c - 32) else c.

Definition to_lower (c : ascii) : ascii :=
  if is_upper c then ascii_of_nat (code c + 32) else c.

Fixpoint map_chars (f : ascii -> ascii) (s : string) : string :=
  match s with
  | EmptyString => EmptyString
  | String c r => String (f c) (map_chars f r)
  end.

(** [s.lower()] *)
Definition lower (s : string) : string := map_chars to_lower s.

(** [s.capitalize()]: first character upper-cased, the rest lower-cased. *)
Definition capitalize (s : string) : string :=
  match s with
  | EmptyString => EmptyString
  | String c r => String (to_upper c) (lower r)
  end.

(** [s.title()]: a cased character is upper-cased when the character
    before it is not cased and lower-cased otherwise.  The cased
    characters are the letters of ASCII; Python also cases the letters
    outside ASCII. *)
Fixpoint title_from (previous_is_cased : bool) (s : string) : string :=
  match s with
  | EmptyString => EmptyString
  | String c r =>
      if is_lower c then
        String (if previous_is_cased then c else to_upper c) (title_from true r)
      else if is_upper c then
        String (if previous_is_cased then to_lower c else c) (title_from true r)
      else String c (title_from false r)
  end.

Definition title (s : string) : string := title_from false s.

(** [s.startswith(p)] *)
Fixpoint startswith (p s : string) : bool :=
  match p, s with
  | EmptyString, _ => true
  | String _ _, EmptyString => false
  | String a p', String b s' => Ascii.eqb a b && startswith p' s'
  end.

(** [needle in s] *)
Fixpoint contains (needle s : string) : bool :=
  startswith needle s
  || match s with
     | EmptyString => false
     | String _ r => contains needle r
     end.

(** [s.replace(old, new)]: every non-overlapping occurrence, scanning
    from the left.  [skip] counts the characters of a replaced occurrence
    that are still to be dropped. *)
Fixpoint replace_from (old new : string) (skip : nat) (s : string) : string :=
  match s with
  | EmptyString => EmptyString
  | String c r =>
      match skip with
      | S k => replace_from old new k r
      | O =>
          if startswith old s
          then new ++ replace_from old new (String.length old - 1) r
          else String c (replace_from old new 0 r)
      end
  end.

(** With an empty [old], Python puts [new] before every character and at
    the end. *)
Fixpoint replace_empty (new s : string) : string :=
  match s with
  | EmptyString => new
  | String c r => new ++ String c (replace_empty new r)
  end.

Definition replace (old new s : string) : string :=
  match old with
  | EmptyString => replace_empty new s
  | String _ _ => replace_from old new 0 s
  end.

(** [s.lstrip()], [s.rstrip()], [s.strip()] *)
Fixpoint lstrip (s : string) : string :=
  match s with
  | EmptyString => EmptyString
  | String c r => if is_space c then lstrip r else s
  end.

Fixpoint rstrip (s : string) : string :=
  match s with
  | EmptyString => EmptyString
  | String c r =>
      match rstrip r with
      | EmptyString => if is_space c then EmptyString else String c EmptyString
      | String _ _ as r' => String c r'
      end
  end.

Definition strip (s : string) : string := rstrip (lstrip s).

(** [str(n)] for an [int]. *)
Definition str_of_int (n : Z) : string := NilZero.string_of_int (Z.to_int n).

(** [s.rfind(c)] for a single character, as an option. *)
Fixpoint rfind_char (c : ascii) (s : string) : option nat :=
  match s with
  | EmptyString => None
  | String a r =>
      match rfind_char c r with
      | Some i => Some (S i)
      | None => if Ascii.eqb a c then Some 0%nat else None
      end
  end.

(** [s[:n]] and [s[n:]] *)
Fixpoint take (n : nat) (s : string) : string :=
  match n, s with
  | S k, String c r => String c (take k r)
  | _, _ => EmptyString
  end.

Fixpoint drop (n : nat) (s : string) : string :=
  match n, s with
  | S k, String _ r => drop k r
  | _, _ => s
  end.

(** The declarative reading of [needle in s]. *)
Definition Substring (needle s : string) : Prop :=
  exists pre post, s = pre ++ needle ++ post.

(** [s.endswith(p)] *)
Definition endswith (p s : string) : bool :=
  (String.length p <=? String.length s)%nat
  && (drop (String.length s - String.length p) s =? p).

(** [sep.join(parts)] *)
Fixpoint join (sep : string) (parts : list string) : string :=
  match parts with
  | [] => EmptyString
  | [x] => x
  | x :: rest => x ++ sep ++ join sep rest
  end.

End PyStr.
Import PyStr.

(* ================================================================== *)
(** * pathlib on normalised POSIX path strings *)
(* ================================================================== *)

Module PyPath.

(** A path is represented by [str(path)], which pathlib keeps normalised. *)
Definition SLASH : ascii := "/"%char.
Definition DOT : ascii := "."%char.

(** [path.name]: the final component; empty for the paths [.] and [/]. *)
Definition name (p : string) : string :=
  if p =? "." then EmptyString
  else match rfind_char SLASH p with
       | Some i => drop (S i) p
       | None => p
       end.

(** [path.stem]: the name without its last suffix; a leading or a
    trailing dot starts no suffix. *)
Definition stem (p : string) : string :=
  let n := name p in
  match rfind_char DOT n with
  | Some i =>
      if (0 <? i)%nat && (i <? String.length n - 1)%nat then take i n else n
  | None => n
  end.

(** [path.parent] *)
Definition parent (p : string) : string :=
  match rfind_char SLASH p with
  | Some O => "/"
  | Some i => take i p
  | None => "."
  end.

(** [a / b] for a relative, normalised [b]. *)
Definition joinpath (a b : string) : string :=
  if b =? EmptyString then a
  else if endswith "/" a then a ++ b
  else a ++ "/" ++ b.

(** The proper ancestors of a path, nearest first, down to the first
    component; the root of an absolute path is left out (it always exists). *)
Fixpoint ancestors_fuel (fuel : nat) (p : string) : list string :=
  match fuel with
  | O => []
  | S k =>
      match rfind_char SLASH p with
      | Some (S i) => take (S i) p :: ancestors_fuel k (take (S i) p)
      | _ => []
      end
  end.

Definition ancestors (p : string) : list string :=
  ancestors_fuel (String.length p) p.

End PyPath.

(* ================================================================== *)
(** * The regular expressions of the script *)
(* ================================================================== *)

Module Re.

(** The longest prefix without a line feed: what [.+] or [.+?] can cover
    before [$] in MULTILINE mode. *)
Fixpoint line_prefix (s : string) : string :=
  match s with
  | EmptyString => EmptyString
  | String c r =>
      if Ascii.eqb c "010"%char then EmptyString else String c (line_prefix r)
  end.

(** The longest prefix of decimal digits: what a greedy [\d+] takes. *)
Fixpoint digits_prefix (s : string) : string :=
  match s with
  | EmptyString => EmptyString
  | String c r => if is_digit c then String c (digits_prefix r) else EmptyString
  end.

(** The character class [[._]]. *)
Definition is_sep (c : ascii) : bool :=
  Ascii.eqb c "."%char || Ascii.eqb c "_"%char.

(** [re.search] tries the pattern at every position from the left. *)
Fixpoint search {A : Type} (match_at : string -> option A) (s : string)
  : option A :=
  match match_at s with
  | Some g => Some g
  | None =>
      match s with
      | EmptyString => None
      | String _ r => search match_at r
      end
  end.

(** The pattern [# (.+?)$] with [re.MULTILINE], anchored at the start of
    [s]; the result is group 1.  The lazy [.+?] stops at the first
    position where [$] holds, which is the end of the line. *)
Definition heading_at (s : string) : option string :=
  if startswith "# " s then
    match line_prefix (drop (String.length "# ") s) with
    | EmptyString => None
    | String _ _ as text => Some text
    end
  else None.

(** [re.search(r"# (.+?)$", content, re.MULTILINE)], group 1. *)
Definition heading_search (content : string) : option string :=
  search heading_at content.

(** The pattern [Stage (\d+)[._]] anchored at the start of [s]; group 1. *)
Definition stage_phase_at (s : string) : option string :=
  if startswith "Stage " s then
    let after := drop (String.length "Stage ") s in
    let ds := digits_prefix after in
    match ds, drop (String.length ds) after with
    | String _ _, String c _ => if is_sep c then Some ds else None
    | _, _ => None
    end
  else None.

(** [re.search(r"Stage (\d+)[._]", title)], group 1. *)
Definition stage_phase_search (title : string) : option string :=
  search stage_phase_at title.

(** The pattern [Stage (\d+[._]\d+)] anchored at the start of [s]; group 1. *)
Definition stage_id_at (s : string) : option string :=
  if startswith "Stage " s then
    let after := drop (String.length "Stage ") s in
    let ds := digits_prefix after in
    match ds, drop (String.length ds) after with
    | String _ _, String c r =>
        if is_sep c then
          match digits_prefix r with
          | EmptyString => None
          | String _ _ as ds2 => Some (ds ++ String c ds2)
          end
        else None
    | _, _ => None
    end
  else None.

(** [re.search(r"Stage (\d+[._]\d+)", title)], group 1. *)
Definition stage_id_search (title : string) : option string :=
  search stage_id_at title.

(** Where the lazy [.*?] followed by a double quote ends: the offset just
    past the first double quote, provided no line feed comes before it. *)
Fixpoint closing_quote (s : string) : option nat :=
  match s with
  | EmptyString => None
  | String c r =>
      if Ascii.eqb c "034"%char then Some 1%nat
      else if Ascii.eqb c "010"%char then None
      else option_map S (closing_quote r)
  end.

Definition UPDATED_OPEN : string := "updated: " ++ QUOTE.

(** The length of the match of [updated: ".*?"] at the start of [s]. *)
Definition updated_at (s : string) : option nat :=
  if startswith UPDATED_OPEN s then
    option_map (fun k => (String.length UPDATED_OPEN + k)%nat)
               (closing_quote (drop (String.length UPDATED_OPEN) s))
  else None.

(** [re.sub(pattern, repl, s)] for the pattern above: every
    non-overlapping match, from the left, becomes [repl].  [repl] is taken
    literally: the script builds it from an ISO timestamp, which holds no
    backslash. *)
Fixpoint sub_updated_from (repl : string) (skip : nat) (s : string) : string :=
  match s with
  | EmptyString => EmptyString
  | String c r =>
      match skip with
      | S k => sub_updated_from repl k r
      | O =>
          match updated_at s with
          | Some n => repl ++ sub_updated_from repl (n - 1) r
          | None => String c (sub_updated_from repl 0 r)
          end
      end
  end.

Definition sub_updated (repl s : string) : string :=
  sub_updated_from repl 0 s.

(** ** What the patterns mean

    [P rest g] reads: the pattern matches at the very start of [rest] and
    its group 1 is [g]. *)

Fixpoint all_digits (s : string) : bool :=
  match s with
  | EmptyString => true
  | String c r => is_digit c && all_digits r
  end.

Fixpoint no_newline (s : string) : bool :=
  match s with
  | EmptyString => true
  | String c r => negb (Ascii.eqb c "010"%char) && no_newline r
  end.

(** The next character, if any, is no digit: a greedy [\d+] stops here. *)
Definition digits_end (tail : string) : Prop :=
  match tail with
  | EmptyString => True
  | String c _ => is_digit c = false
  end.



Definition StagePhasePattern (rest digits : string) : Prop :=
  exists sep tail,
    rest = "Stage " ++ digits ++ String sep tail
    /\ digits <> EmptyString /\ all_digits digits = true /\ is_sep sep = true.

Definition StageIdPattern (rest id : string) : Prop :=
  exists major sep minor tail,
    rest = "Stage " ++ id ++ tail
    /\ id = major ++ String sep minor
    /\ major <> EmptyString /\ all_digits major = true
    /\ is_sep sep = true
    /\ minor <> EmptyString /\ all_digits minor = true
    /\ digits_end tail.

(** [re.search] reports the match that starts first: [s] splits into
    [pre ++ rest], the pattern matches at [rest], and it matches at no
    position inside [pre]. *)
Definition FirstMatch (P : string -> string -> Prop) (s g : string) : Prop :=
  exists pre rest,
    s = pre ++ rest
    /\ P rest g
    /\ forall pre1 pre2 g',
         pre = pre1 ++ pre2 -> pre2 <> EmptyString -> ~ P (pre2 ++ rest) g'.

Definition NoMatch (P : string -> string -> Prop) (s : string) : Prop :=
  forall pre rest g, s = pre ++ rest -> ~ P rest g.

End Re.

(* ================================================================== *)
(** * The script *)
(* ================================================================== *)

Module Akro.

Import PyPath.

(** ** Configuration *)

Definition DOCS : string := "docs".
Definition TEMPLATES : string := "templates".
Definition PHASES : string := joinpath DOCS "phases".
Definition STAGES : string := joinpath DOCS "stages".
Definition REPORTS : string := joinpath DOCS "reports".
Definition PROGRESS : string := joinpath DOCS "progress.md".
Definition CLIENT_SPEC : string := joinpath DOCS "client_spec.md".
Definition ROADMAP : string := joinpath DOCS "project_roadmap.md".

(** ** Documents and memory records *)

(** The dictionary [extract_metadata] returns. *)
Record Document : Type := mkDocument {
  path : string;
  title : string;
  category : string;
  content : string
}.

(** Dictionary comparison [doc == other]: key by key. *)
Definition Document_eqb (a b : Document) : bool :=
  (path a =? path b) && (title a =? title b)
  && (category a =? category b) && (content a =? content b).

(** The dictionaries [create_memory_entries] builds; the constructor is
    the value under the key [type]. *)
Inductive MemoryEntry : Type :=
| Entity (name entityType : string) (observations : list string)
| Relation (from to relationType : string).

(** ** extract_metadata *)

(** The [if]/[elif] chain over [str(file_path)] and [file_path.name]. *)
Definition category_of (file_path : string) : string :=
  if contains "phases" file_path then "phase"
  else if contains "stages" file_path then "stage"
  else if contains "reports" file_path then "report"
  else if name file_path =? "client_spec.md" then "spec"
  else if name file_path =? "project_roadmap.md" then "roadmap"
  else if name file_path =? "progress.md" then "progress"
  else "document".

(** [file_path.stem.replace("-", " ").replace("_", " ").title()] *)
Definition default_title (file_path : string) : string :=
  PyStr.title (replace "_" " " (replace "-" " " (stem file_path))).

Definition title_of (file_path text : string) : string :=
  let title := default_title file_path in
  match Re.heading_search text with
  | Some group1 => strip group1
  | None => title
  end.

(** The body of [extract_metadata] once the file has been read. *)
Definition metadata (file_path text : string) : Document :=
  {| path := file_path;
     title := title_of file_path text;
     category := category_of file_path;
     content := text |}.

(** ** create_memory_entries *)

(** A [for] loop whose body updates the loop state. *)
Definition for_each {A S : Type} (items : list A) (body : S -> A -> S)
  (init : S) : S :=
  fold_left body items init.

(** [next((d for d in documents if d and d["category"] == cat), None)];
    a document dictionary has four keys, so it is always truthy. *)
Fixpoint first_of_category (cat : string) (documents : list (option Document))
  : option Document :=
  match documents with
  | [] => None
  | Some d :: rest =>
      if category d =? cat then Some d else first_of_category cat rest
  | None :: rest => first_of_category cat rest
  end.

(** [[d for d in documents if d and d["category"] == cat]] *)
Fixpoint all_of_category (cat : string) (documents : list (option Document))
  : list Document :=
  match documents with
  | [] => []
  | Some d :: rest =>
      if category d =? cat then d :: all_of_category cat rest
      else all_of_category cat rest
  | None :: rest => all_of_category cat rest
  end.

Definition create_memory_entries (documents : list (option Document))
  : list MemoryEntry :=
  let memory_entries : list MemoryEntry := [] in
  let memory_entries :=
    for_each documents (fun memory_entries doc =>
      match doc with
      | None => memory_entries
      | Some doc =>
          (memory_entries ++
          [Entity (title doc) (capitalize (category doc)) [content doc]])%list
      end) memory_entries in
  let spec := first_of_category "spec" documents in
  let roadmap := first_of_category "roadmap" documents in
  let progress := first_of_category "progress" documents in
  let phases := all_of_category "phase" documents in
  let stages := all_of_category "stage" documents in
  let reports := all_of_category "report" documents in
  let memory_entries :=
    match spec, roadmap with
    | Some spec, Some roadmap =>
        (memory_entries ++ [Relation (title spec) (title roadmap) "informs"])%list
    | _, _ => memory_entries
    end in
  let memory_entries :=
    match progress with
    | Some progress =>
        for_each documents (fun memory_entries doc =>
          match doc with
          | Some doc =>
              if negb (Document_eqb doc progress) then
                (memory_entries ++
                [Relation (title progress) (title doc) "tracks"])%list
              else memory_entries
          | None => memory_entries
          end) memory_entries
    | None => memory_entries
    end in
  let memory_entries :=
    match roadmap with
    | Some roadmap =>
        for_each phases (fun memory_entries phase =>
          (memory_entries ++
          [Relation (title roadmap) (title phase) "contains"])%list) memory_entries
    | None => memory_entries
    end in
  let memory_entries :=
    for_each stages (fun memory_entries stage =>
      match Re.stage_phase_search (title stage) with
      | Some phase_num =>
          for_each phases (fun memory_entries phase =>
            if contains ("Phase " ++ phase_num) (title phase) then
              (memory_entries ++
              [Relation (title phase) (title stage) "implements"])%list
            else memory_entries) memory_entries
      | None => memory_entries
      end) memory_entries in
  let memory_entries :=
    for_each stages (fun memory_entries stage =>
      for_each reports (fun memory_entries report =>
        match Re.stage_id_search (title stage) with
        | Some stage_id =>
            if contains stage_id (title report) then
              (memory_entries ++
              [Relation (title stage) (title report) "completed_by"])%list
            else memory_entries
        | None => memory_entries
        end) memory_entries) memory_entries in
  memory_entries.

(** ** json.dumps *)

Definition BACKSLASH : string := String "092"%char EmptyString.

Definition hex_digit (n : nat) : ascii :=
  if (n <? 10)%nat then ascii_of_nat (48 + n) else ascii_of_nat (87 + n).

(** One character inside a JSON string, with [ensure_ascii=True]: all
    but the printable ASCII characters are escaped; a character code is
    taken as its code point. *)
Definition json_escape_char (c : ascii) : string :=
  let n := code c in
  if (n =? 34)%nat then BACKSLASH ++ QUOTE
  else if (n =? 92)%nat then BACKSLASH ++ BACKSLASH
  else if (n =? 10)%nat then BACKSLASH ++ "n"
  else if (n =? 13)%nat then BACKSLASH ++ "r"
  else if (n =? 9)%nat then BACKSLASH ++ "t"
  else if (n =? 8)%nat then BACKSLASH ++ "b"
  else if (n =? 12)%nat then BACKSLASH ++ "f"
  else if (n <? 32)%nat || (126 <? n)%nat then
    BACKSLASH ++ "u00"
    ++ String (hex_digit (n / 16)) (String (hex_digit (n mod 16)) EmptyString)
  else String c EmptyString.

Fixpoint json_escape (s : string) : string :=
  match s with
  | EmptyString => EmptyString
  | String c r => json_escape_char c ++ json_escape r
  end.

Definition json_string (s : string) : string :=
  QUOTE ++ json_escape s ++ QUOTE.

Definition json_key (k : string) : string := json_string k ++ ": ".

(** [json.dumps(entry)]: keys in insertion order, separators [", "] and
    [": "]. *)
Definition json_dumps (entry : MemoryEntry) : string :=
  match entry with
  | Entity name entityType observations =>
      "{" ++ json_key "type" ++ json_string "entity"
      ++ ", " ++ json_key "name" ++ json_string name
      ++ ", " ++ json_key "entityType" ++ json_string entityType
      ++ ", " ++ json_key "observations"
      ++ "[" ++ join ", " (map json_string observations) ++ "]" ++ "}"
  | Relation from to relationType =>
      "{" ++ json_key "type" ++ json_string "relation"
      ++ ", " ++ json_key "from" ++ json_string from
      ++ ", " ++ json_key "to" ++ json_string to
      ++ ", " ++ json_key "relationType" ++ json_string relationType ++ "}"
  end.

(** What the [for entry in memory_entries: f.write(...)] loop leaves in
    the memory file. *)
Definition memory_text (memory_entries : list MemoryEntry) : string :=
  for_each memory_entries
    (fun written entry => written ++ json_dumps entry ++ NL) EmptyString.

(** ** The host file system *)

(** Regular files with their text, in the order the file system lists
    them, and the directories.  Symbolic links, permissions and encodings
    are outside the model. *)
Record FS : Type := mkFS {
  files : list (string * string);
  dirs : list string
}.

Fixpoint lookup (p : string) (l : list (string * string)) : option string :=
  match l with
  | [] => None
  | (q, text) :: rest => if q =? p then Some text else lookup p rest
  end.

(** [open(p).read()]; [None] stands for the [OSError] raised when [p] is
    not a regular file. *)
Definition read_text (fs : FS) (p : string) : option string :=
  lookup p (files fs).

Definition is_file (fs : FS) (p : string) : bool :=
  match read_text fs p with Some _ => true | None => false end.

Definition is_dir (fs : FS) (p : string) : bool :=
  existsb (String.eqb p) (dirs fs).

(** [p.exists()] *)
Definition exists_ (fs : FS) (p : string) : bool :=
  is_file fs p || is_dir fs p.

(** An existing file keeps its place in the listing, a new one comes last. *)
Fixpoint store (p text : string) (l : list (string * string))
  : list (string * string) :=
  match l with
  | [] => [(p, text)]
  | (q, old) :: rest =>
      if q =? p then (p, text) :: rest else (q, old) :: store p text rest
  end.

Definition parent_exists (fs : FS) (p : string) : bool :=
  (parent p =? ".") || (parent p =? "/") || is_dir fs (parent p).

(** [open(p, "w").write(text)]: a regular file is overwritten; a new
    file needs its parent directory.  [None] stands for the [OSError]
    raised when [p] is a directory or the parent directory is missing. *)
Definition write_text (fs : FS) (p text : string) : option FS :=
  let written := {| files := store p text (files fs); dirs := dirs fs |} in
  if is_file fs p then Some written
  else if is_dir fs p then None
  else if parent_exists fs p then Some written
  else None.

Fixpoint add_dirs (new : list string) (ds : list string) : list string :=
  match new with
  | [] => ds
  | d :: rest =>
      add_dirs rest (if existsb (String.eqb d) ds then ds else (ds ++ [d])%list)
  end.

(** [p.mkdir(parents=True, exist_ok=True)]; [None] stands for the
    [OSError] raised when a regular file stands in the way. *)
Definition mkdir_p (fs : FS) (p : string) : option FS :=
  if existsb (is_file fs) (p :: ancestors p) then None
  else Some {| files := files fs;
               dirs := add_dirs (rev (ancestors p) ++ [p])%list (dirs fs) |}.

(** [directory.glob("**/*.md")]: the entries below [directory] whose name
    ends in [.md], in listing order. *)
Definition glob_md (fs : FS) (directory : string) : list string :=
  map fst
    (filter (fun entry => startswith (directory ++ "/") (fst entry)
                          && endswith ".md" (fst entry))
            (files fs)).

(** How a run ends: by returning, by an exception nobody catches, or by
    [sys.exit]. *)
Inductive Completion : Type :=
| Normal
| Uncaught
| SysExit (status : Z).

Record Run : Type := mkRun {
  final : FS;
  stdout : list string;
  completion : Completion
}.

(** [print(line)] after the lines printed so far. *)
Definition print (out : list string) (line : string) : list string :=
  (out ++ [line])%list.

Section Host.

(** [Path.home()] and [Path.cwd()]. *)
Variable HOME CWD : string.
(** The text an [OSError] about a path prints as. *)
Variable strerror : string -> string.
(** The built-in stage template and [template.format(phase=, stage=,
    name=)], which raises on a malformed template. *)
Variable STAGE_TMPL : string.
Variable format_template : string -> Z -> Z -> string -> option string.
(** The two commands this development does not look into. *)
Variable setup_framework : FS -> Run.
Variable create_report : Z -> Z -> option string -> string -> FS -> Run.

Definition PROJECT : string := name CWD.
Definition CLAUDE_MEM : string :=
  joinpath (joinpath (joinpath HOME "Library/Application Support/Claude")
                     PROJECT) "memory.jsonl".
Definition LOCAL_MEM : string :=
  joinpath (joinpath CWD ".claude") "memory.jsonl".

(** ** choose_memory *)

Definition choose_memory (fs : FS) : option (string * FS) :=
  let mem_path :=
    if exists_ fs (parent CLAUDE_MEM) then CLAUDE_MEM else LOCAL_MEM in
  match mkdir_p fs (parent mem_path) with
  | Some fs => Some (mem_path, fs)
  | None => None
  end.

(** ** get_all_docs *)

Definition get_all_docs (fs : FS) : list string :=
  let markdown_files : list string := [] in
  let markdown_files :=
    for_each [CLIENT_SPEC; ROADMAP; PROGRESS] (fun markdown_files item =>
      if exists_ fs item then (markdown_files ++ [item])%list
      else markdown_files) markdown_files in
  let markdown_files :=
    for_each [PHASES; STAGES; REPORTS] (fun markdown_files directory =>
      if exists_ fs directory then
        for_each (glob_md fs directory) (fun markdown_files file =>
          if is_file fs file then (markdown_files ++ [file])%list
          else markdown_files) markdown_files
      else markdown_files) markdown_files in
  markdown_files.

(** ** extract_metadata, with the file read *)

Definition extract_metadata (fs : FS) (file_path : string)
  : option Document * list string :=
  match read_text fs file_path with
  | Some text => (Some (metadata file_path text), [])
  | None =>
      (None, ["Error processing " ++ file_path ++ ": " ++ strerror file_path])
  end.

(** ** update_progress_log *)

Definition ACTIVITY_LOG : string := "## Activity Log".
Definition MEMORY_SYNC_LOG : string := "## Memory Sync Log".

(** The first [if]/[else] of the body: the activity entry. *)
Definition with_activity_entry (timestamp action text : string) : string :=
  let activity_entry := "- " ++ timestamp ++ ": " ++ action in
  if contains ACTIVITY_LOG text then
    replace ACTIVITY_LOG (ACTIVITY_LOG ++ NL ++ activity_entry) text
  else text ++ NL ++ NL ++ ACTIVITY_LOG ++ NL ++ activity_entry.

(** The [if action.startswith("Sync")] block. *)
Definition with_sync_entry (timestamp action text : string) : string :=
  if startswith "Sync" action then
    let sync_entry := "- " ++ timestamp ++ ": Documentation synchronized" in
    if contains MEMORY_SYNC_LOG text then
      replace MEMORY_SYNC_LOG (MEMORY_SYNC_LOG ++ NL ++ sync_entry) text
    else text ++ NL ++ NL ++ MEMORY_SYNC_LOG ++ NL ++ sync_entry
  else text.

(** The [re.sub] over the [updated] field. *)
Definition with_updated_field (timestamp text : string) : string :=
  Re.sub_updated ("updated: " ++ QUOTE ++ timestamp ++ QUOTE) text.

Definition update_progress_log (timestamp action : string) (fs : FS)
  : bool * FS * list string :=
  if negb (exists_ fs PROGRESS) then (false, fs, [])
  else
    let failed := "Error updating progress log: " ++ strerror PROGRESS in
    match read_text fs PROGRESS with
    | None => (false, fs, [failed])
    | Some text =>
        let text := with_activity_entry timestamp action text in
        let text := with_sync_entry timestamp action text in
        let text := with_updated_field timestamp text in
        match write_text fs PROGRESS text with
        | Some fs => (true, fs, [])
        | None => (false, fs, [failed])
        end
    end.

(** ** sync_memory *)

Definition str_of_len {A : Type} (l : list A) : string :=
  str_of_int (Z.of_nat (List.length l)).

(** [[extract_metadata(doc) for doc in docs]] with what it prints. *)
Definition extract_all (fs : FS) (docs : list string)
  : list (option Document) * list string :=
  for_each docs (fun acc doc =>
    let '(documents, printed) := acc in
    let '(document, lines) := extract_metadata fs doc in
    ((documents ++ [document])%list, (printed ++ lines)%list)) ([], []).

(** [[doc for doc in documents if doc]] *)
Definition valid (documents : list (option Document))
  : list (option Document) :=
  filter (fun doc => match doc with Some _ => true | None => false end)
         documents.

Definition sync_memory (timestamp : string) (fs : FS) : Run :=
  let out := ["Syncing documentation to memory for " ++ PROJECT] in
  let docs := get_all_docs fs in
  match docs with
  | [] => mkRun fs (print out "No documentation found.") Normal
  | _ :: _ =>
      let out :=
        print out ("Found " ++ str_of_len docs ++ " documentation files") in
      let '(documents, printed) := extract_all fs docs in
      let out := (out ++ printed)%list in
      let valid_docs := valid documents in
      let memory_entries := create_memory_entries valid_docs in
      match choose_memory fs with
      | None => mkRun fs out Uncaught
      | Some (mem_path, fs) =>
          match write_text fs mem_path (memory_text memory_entries) with
          | None => mkRun fs out Uncaught
          | Some fs =>
              let out :=
                print out ("Synced " ++ str_of_len memory_entries
                           ++ " entries to " ++ mem_path) in
              let '(_, fs, printed) :=
                update_progress_log timestamp
                  ("Synced " ++ str_of_len valid_docs ++ " documents to memory")
                  fs in
              mkRun fs (out ++ printed)%list Normal
          end
      end
  end.

(** ** create_stage *)

(** [STAGES / filename]; pathlib would also drop empty and [.] components
    of a name that holds slashes. *)
Definition stage_path (phase stage : Z) (name : string) : string :=
  let filename :=
    "stage" ++ str_of_int phase ++ "_" ++ str_of_int stage ++ "-"
    ++ replace " " "-" (lower name) ++ ".md" in
  joinpath STAGES filename.

Definition create_stage (phase stage : Z) (name : string)
  (timestamp : string) (fs : FS) : Run :=
  match mkdir_p fs STAGES with
  | None => mkRun fs [] Uncaught
  | Some fs =>
      let stage_file := stage_path phase stage name in
      if exists_ fs stage_file then
        mkRun fs ["Error: " ++ stage_file ++ " already exists."] Normal
      else
        let template_file := joinpath TEMPLATES "stage_template.md" in
        let chosen :=
          if negb (exists_ fs template_file) then
            Some (STAGE_TMPL,
                  ["Using built-in template (no file found at "
                   ++ template_file ++ ")"])
          else option_map (fun text => (text, [])) (read_text fs template_file)
        in
        match chosen with
        | None => mkRun fs [] Uncaught
        | Some (template, out) =>
            match format_template template phase stage name with
            | None => mkRun fs out Uncaught
            | Some text =>
                match write_text fs stage_file text with
                | None => mkRun fs out Uncaught
                | Some fs =>
                    let out :=
                      print out ("Created stage document: " ++ stage_file) in
                    let '(_, fs, printed) :=
                      update_progress_log timestamp
                        ("Created stage document: Stage " ++ str_of_int phase
                         ++ "." ++ str_of_int stage ++ ": " ++ name) fs in
                    mkRun fs (out ++ printed)%list Normal
                end
            end
        end
  end.

(** ** main *)

(** The namespace [parse_args] returns: four [store_true] flags, two
    [type=int] options and one [type=str] option, [None] when not given. *)
Record Args : Type := mkArgs {
  arg_setup : bool;
  arg_sync : bool;
  arg_create_stage : bool;
  arg_create_report : bool;
  arg_phase : option Z;
  arg_stage : option Z;
  arg_name : option string
}.

(** Truth value of an optional [int]: [None] and [0] are false. *)
Definition truthy_int (v : option Z) : bool :=
  match v with
  | Some n => negb (n =? 0)%Z
  | None => false
  end.

(** Truth value of an optional [str]: [None] and the empty string are
    false. *)
Definition truthy_str (v : option string) : bool :=
  match v with
  | Some s => negb (s =? EmptyString)
  | None => false
  end.

Definition STAGE_USAGE : list string :=
  [ "Error: phase, stage, and name are required to create a stage";
    "Example: python akro.py --create-stage --phase=1 --stage=1 --name="
    ++ QUOTE ++ "Project Setup" ++ QUOTE ].

Definition REPORT_USAGE : list string :=
  [ "Error: phase and stage are required to create a report";
    "Example: python akro.py --create-report --phase=1 --stage=1" ].

Definition HELP : list string :=
  [ "Akro - Document-Driven Development Framework";
    NL ++ "Usage:";
    "  python akro.py --setup                    Initialize the framework";
    "  python akro.py --sync                     Sync documentation to memory";
    "  python akro.py --create-stage [options]   Create a stage document";
    "  python akro.py --create-report [options]  Create a completion report";
    NL ++ "Examples:";
    "  python akro.py --setup";
    "  python akro.py --sync";
    "  python akro.py --create-stage --phase=1 --stage=1 --name="
    ++ QUOTE ++ "Project Setup" ++ QUOTE;
    "  python akro.py --create-report --phase=1 --stage=1";
    NL ++ "See README.md for more details on the methodology." ].

Definition main (args : Args) (timestamp : string) (fs : FS) : Run :=
  if arg_setup args then setup_framework fs
  else if arg_sync args then sync_memory timestamp fs
  else if arg_create_stage args then
    if negb (truthy_int (arg_phase args)) || negb (truthy_int (arg_stage args))
       || negb (truthy_str (arg_name args))
    then mkRun fs STAGE_USAGE (SysExit 1)
    else
      match arg_phase args, arg_stage args, arg_name args with
      | Some phase, Some stage, Some name =>
          create_stage phase stage name timestamp fs
      | _, _, _ => mkRun fs [] Uncaught
      end
  else if arg_create_report args then
    if negb (truthy_int (arg_phase args)) || negb (truthy_int (arg_stage args))
    then mkRun fs REPORT_USAGE (SysExit 1)
    else
      match arg_phase args, arg_stage args with
      | Some phase, Some stage =>
          create_report phase stage (arg_name args) timestamp fs
      | _, _ => mkRun fs [] Uncaught
      end
  else mkRun fs HELP (SysExit 1).

End Host.

(** ** Vocabulary of the statements *)

(** The documents of a list, failures left out. *)
Definition present (documents : list (option Document)) : list Document :=
  flat_map (fun doc => match doc with Some d => [d] | None => [] end)
           documents.

Definition is_entity (entry : MemoryEntry) : bool :=
  match entry with Entity _ _ _ => true | Relation _ _ _ => false end.

Definition is_relation (entry : MemoryEntry) : bool :=
  match entry with Entity _ _ _ => false | Relation _ _ _ => true end.

(** The relation records of one [relationType]. *)
Definition of_type (relationType : string) (entry : MemoryEntry) : bool :=
  match entry with
  | Entity _ _ _ => false
  | Relation _ _ ty => ty =? relationType
  end.

(** Relations of one type only. *)
Definition all_typed (ty : string) (entries : list MemoryEntry) : Prop :=
  Forall (fun e => of_type ty e = true) entries.

(** A string with its first letter capitalized and the rest as it is. *)
Definition upper_first (s : string) : string :=
  match s with
  | EmptyString => EmptyString
  | String c r => String (to_upper c) r
  end.

(** The seven categories of the data model. *)
Definition CATEGORIES : list string :=
  ["spec"; "roadmap"; "progress"; "phase"; "stage"; "report"; "document"].

(** The decision each rule takes for one pair of documents. *)
Definition implements_link (phase stage : Document) : bool :=
  match Re.stage_phase_search (title stage) with
  | Some phase_num => contains ("Phase " ++ phase_num) (title phase)
  | None => false
  end.

Definition completed_by_link (stage report : Document) : bool :=
  match Re.stage_id_search (title stage) with
  | Some stage_id => contains stage_id (title report)
  | None => false
  end.

(** What each of the five rules appends, as a function of the documents. *)
Definition informs_part (documents : list (option Document))
  : list MemoryEntry :=
  match first_of_category "spec" documents,
        first_of_category "roadmap" documents with
  | Some spec, Some roadmap =>
      [Relation (title spec) (title roadmap) "informs"]
  | _, _ => []
  end.

Definition tracks_part (documents : list (option Document))
  : list MemoryEntry :=
  match first_of_category "progress" documents with
  | Some progress =>
      map (fun d => Relation (title progress) (title d) "tracks")
          (filter (fun d => negb (Document_eqb d progress)) (present documents))
  | None => []
  end.

Definition contains_part (documents : list (option Document))
  : list MemoryEntry :=
  match first_of_category "roadmap" documents with
  | Some roadmap =>
      map (fun phase => Relation (title roadmap) (title phase) "contains")
          (all_of_category "phase" documents)
  | None => []
  end.

Definition implements_part (documents : list (option Document))
  : list MemoryEntry :=
  flat_map (fun stage =>
    flat_map (fun phase =>
      if implements_link phase stage
      then [Relation (title phase) (title stage) "implements"]
      else [])
      (all_of_category "phase" documents))
    (all_of_category "stage" documents).

Definition completed_by_part (documents : list (option Document))
  : list MemoryEntry :=
  flat_map (fun stage =>
    flat_map (fun report =>
      if completed_by_link stage report
      then [Relation (title stage) (title report) "completed_by"]
      else [])
      (all_of_category "report" documents))
    (all_of_category "stage" documents).

(** ** The two insertions as the specification words them *)

(** [s.split("\n")] *)
Fixpoint lines_from (current s : string) : list string :=
  match s with
  | EmptyString => [current]
  | String c r =>
      if Ascii.eqb c "010"%char then current :: lines_from EmptyString r
      else lines_from (current ++ String c EmptyString) r
  end.

Definition lines (s : string) : list string := lines_from EmptyString s.



(** [line] put on a line of its own after the first [marker] only. *)
Fixpoint insert_after_first (marker line s : string) : string :=
  if startswith marker s then
    marker ++ NL ++ line ++ drop (String.length marker) s
  else
    match s with
    | EmptyString => EmptyString
    | String c r => String c (insert_after_first marker line r)
    end.

(** The activity step when only the first marker gains the entry. *)
Definition claimed_activity_entry (timestamp action text : string) : string :=
  let activity_entry := "- " ++ timestamp ++ ": " ++ action in
  if contains ACTIVITY_LOG text then
    insert_after_first ACTIVITY_LOG activity_entry text
  else text ++ NL ++ NL ++ ACTIVITY_LOG ++ NL ++ activity_entry.

(** [old] occurs in [pre ++ old ++ post] right after [pre] and nowhere
    earlier. *)
Definition FirstOccurrence (old pre post : string) : Prop :=
  forall pre1 pre2,
    pre = pre1 ++ pre2 -> pre2 <> EmptyString ->
    startswith old (pre2 ++ old ++ post) = false.

(** No occurrence of [old] starts inside [pre] when [rest] follows. *)
Fixpoint starts_nowhere (old pre rest : string) : bool :=
  match pre with
  | EmptyString => true
  | String _ pre' =>
      negb (startswith old (pre ++ rest)) && starts_nowhere old pre' rest
  end.

(** The memory file a sync run writes, read back after the run: the file
    at the path [choose_memory] picks when the run starts. *)
Definition memory_file_of_run (HOME CWD : string) (before after : FS)
  : option string :=
  match choose_memory HOME CWD before with
  | Some (mem_path, _) => read_text after mem_path
  | None => None
  end.

(** The records of the documents as they stand in [fs], serialized: what
    a sync run that starts in [fs] has to write. *)
Definition synced_text (strerror : string -> string) (fs : FS) : string :=
  memory_text
    (create_memory_entries
       (valid (fst (extract_all strerror fs (get_all_docs fs))))).

(** An absolute path: what [Path.home()] and [Path.cwd()] return. *)
Definition absolute (p : string) : Prop := startswith "/" p = true.

(** Two file systems that show the same below [docs]. *)
Definition same_docs (fs fs' : FS) : Prop :=
  (forall p, startswith "docs" p = true ->
             read_text fs' p = read_text fs p /\ is_dir fs' p = is_dir fs p)
  /\ (forall d, startswith "docs" d = true -> glob_md fs' d = glob_md fs d).

(** The command line with one option left out. *)
Definition without_phase (args : Args) : Args :=
  mkArgs (arg_setup args) (arg_sync args) (arg_create_stage args)
         (arg_create_report args) None (arg_stage args) (arg_name args).

Definition without_stage (args : Args) : Args :=
  mkArgs (arg_setup args) (arg_sync args) (arg_create_stage args)
         (arg_create_report args) (arg_phase args) None (arg_name args).

Definition without_name (args : Args) : Args :=
  mkArgs (arg_setup args) (arg_sync args) (arg_create_stage args)
         (arg_create_report args) (arg_phase args) (arg_stage args) None.

(** ** Sample inputs *)

Definition sample_spec : Document :=
  mkDocument "docs/client_spec.md" "Client Specification" "spec"
             "# Client Specification".

Definition sample_progress : Document :=
  mkDocument "docs/progress.md" "Project Progress Log" "progress"
             "# Project Progress Log".

Definition sample_phase : Document :=
  mkDocument "docs/phases/phase2.md" "Phase 2: Core" "phase" "# Phase 2: Core".

Definition sample_stage : Document :=
  mkDocument "docs/stages/stage2_1-auth.md" "Stage 2.1: Auth" "stage"
             "# Stage 2.1: Auth".



Definition sample_docs : list Document :=
  [sample_spec; sample_progress; sample_stage].

Definition sample_home : string := "/home/dev".
Definition sample_cwd : string := "/work/demo".
Definition sample_strerror (p : string) : string :=
  "[Errno 2] No such file or directory: " ++ p.
Definition sample_tmpl : string := "# STAGE {phase}.{stage}: {name}".
Definition sample_format (template : string) (phase stage : Z) (name : string)
  : option string :=
  Some ("# STAGE " ++ str_of_int phase ++ "." ++ str_of_int stage ++ ": " ++ name).

Definition T1 : string := "2026-01-05T09:00:00.000001".
Definition T2 : string := "2026-01-05T09:05:00.000002".

(** A project with a progress log only. *)
Definition sample_fs : FS :=
  mkFS [("docs/progress.md", "# Log" ++ NL ++ "## Activity Log" ++ NL ++ "- old line")]
       ["docs"].

(** A progress log with two activity markers. *)
Definition two_markers : string :=
  "## Activity Log" ++ NL ++ "- a" ++ NL ++ "## Activity Log" ++ NL ++ "- b".

Definition two_markers_fs : FS :=
  mkFS [("docs/progress.md", two_markers)] ["docs"].

(** Two sync runs in a row on the sample project. *)
Definition first_sync : Run :=
  sync_memory sample_home sample_cwd sample_strerror T1 sample_fs.

Definition second_sync : Run :=
  sync_memory sample_home sample_cwd sample_strerror T2 (final first_sync).

(** The first [create_stage] call on the sample project. *)
Definition first_stage : Run :=
  create_stage sample_strerror sample_tmpl sample_format 1 2 "My Setup" T1
               sample_fs.

(** A project without a progress log. *)
Definition no_log_fs : FS :=
  mkFS [("docs/client_spec.md", "# Client Specification")] ["docs"].

End Akro.

(* ================================================================== *)
(** * Completion reports *)
(* ================================================================== *)

Module AkroReport.

Import PyPath Akro.

Definition STAGE_COMPLETION_LOG : string := "## Stage Completion Log".
Definition CURRENT_STATUS : string := "## Current Status".

(** What follows the first hyphen of [s], if there is one. *)
Fixpoint behind_hyphen (s : string) : option string :=
  match s with
  | EmptyString => None
  | String c r => if Ascii.eqb c "-"%char then Some r else behind_hyphen r
  end.

(** [s.split("-", 1)[-1]] *)
Definition last_of_split (s : string) : string :=
  match behind_hyphen s with
  | Some r => r
  | None => s
  end.

(** [f"stage{phase}_{stage}"]: the literal part of the glob pattern. *)
Definition stage_prefix (phase stage : Z) : string :=
  "stage" ++ str_of_int phase ++ "_" ++ str_of_int stage.

(** The names the pattern [stage{phase}_{stage}*.md] accepts: the prefix,
    then anything, then [.md]. *)
Definition stage_pattern (phase stage : Z) (entry_name : string) : bool :=
  startswith (stage_prefix phase stage) entry_name
  && endswith ".md"
       (drop (String.length (stage_prefix phase stage)) entry_name).

(** [STAGES.glob(f"stage{phase}_{stage}*.md")]: the entries right in
    [docs/stages] whose name the pattern accepts, regular files and
    directories alike, and nothing when [docs/stages] is no directory.
    The order among several matches is the host's; here the regular
    files come first, in listing order, and the directories behind
    them. *)
Definition glob_stage (fs : FS) (phase stage : Z) : list string :=
  if is_dir fs STAGES then
    filter (fun entry =>
              (parent entry =? STAGES)
              && stage_pattern phase stage (name entry))
           (map fst (files fs) ++ dirs fs)%list
  else [].

(** [REPORTS / filename] *)
Definition report_path (phase stage : Z) (name : string) : string :=
  let filename :=
    "report" ++ str_of_int phase ++ "_" ++ str_of_int stage ++ "-"
    ++ replace " " "-" (lower name) ++ ".md" in
  joinpath REPORTS filename.

(** The [if]/[else] cascade over the stage completion section. *)
Definition with_completion_entry (timestamp : string) (phase stage : Z)
  (name text : string) : string :=
  let completion_entry :=
    "- " ++ timestamp ++ ": Stage " ++ str_of_int phase ++ "."
    ++ str_of_int stage ++ ": " ++ name ++ " completed" in
  if contains STAGE_COMPLETION_LOG text then
    replace STAGE_COMPLETION_LOG
            (STAGE_COMPLETION_LOG ++ NL ++ completion_entry) text
  else if contains CURRENT_STATUS text then
    replace CURRENT_STATUS
            (CURRENT_STATUS ++ NL ++ NL ++ STAGE_COMPLETION_LOG ++ NL
             ++ completion_entry) text
  else text ++ NL ++ NL ++ STAGE_COMPLETION_LOG ++ NL ++ completion_entry.

Section Host.

Variable strerror : string -> string.
(** The built-in report template and [template.format(phase=, stage=,
    name=)]. *)
Variable REPORT_TMPL : string.
Variable format_template : string -> Z -> Z -> string -> option string.
(** Group 1 of the search for the stage heading, whose pattern starts with
    a hash, a blank and a construction-sign emoji before [STAGE]. *)
Variable stage_heading_name : string -> option string.

(** The [if name is None] block: the name, or the way the block ends the
    call.  [ReadFailed] is the [OSError] of [open(stage_file)], raised
    when the first entry found is a directory. *)
Inductive Named : Type :=
| Name (name : string)
| NoStage
| ReadFailed.

Definition resolve_name (phase stage : Z) (name : option string) (fs : FS)
  : Named :=
  match name with
  | Some name => Name name
  | None =>
      match glob_stage fs phase stage with
      | [] => NoStage
      | stage_file :: _ =>
          match read_text fs stage_file with
          | None => ReadFailed
          | Some text =>
              match stage_heading_name text with
              | Some group1 => Name group1
              | None =>
                  Name (PyStr.title
                          (replace "-" " " (last_of_split (stem stage_file))))
              end
          end
      end
  end.

(** The closing [if PROGRESS.exists()] block; [timestamp] is its own call
    of [get_timestamp]. *)
Definition log_completion (timestamp : string) (phase stage : Z)
  (name : string) (fs : FS) : FS * list string :=
  if exists_ fs PROGRESS then
    let failed :=
      "Error updating Stage Completion Log: " ++ strerror PROGRESS in
    match read_text fs PROGRESS with
    | None => (fs, [failed])
    | Some text =>
        match write_text fs PROGRESS
                (with_completion_entry timestamp phase stage name text) with
        | Some fs => (fs, [])
        | None => (fs, [failed])
        end
    end
  else (fs, []).

Definition create_report (phase stage : Z) (name : option string)
  (timestamp completed_at : string) (fs : FS) : Run :=
  match mkdir_p fs REPORTS with
  | None => mkRun fs [] Uncaught
  | Some fs =>
      match resolve_name phase stage name fs with
      | NoStage =>
          mkRun fs ["Error: No stage document found for Stage "
                    ++ str_of_int phase ++ "." ++ str_of_int stage] Normal
      | ReadFailed => mkRun fs [] Uncaught
      | Name name =>
          let report_file := report_path phase stage name in
          if exists_ fs report_file then
            mkRun fs ["Error: " ++ report_file ++ " already exists."] Normal
          else
            let template_file := joinpath TEMPLATES "report_template.md" in
            let chosen :=
              if negb (exists_ fs template_file) then
                Some (REPORT_TMPL,
                      ["Using built-in template (no file found at "
                       ++ template_file ++ ")"])
              else option_map (fun text => (text, []))
                              (read_text fs template_file) in
            match chosen with
            | None => mkRun fs [] Uncaught
            | Some (template, out) =>
                match format_template template phase stage name with
                | None => mkRun fs out Uncaught
                | Some text =>
                    match write_text fs report_file text with
                    | None => mkRun fs out Uncaught
                    | Some fs =>
                        let out :=
                          print out ("Created completion report: "
                                     ++ report_file) in
                        let '(_, fs, printed) :=
                          update_progress_log strerror timestamp
                            ("Created completion report for Stage "
                             ++ str_of_int phase ++ "." ++ str_of_int stage
                             ++ ": " ++ name) fs in
                        let out := (out ++ printed)%list in
                        let '(fs, printed) :=
                          log_completion completed_at phase stage name fs in
                        mkRun fs (out ++ printed)%list Normal
                end
            end
            end
      end
  end.

End Host.

(** ** Vocabulary of the further statements *)

(** How often a character occurs. *)
Fixpoint count_char (c : ascii) (s : string) : nat :=
  match s with
  | EmptyString => O
  | String a r => (if Ascii.eqb a c then 1 else 0) + count_char c r
  end.

(** No double quote in the string. *)
Fixpoint no_quote (s : string) : bool :=
  match s with
  | EmptyString => true
  | String c r => negb (Ascii.eqb c "034"%char) && no_quote r
  end.

(** The five relation types. *)
Definition RELATION_TYPES : list string :=
  ["informs"; "tracks"; "contains"; "implements"; "completed_by"].

(** The first document of a category: [d] with what stands before and
    after it. *)
Definition FirstOfCategory (cat : string) (docs : list Document)
  (d : Document) : Prop :=
  exists before after,
    docs = (before ++ d :: after)%list
    /\ category d = cat
    /\ forall x, In x before -> category x <> cat.

Definition sample_roadmap : Document :=
  mkDocument "docs/project_roadmap.md" "Project Roadmap" "roadmap"
             "# Project Roadmap".

(** A project with a stage document and no report. *)
Definition stage_only_fs : FS :=
  mkFS [("docs/stages/stage1_2-my-setup.md", "# Stage 1.2: My Setup");
        ("docs/progress.md",
         "# Log" ++ NL ++ "## Current Status" ++ NL ++ "- started")]
       ["docs"; "docs/stages"].

(** A project where a directory bears the name of a stage document. *)
Definition stage_directory_fs : FS :=
  mkFS [("docs/progress.md", "# Log")]
       ["docs"; "docs/stages"; "docs/stages/stage1_2-drafts.md"].

End AkroReport.

(* ================================================================== *)
(** * Facts about the string operations *)
(* ================================================================== *)

Module PyStrFacts.

Lemma append_nil_r (s : string) : s ++ EmptyString = s.
Proof. induction s as [|c s IH]; simpl; [reflexivity | now rewrite IH]. Qed.

Lemma append_assoc (a b c : string) : (a ++ b) ++ c = a ++ (b ++ c).
Proof. induction a as [|x a IH]; simpl; [reflexivity | now rewrite IH]. Qed.

Lemma length_append (a b : string) :
  String.length (a ++ b) = (String.length a + String.length b)%nat.
Proof. induction a as [|x a IH]; simpl; [reflexivity | now rewrite IH]. Qed.

Lemma append_inv_head (a b c : string) : a ++ b = a ++ c -> b = c.
Proof.
  induction a as [|x a IH]; simpl; intros H; [exact H|].
  injection H as H. auto.
Qed.

Lemma startswith_append (p r : string) : startswith p (p ++ r) = true.
Proof.
  induction p as [|a p IH]; simpl; [reflexivity|].
  now rewrite Ascii.eqb_refl, IH.
Qed.

Lemma startswith_inv (p s : string) :
  startswith p s = true -> exists r, s = p ++ r.
Proof.
  revert s; induction p as [|a p IH]; intros s H.
  - exists s. reflexivity.
  - destruct s as [|b s]; simpl in H; [discriminate|].
    apply andb_true_iff in H as [Hab Hps].
    apply Ascii.eqb_eq in Hab. subst b.
    destruct (IH _ Hps) as [r ->]. exists r. reflexivity.
Qed.

Lemma startswith_iff (p s : string) :
  startswith p s = true <-> exists r, s = p ++ r.
Proof.
  split; [apply startswith_inv|].
  intros [r ->]. apply startswith_append.
Qed.

Lemma startswith_drop (p s : string) :
  startswith p s = true -> s = p ++ drop (String.length p) s.
Proof.
  intros H. destruct (startswith_inv _ _ H) as [r ->]. f_equal.
  clear H. induction p as [|a p IH]; simpl; [now destruct r | exact IH].
Qed.

Lemma drop_append (a b : string) : drop (String.length a) (a ++ b) = b.
Proof. induction a as [|x a IH]; simpl; [now destruct b | exact IH]. Qed.

Lemma take_append (a b : string) : take (String.length a) (a ++ b) = a.
Proof.
  induction a as [|x a IH]; simpl; [now destruct b | now rewrite IH].
Qed.

Lemma contains_startswith (needle s : string) :
  startswith needle s = true -> contains needle s = true.
Proof. intros H. destruct s; simpl; now rewrite H. Qed.

(** [needle in s] holds exactly when [s] splits around [needle]. *)
Lemma contains_iff (needle s : string) :
  contains needle s = true <-> Substring needle s.
Proof.
  split.
  - induction s as [|c s IH]; simpl; intros H.
    + rewrite orb_false_r in H. apply startswith_inv in H as [r Hr].
      exists EmptyString, r. exact Hr.
    + apply orb_true_iff in H as [H|H].
      * apply startswith_inv in H as [r Hr].
        exists EmptyString, r. exact Hr.
      * destruct (IH H) as (pre & post & ->).
        exists (String c pre), post. reflexivity.
  - intros (pre & post & ->).
    induction pre as [|c pre IH]; simpl.
    + apply contains_startswith, startswith_append.
    + rewrite IH. apply orb_true_r.
Qed.

Lemma contains_false_iff (needle s : string) :
  contains needle s = false <-> ~ Substring needle s.
Proof.
  rewrite <- contains_iff. destruct (contains needle s); split; intros H.
  - discriminate.
  - now elim H.
  - discriminate.
  - reflexivity.
Qed.

End PyStrFacts.

(* ================================================================== *)
(** * Facts about the inference engine *)
(* ================================================================== *)

Module EngineFacts.

Import Akro PyStrFacts.

(** A loop that only appends is an append of what each round emits. *)
Lemma for_each_emit {A B : Type} (emit : A -> list B)
  (body : list B -> A -> list B) (items : list A) :
  (forall acc x, body acc x = (acc ++ emit x)%list) ->
  forall init, for_each items body init = (init ++ flat_map emit items)%list.
Proof.
  intros Hbody. unfold for_each.
  induction items as [|x items IH]; intros init; simpl.
  - now rewrite app_nil_r.
  - rewrite IH, Hbody. now rewrite <- app_assoc.
Qed.

Lemma flat_map_singleton {A B : Type} (f : A -> B) (l : list A) :
  flat_map (fun x => [f x]) l = map f l.
Proof. induction l as [|x l IH]; simpl; [reflexivity | now rewrite IH]. Qed.

Lemma flat_map_option_filter {A B : Type} (keep : A -> bool) (f : A -> B)
  (l : list A) :
  flat_map (fun x => if keep x then [f x] else []) l = map f (filter keep l).
Proof.
  induction l as [|x l IH]; simpl; [reflexivity|].
  destruct (keep x); simpl; now rewrite IH.
Qed.

Lemma flat_map_present {B : Type} (f : Document -> list B)
  (documents : list (option Document)) :
  flat_map (fun doc => match doc with Some d => f d | None => [] end) documents
  = flat_map f (present documents).
Proof.
  unfold present.
  induction documents as [|[d|] documents IH]; simpl.
  - reflexivity.
  - now rewrite IH.
  - exact IH.
Qed.

(** The output of [create_memory_entries], rule by rule. *)
Lemma create_memory_entries_parts (documents : list (option Document)) :
  create_memory_entries documents
  = (map (fun d => Entity (title d) (capitalize (category d)) [content d])
         (present documents)
     ++ informs_part documents
     ++ tracks_part documents
     ++ contains_part documents
     ++ implements_part documents
     ++ completed_by_part documents)%list.
Proof.
  unfold create_memory_entries.
  rewrite (for_each_emit
             (fun doc => match doc with
                         | Some d => [Entity (title d) (capitalize (category d))
                                             [content d]]
                         | None => []
                         end)).
  2:{ intros acc [d|]; [reflexivity | now rewrite app_nil_r]. }
  rewrite flat_map_present, flat_map_singleton. simpl.
  set (entities := map _ (present documents)).
  rewrite (for_each_emit
             (fun stage =>
                flat_map (fun report =>
                  if completed_by_link stage report
                  then [Relation (title stage) (title report) "completed_by"]
                  else []) (all_of_category "report" documents))).
  2:{ intros acc stage. apply for_each_emit. intros acc' report.
      unfold completed_by_link.
      destruct (Re.stage_id_search (title stage)) as [stage_id|];
        [destruct (contains stage_id (title report))|];
        now rewrite ?app_nil_r. }
  rewrite (for_each_emit
             (fun stage =>
                flat_map (fun phase =>
                  if implements_link phase stage
                  then [Relation (title phase) (title stage) "implements"]
                  else []) (all_of_category "phase" documents))).
  2:{ intros acc stage. unfold implements_link.
      destruct (Re.stage_phase_search (title stage)) as [phase_num|].
      - apply for_each_emit. intros acc' phase.
        destruct (contains _ (title phase)); now rewrite ?app_nil_r.
      - clear. induction (all_of_category "phase" documents); simpl;
          [now rewrite app_nil_r | assumption]. }
  fold (implements_part documents) (completed_by_part documents).
  assert (Hcontains :
    forall acc,
      match first_of_category "roadmap" documents with
      | Some roadmap =>
          for_each (all_of_category "phase" documents)
            (fun memory_entries phase =>
               (memory_entries ++
                [Relation (title roadmap) (title phase) "contains"])%list) acc
      | None => acc
      end = (acc ++ contains_part documents)%list).
  { intros acc. unfold contains_part.
    destruct (first_of_category "roadmap" documents) as [roadmap|].
    - rewrite (for_each_emit
                 (fun phase => [Relation (title roadmap) (title phase) "contains"]))
        by reflexivity.
      now rewrite flat_map_singleton.
    - now rewrite app_nil_r. }
  rewrite Hcontains.
  assert (Htracks :
    forall acc,
      match first_of_category "progress" documents with
      | Some progress =>
          for_each documents
            (fun memory_entries doc =>
               match doc with
               | Some doc =>
                   if negb (Document_eqb doc progress)
                   then (memory_entries ++
                         [Relation (title progress) (title doc) "tracks"])%list
                   else memory_entries
               | None => memory_entries
               end) acc
      | None => acc
      end = (acc ++ tracks_part documents)%list).
  { intros acc. unfold tracks_part.
    destruct (first_of_category "progress" documents) as [progress|].
    - rewrite (for_each_emit
                 (fun doc => match doc with
                             | Some d =>
                                 if negb (Document_eqb d progress)
                                 then [Relation (title progress) (title d) "tracks"]
                                 else []
                             | None => []
                             end)).
      2:{ intros acc' [d|]; [destruct (negb _)|]; now rewrite ?app_nil_r. }
      now rewrite flat_map_present, flat_map_option_filter.
    - now rewrite app_nil_r. }
  rewrite Htracks.
  assert (Hinforms :
    match first_of_category "spec" documents,
          first_of_category "roadmap" documents with
    | Some spec, Some roadmap =>
        (entities ++ [Relation (title spec) (title roadmap) "informs"])%list
    | _, _ => entities
    end = (entities ++ informs_part documents)%list).
  { unfold informs_part.
    destruct (first_of_category "spec" documents),
             (first_of_category "roadmap" documents);
      now rewrite ?app_nil_r. }

  rewrite Hinforms.
  now rewrite <- !app_assoc.
Qed.

End EngineFacts.

Module RelationFacts.

Import Akro PyStrFacts EngineFacts.

Lemma present_map_Some (docs : list Document) : present (map Some docs) = docs.
Proof.
  unfold present. induction docs as [|d docs IH]; simpl;
    [reflexivity | now rewrite IH].
Qed.

Lemma Document_eqb_eq (a b : Document) : Document_eqb a b = true <-> a = b.
Proof.
  unfold Document_eqb. rewrite !andb_true_iff, !String.eqb_eq.
  destruct a, b; simpl. split.
  - intros [[[-> ->] ->] ->]. reflexivity.
  - intros H. injection H as -> -> -> ->. auto.
Qed.

Lemma Document_eqb_refl (a : Document) : Document_eqb a a = true.
Proof. now apply Document_eqb_eq. Qed.

Lemma filter_all_typed (ty : string) (entries : list MemoryEntry) :
  all_typed ty entries -> filter (of_type ty) entries = entries.
Proof.
  induction 1 as [|e entries He _ IH]; simpl; [reflexivity|].
  now rewrite He, IH.
Qed.

Lemma of_type_other (ty ty' : string) (e : MemoryEntry) :
  ty <> ty' -> of_type ty e = true -> of_type ty' e = false.
Proof.
  destruct e as [| from to t]; simpl; [reflexivity|].
  intros Hne Ht. apply String.eqb_eq in Ht. subst t.
  now apply String.eqb_neq.
Qed.

Lemma filter_other_typed (ty ty' : string) (entries : list MemoryEntry) :
  ty <> ty' -> all_typed ty entries -> filter (of_type ty') entries = [].
Proof.
  intros Hne. induction 1 as [|e entries He _ IH]; simpl; [reflexivity|].
  now rewrite (of_type_other _ _ _ Hne He).
Qed.

Lemma filter_entities (ty : string) (docs : list Document) :
  filter (of_type ty)
         (map (fun d => Entity (title d) (capitalize (category d)) [content d])
              docs) = [].
Proof. induction docs as [|d docs IH]; simpl; [reflexivity | exact IH]. Qed.

Lemma all_typed_flat_map {A : Type} (ty : string) (f : A -> list MemoryEntry)
  (l : list A) :
  (forall x, all_typed ty (f x)) -> all_typed ty (flat_map f l).
Proof.
  intros Hf. unfold all_typed in *. induction l as [|x l IH]; simpl.
  - constructor.
  - apply Forall_app. split; [apply Hf | exact IH].
Qed.

Lemma all_typed_map {A : Type} (ty : string) (from to : A -> string)
  (l : list A) :
  all_typed ty (map (fun x => Relation (from x) (to x) ty) l).
Proof.
  unfold all_typed. apply Forall_map, Forall_forall. intros x _. simpl.
  apply String.eqb_refl.
Qed.

Lemma informs_typed D : all_typed "informs" (informs_part D).
Proof.
  unfold informs_part.
  destruct (first_of_category "spec" D), (first_of_category "roadmap" D);
    repeat constructor.
Qed.

Lemma tracks_typed D : all_typed "tracks" (tracks_part D).
Proof.
  unfold tracks_part. destruct (first_of_category "progress" D) as [p|].
  - apply (all_typed_map "tracks" (fun _ => title p) title).
  - constructor.
Qed.

Lemma contains_typed D : all_typed "contains" (contains_part D).
Proof.
  unfold contains_part. destruct (first_of_category "roadmap" D) as [r|].
  - apply (all_typed_map "contains" (fun _ => title r) title).
  - constructor.
Qed.

Lemma implements_typed D : all_typed "implements" (implements_part D).
Proof.
  unfold implements_part. apply all_typed_flat_map. intros stage.
  apply all_typed_flat_map. intros phase.
  destruct (implements_link phase stage); repeat constructor.
Qed.

Lemma completed_by_typed D : all_typed "completed_by" (completed_by_part D).
Proof.
  unfold completed_by_part. apply all_typed_flat_map. intros stage.
  apply all_typed_flat_map. intros report.
  destruct (completed_by_link stage report); repeat constructor.
Qed.

(** What a filter by relation type keeps of the whole output. *)
Lemma filter_tracks D :
  filter (of_type "tracks") (create_memory_entries D) = tracks_part D.
Proof.
  rewrite create_memory_entries_parts, !filter_app.
  rewrite filter_entities.
  rewrite (filter_other_typed "informs"), (filter_all_typed "tracks"),
    (filter_other_typed "contains"), (filter_other_typed "implements"),
    (filter_other_typed "completed_by");
    try discriminate;
    auto using informs_typed, tracks_typed, contains_typed, implements_typed,
      completed_by_typed.
  simpl. now rewrite app_nil_r.
Qed.

Lemma filter_implements D :
  filter (of_type "implements") (create_memory_entries D) = implements_part D.
Proof.
  rewrite create_memory_entries_parts, !filter_app.
  rewrite filter_entities.
  rewrite (filter_other_typed "informs"), (filter_other_typed "tracks"),
    (filter_other_typed "contains"), (filter_all_typed "implements"),
    (filter_other_typed "completed_by");
    try discriminate;
    auto using informs_typed, tracks_typed, contains_typed, implements_typed,
      completed_by_typed.
  simpl. now rewrite app_nil_r.
Qed.

Lemma filter_completed_by D :
  filter (of_type "completed_by") (create_memory_entries D)
  = completed_by_part D.
Proof.
  rewrite create_memory_entries_parts, !filter_app.
  rewrite filter_entities.
  rewrite (filter_other_typed "informs"), (filter_other_typed "tracks"),
    (filter_other_typed "contains"), (filter_other_typed "implements"),
    (filter_all_typed "completed_by");
    try discriminate;
    auto using informs_typed, tracks_typed, contains_typed, implements_typed,
      completed_by_typed.
Qed.

Lemma relations_only D :
  forallb is_relation
    (informs_part D ++ tracks_part D ++ contains_part D
     ++ implements_part D ++ completed_by_part D)%list = true.
Proof.
  assert (H : forall ty l, all_typed ty l -> forallb is_relation l = true).
  { intros ty l. induction 1 as [|e l He _ IH]; simpl; [reflexivity|].
    rewrite IH. now destruct e. }
  rewrite !forallb_app.
  rewrite (H _ _ (informs_typed D)), (H _ _ (tracks_typed D)),
    (H _ _ (contains_typed D)), (H _ _ (implements_typed D)),
    (H _ _ (completed_by_typed D)).
  reflexivity.
Qed.

(** The first document of a category splits the list. *)
Lemma first_of_category_split (cat : string) (docs : list Document)
  (p : Document) :
  first_of_category cat (map Some docs) = Some p ->
  exists before after,
    docs = (before ++ p :: after)%list
    /\ category p = cat
    /\ forall d, In d before -> category d <> cat.
Proof.
  induction docs as [|d docs IH]; simpl; [discriminate|].
  destruct (category d =? cat) eqn:E.
  - intros [= <-]. exists [], docs. apply String.eqb_eq in E.
    repeat split; auto.
  - intros H. destruct (IH H) as (before & after & -> & Hp & Hb).
    exists (d :: before), after. repeat split; auto.
    intros x [<-|Hx]; [now apply String.eqb_neq | auto].
Qed.

Lemma first_of_category_exists (cat : string) (docs : list Document) :
  (exists d, In d docs /\ category d = cat) ->
  exists p, first_of_category cat (map Some docs) = Some p.
Proof.
  intros (d & Hin & Hd).
  induction docs as [|x docs IH]; simpl; [destruct Hin|].
  destruct (category x =? cat) eqn:E; [now exists x|].
  destruct Hin as [->|Hin]; [|auto].
  apply String.eqb_neq in E. contradiction.
Qed.

Lemma filter_not_found (p : Document) (l : list Document) :
  ~ In p l -> filter (fun d => negb (Document_eqb d p)) l = l.
Proof.
  induction l as [|x l IH]; simpl; intros H; [reflexivity|].
  destruct (Document_eqb x p) eqn:E; simpl.
  - apply Document_eqb_eq in E. subst. elim H. now left.
  - rewrite IH; auto.
Qed.

Lemma filter_others (p : Document) (before after : list Document) :
  NoDup (before ++ p :: after)%list ->
  filter (fun d => negb (Document_eqb d p)) (before ++ p :: after)%list
  = (before ++ after)%list.
Proof.
  intros Hnd. apply NoDup_remove in Hnd as [_ Hnotin].
  rewrite filter_app. simpl. rewrite Document_eqb_refl. simpl.
  rewrite !filter_not_found; auto; intros H; apply Hnotin, in_or_app; auto.
Qed.

End RelationFacts.

(* ================================================================== *)
(** * Facts about the regular expressions *)
(* ================================================================== *)

Module ReFacts.

Import Re PyStrFacts.

(** ** [re.search] finds the first match *)

Section Search.

Variable match_at : string -> option string.
Variable P : string -> string -> Prop.
Hypothesis match_at_iff : forall rest g, match_at rest = Some g <-> P rest g.

Lemma match_at_None (rest : string) :
  match_at rest = None <-> forall g, ~ P rest g.
Proof.
  split.
  - intros H g Hg. apply match_at_iff in Hg. congruence.
  - intros H. destruct (match_at rest) as [g|] eqn:E; [|reflexivity].
    apply match_at_iff in E. now elim (H g).
Qed.

Lemma search_first (s g : string) :
  search match_at s = Some g <-> FirstMatch P s g.
Proof.
  split.
  - induction s as [|c s IH]; simpl.
    + destruct (match_at EmptyString) as [g0|] eqn:E; [|discriminate].
      intros [= ->]. exists EmptyString, EmptyString.
      repeat split; [now apply match_at_iff|].
      intros pre1 pre2 g' Hsplit Hne. destruct pre1; simpl in Hsplit; congruence.
    + destruct (match_at (String c s)) as [g0|] eqn:E.
      * intros [= ->]. exists EmptyString, (String c s).
        repeat split; [now apply match_at_iff|].
        intros pre1 pre2 g' Hsplit Hne.
        destruct pre1; simpl in Hsplit; congruence.
      * intros H. destruct (IH H) as (pre & rest & -> & Hm & Hfirst).
        exists (String c pre), rest. repeat split; [exact Hm|].
        intros pre1 pre2 g' Hsplit Hne.
        destruct pre1 as [|c1 pre1]; simpl in Hsplit.
        -- subst pre2. simpl. now apply match_at_None.
        -- injection Hsplit as _ Hsplit. eauto.
  - intros (pre & rest & -> & Hm & Hfirst).
    induction pre as [|c pre IH]; simpl.
    + apply match_at_iff in Hm.
      destruct rest; simpl; now rewrite Hm.
    + assert (Hnone : match_at (String c (pre ++ rest)) = None).
      { apply match_at_None. intros g'.
        apply (Hfirst EmptyString (String c pre)); [reflexivity | discriminate]. }
      rewrite Hnone. apply IH.
      intros pre1 pre2 g' -> Hne.
      apply (Hfirst (String c pre1) pre2); [reflexivity | exact Hne].
Qed.

Lemma search_none (s : string) : search match_at s = None <-> NoMatch P s.
Proof.
  split.
  - induction s as [|c s IH]; simpl.
    + destruct (match_at EmptyString) eqn:E; [discriminate|]. intros _.
      intros pre rest g Hsplit.
      destruct pre, rest; simpl in Hsplit; try discriminate.
      now apply match_at_None.
    + destruct (match_at (String c s)) eqn:E; [discriminate|]. intros H.
      intros pre rest g Hsplit. destruct pre as [|c' pre]; simpl in Hsplit.
      * subst rest. now apply match_at_None.
      * injection Hsplit as _ Hsplit. now apply (IH H pre rest g).
  - intros Hno. induction s as [|c s IH]; simpl.
    + assert (E : match_at EmptyString = None).
      { apply match_at_None. intros g. now apply (Hno EmptyString). }
      now rewrite E.
    + assert (E : match_at (String c s) = None).
      { apply match_at_None. intros g. now apply (Hno EmptyString). }
      rewrite E. apply IH. intros pre rest g ->.
      now apply (Hno (String c pre)).
Qed.

End Search.

(** ** Greedy digits and the rest of a line *)

Lemma digits_prefix_split (s : string) :
  s = digits_prefix s ++ drop (String.length (digits_prefix s)) s.
Proof.
  induction s as [|c s IH]; simpl; [reflexivity|].
  destruct (is_digit c); simpl; [now rewrite <- IH | reflexivity].
Qed.

Lemma digits_prefix_digits (s : string) : all_digits (digits_prefix s) = true.
Proof.
  induction s as [|c s IH]; simpl; [reflexivity|].
  destruct (is_digit c) eqn:E; simpl; [now rewrite E | reflexivity].
Qed.

Lemma digits_prefix_end (s : string) :
  digits_end (drop (String.length (digits_prefix s)) s).
Proof.
  induction s as [|c s IH]; simpl; [exact I|].
  destruct (is_digit c) eqn:E; simpl; [exact IH | exact E].
Qed.

Lemma digits_prefix_append (ds tail : string) :
  all_digits ds = true -> digits_end tail -> digits_prefix (ds ++ tail) = ds.
Proof.
  intros Hds Hend. induction ds as [|c ds IH]; simpl in *.
  - destruct tail as [|c tail]; simpl in *; [reflexivity | now rewrite Hend].
  - apply andb_true_iff in Hds as [Hc Hds]. now rewrite Hc, IH.
Qed.

Lemma is_sep_not_digit (c : ascii) : is_sep c = true -> is_digit c = false.
Proof.
  unfold is_sep. intros H. apply orb_true_iff in H as [H|H];
    apply Ascii.eqb_eq in H; subst c; reflexivity.
Qed.





(** ** Each pattern, anchored *)


Lemma stage_phase_at_iff (rest digits : string) :
  stage_phase_at rest = Some digits <-> StagePhasePattern rest digits.
Proof.
  unfold stage_phase_at, StagePhasePattern. cbv zeta. split.
  - destruct (startswith "Stage " rest) eqn:E; [|discriminate].
    apply startswith_drop in E. set (after := drop _ rest) in *.
    pose proof (digits_prefix_split after) as Hsplit.
    pose proof (digits_prefix_digits after) as Hds.
    destruct (digits_prefix after) as [|d ds] eqn:Ed; [discriminate|].
    destruct (drop (String.length (String d ds)) after) as [|c tail];
      [discriminate|].
    destruct (is_sep c) eqn:Ec; [|discriminate].
    intros [= <-]. exists c, tail. repeat split; auto.
    + now rewrite <- Hsplit.
    + discriminate.
  - intros (sep & tail & -> & Hne & Hds & Hsep).
    rewrite startswith_append, (drop_append "Stage ").
    rewrite digits_prefix_append by (auto; now apply is_sep_not_digit).
    destruct digits as [|d ds]; [now elim Hne|]. cbv iota.
    now rewrite drop_append, Hsep.
Qed.

Lemma stage_id_at_iff (rest id : string) :
  stage_id_at rest = Some id <-> StageIdPattern rest id.
Proof.
  unfold stage_id_at, StageIdPattern. cbv zeta. split.
  - destruct (startswith "Stage " rest) eqn:E; [|discriminate].
    apply startswith_drop in E. set (after := drop _ rest) in *.
    pose proof (digits_prefix_split after) as Hsplit.
    pose proof (digits_prefix_digits after) as Hds.
    destruct (digits_prefix after) as [|d ds] eqn:Ed; [discriminate|].
    destruct (drop (String.length (String d ds)) after) as [|c r];
      [discriminate|].
    destruct (is_sep c) eqn:Ec; [|discriminate].
    pose proof (digits_prefix_split r) as Hsplit2.
    pose proof (digits_prefix_digits r) as Hds2.
    pose proof (digits_prefix_end r) as Hend2.
    destruct (digits_prefix r) as [|d2 ds2] eqn:Ed2; [discriminate|].
    intros [= <-].
    exists (String d ds), c, (String d2 ds2),
      (drop (String.length (String d2 ds2)) r).
    repeat split; auto; try discriminate.
    rewrite E at 1. f_equal. rewrite Hsplit. simpl. f_equal.
    rewrite append_assoc. simpl. do 2 f_equal. exact Hsplit2.
  - intros (major & sep & minor & tail & -> & -> & Hne1 & Hd1 & Hsep & Hne2
            & Hd2 & Hend).
    rewrite startswith_append, (drop_append "Stage ").
    rewrite !append_assoc. simpl.
    rewrite digits_prefix_append by (auto; now apply is_sep_not_digit).
    destruct major as [|d ds]; [now elim Hne1|]. simpl.
    rewrite (drop_append ds), Hsep.
    rewrite digits_prefix_append by assumption.
    destruct minor; [now elim Hne2 | reflexivity].
Qed.

(** ** The three searches of the script *)




Lemma stage_phase_search_none (title : string) :
  stage_phase_search title = None <-> NoMatch StagePhasePattern title.
Proof. apply search_none, stage_phase_at_iff. Qed.

Lemma stage_id_search_first (title id : string) :
  stage_id_search title = Some id <-> FirstMatch StageIdPattern title id.
Proof. apply search_first, stage_id_at_iff. Qed.

Lemma stage_id_search_none (title : string) :
  stage_id_search title = None <-> NoMatch StageIdPattern title.
Proof. apply search_none, stage_id_at_iff. Qed.

End ReFacts.

(* ================================================================== *)
(** * Metadata extraction *)
(* ================================================================== *)

Module MetadataFacts.

Import Akro PyStrFacts ReFacts.

Lemma category_of_cases (file_path : string) :
  In (category_of file_path) CATEGORIES.
Proof.
  unfold category_of, CATEGORIES.
  repeat match goal with
         | |- context [if ?b then _ else _] => destruct b
         end; simpl; auto 10.
Qed.

Lemma capitalize_category (file_path : string) :
  capitalize (category_of file_path) = upper_first (category_of file_path).
Proof.
  pose proof (category_of_cases file_path) as H. unfold CATEGORIES in H.
  simpl in H.
  repeat (destruct H as [<-|H]; [reflexivity|]). destruct H.
Qed.

(** C2: the category of a file follows the fixed priority order: the
    path string holding [phases] gives [phase]; otherwise holding [stages]
    gives [stage]; otherwise holding [reports] gives [report]; otherwise
    the file names [client_spec.md], [project_roadmap.md] and
    [progress.md] give [spec], [roadmap] and [progress]; anything else is
    a [document].  So a path that holds both [stages] and [reports] is a
    [stage] (the [phases] test, first in the order, apart). *)
Theorem C2_category_priority (file_path text : string) :
  let cat := category (metadata file_path text) in
  (Substring "phases" file_path -> cat = "phase")
  /\ (~ Substring "phases" file_path ->
      (Substring "stages" file_path -> cat = "stage")
      /\ (~ Substring "stages" file_path ->
          (Substring "reports" file_path -> cat = "report")
          /\ (~ Substring "reports" file_path ->
              (PyPath.name file_path = "client_spec.md" -> cat = "spec")
              /\ (PyPath.name file_path <> "client_spec.md" ->
                  (PyPath.name file_path = "project_roadmap.md" ->
                   cat = "roadmap")
                  /\ (PyPath.name file_path <> "project_roadmap.md" ->
                      (PyPath.name file_path = "progress.md" ->
                       cat = "progress")
                      /\ (PyPath.name file_path <> "progress.md" ->
                          cat = "document")))))).
Proof.
  simpl. unfold category_of.
  destruct (contains "phases" file_path) eqn:E1.
  { apply contains_iff in E1. split; [reflexivity | intros H; now elim H]. }
  apply contains_false_iff in E1. split; [intros H; now elim E1 | intros _].
  destruct (contains "stages" file_path) eqn:E2.
  { apply contains_iff in E2. split; [reflexivity | intros H; now elim H]. }
  apply contains_false_iff in E2. split; [intros H; now elim E2 | intros _].
  destruct (contains "reports" file_path) eqn:E3.
  { apply contains_iff in E3. split; [reflexivity | intros H; now elim H]. }
  apply contains_false_iff in E3. split; [intros H; now elim E3 | intros _].
  destruct (String.eqb_spec (PyPath.name file_path) "client_spec.md") as [E4|E4].
  { split; [reflexivity | intros H; now elim H]. }
  split; [intros H; now elim E4 | intros _].
  destruct (String.eqb_spec (PyPath.name file_path) "project_roadmap.md")
    as [E5|E5].
  { split; [reflexivity | intros H; now elim H]. }
  split; [intros H; now elim E5 | intros _].
  destruct (String.eqb_spec (PyPath.name file_path) "progress.md") as [E6|E6].
  { split; [reflexivity | intros H; now elim H]. }
  split; [intros H; now elim E6 | reflexivity].
Qed.

(** A path below [docs/stages] that also holds [reports] is a stage. *)
Lemma C2_category_priority_witness :
  category (metadata "docs/stages/reports/summary.md" "text") = "stage".
Proof.
  refine (proj1 (proj2 (C2_category_priority
                          "docs/stages/reports/summary.md" "text") _) _).
  - apply contains_false_iff. vm_compute. reflexivity.
  - apply contains_iff. vm_compute. reflexivity.
Defined.

End MetadataFacts.

(* ================================================================== *)
(** * The inference engine *)
(* ================================================================== *)

Module Inference.

Import Akro PyStrFacts ReFacts EngineFacts RelationFacts MetadataFacts.

(** C1: for a list of extracted documents the output starts with one
    entity record per document, in input order, named by the title, typed
    by the category with its first letter in upper case and observing the
    full content; everything after these records is a relation record. *)
Theorem C1_entities_then_relations (sources : list (string * string)) :
  let docs := map (fun src => metadata (fst src) (snd src)) sources in
  exists relations,
    create_memory_entries (map Some docs)
    = (map (fun d => Entity (title d) (upper_first (category d)) [content d])
           docs
       ++ relations)%list
    /\ forallb is_relation relations = true
    /\ List.length (filter is_entity (create_memory_entries (map Some docs)))
       = List.length sources.
Proof.
  intros docs. set (D := map Some docs).
  set (relations := (informs_part D ++ tracks_part D ++ contains_part D
                     ++ implements_part D ++ completed_by_part D)%list).
  set (entity := fun d => Entity (title d) (upper_first (category d))
                                 [content d]).
  assert (Heq : create_memory_entries D = (map entity docs ++ relations)%list).
  { rewrite create_memory_entries_parts. unfold D at 1.
    rewrite present_map_Some. fold relations. f_equal.
    unfold docs. rewrite !map_map. apply map_ext. intros [p t].
    unfold entity. simpl. now rewrite capitalize_category. }
  exists relations. split; [exact Heq|].
  split; [apply relations_only|].
  rewrite Heq, filter_app, length_app.
  assert (Hrel : forall l, forallb is_relation l = true ->
                           filter is_entity l = []).
  { induction l as [|e l IH]; simpl; [reflexivity|].
    intros H. apply andb_true_iff in H as [He Hl].
    destruct e; [discriminate | now apply IH]. }
  rewrite (Hrel relations (relations_only D)).
  assert (Hents : forall l, filter is_entity (map entity l) = map entity l).
  { induction l as [|d l IH]; simpl; [reflexivity | now rewrite IH]. }
  rewrite Hents, length_map. unfold docs. rewrite length_map. simpl. lia.
Qed.

(** C4: in a set of [n] documents that holds a progress document, the
    relations of type [tracks] are exactly one per other document, in
    document order, from the progress title to that document's title:
    [n - 1] in all. *)
Theorem C4_tracks_all_others (docs : list Document) :
  NoDup docs ->
  (exists d, In d docs /\ category d = "progress") ->
  exists progress before after,
    docs = (before ++ progress :: after)%list
    /\ category progress = "progress"
    /\ (forall d, In d before -> category d <> "progress")
    /\ filter (of_type "tracks") (create_memory_entries (map Some docs))
       = map (fun d => Relation (title progress) (title d) "tracks")
             (before ++ after)%list
    /\ List.length
         (filter (of_type "tracks") (create_memory_entries (map Some docs)))
       = (List.length docs - 1)%nat.
Proof.
  intros Hnd Hex.
  destruct (first_of_category_exists _ _ Hex) as [p Hp].
  destruct (first_of_category_split _ _ _ Hp) as (before & after & E & Hc & Hb).
  exists p, before, after.
  assert (Htracks :
    filter (of_type "tracks") (create_memory_entries (map Some docs))
    = map (fun d => Relation (title p) (title d) "tracks")
          (before ++ after)%list).
  { rewrite filter_tracks. unfold tracks_part.
    rewrite Hp, present_map_Some. subst docs. now rewrite filter_others. }
  repeat split; auto.
  rewrite Htracks, length_map. subst docs. rewrite !length_app. simpl. lia.
Qed.

Lemma all_of_category_filter (cat : string) (D : list (option Document)) :
  all_of_category cat D = filter (fun d => category d =? cat) (present D).
Proof.
  unfold present. induction D as [|[d|] D IH]; simpl; auto.
  destruct (category d =? cat); now rewrite IH.
Qed.





(** The sample set: the progress log tracks the spec and the stage. *)
Lemma C4_tracks_all_others_witness :
  exists progress before after,
    sample_docs = (before ++ progress :: after)%list
    /\ category progress = "progress"
    /\ (forall d, In d before -> category d <> "progress")
    /\ filter (of_type "tracks") (create_memory_entries (map Some sample_docs))
       = map (fun d => Relation (title progress) (title d) "tracks")
             (before ++ after)%list
    /\ List.length
         (filter (of_type "tracks")
                 (create_memory_entries (map Some sample_docs)))
       = (List.length sample_docs - 1)%nat.
Proof.
  apply C4_tracks_all_others.
  - repeat constructor; simpl; intuition discriminate.
  - exists sample_progress. split; [simpl; auto | reflexivity].
Defined.



End Inference.

(* ================================================================== *)
(** * Titles *)
(* ================================================================== *)

Module Title.

Import Akro PyStrFacts ReFacts.

(** Replacing one character by another is a character map. *)
Lemma replace_char (a b : ascii) (s : string) :
  replace (String a EmptyString) (String b EmptyString) s
  = map_chars (fun c => if Ascii.eqb a c then b else c) s.
Proof.
  unfold replace. induction s as [|c s IH]; simpl; [reflexivity|].
  destruct (Ascii.eqb a c); simpl; now rewrite IH.
Qed.

Lemma map_chars_compose (f g : ascii -> ascii) (s : string) :
  map_chars g (map_chars f s) = map_chars (fun c => g (f c)) s.
Proof. induction s as [|c s IH]; simpl; [reflexivity | now rewrite IH]. Qed.

Lemma map_chars_ext (f g : ascii -> ascii) (s : string) :
  (forall c, f c = g c) -> map_chars f s = map_chars g s.
Proof.
  intros H. induction s as [|c s IH]; simpl; [reflexivity | now rewrite H, IH].
Qed.




End Title.

(* ================================================================== *)
(** * The file store *)
(* ================================================================== *)

Module StoreFacts.

Import Akro PyStrFacts.

Lemma lookup_store_same (p text : string) (l : list (string * string)) :
  lookup p (store p text l) = Some text.
Proof.
  induction l as [|[q old] l IH]; simpl.
  - now rewrite String.eqb_refl.
  - destruct (q =? p) eqn:E; simpl; [now rewrite String.eqb_refl|].
    now rewrite E.
Qed.

Lemma lookup_store_other (p q text : string) (l : list (string * string)) :
  q <> p -> lookup q (store p text l) = lookup q l.
Proof.
  intros Hne. induction l as [|[r old] l IH]; simpl.
  - apply String.eqb_neq in Hne. rewrite String.eqb_sym. now rewrite Hne.
  - destruct (r =? p) eqn:E; simpl.
    + apply String.eqb_eq in E. subst r.
      assert (H : (p =? q) = false) by (apply String.eqb_neq; congruence).
      now rewrite H.
    + now rewrite IH.
Qed.

Lemma store_same (p text : string) (l : list (string * string)) :
  lookup p l = Some text -> store p text l = l.
Proof.
  induction l as [|[q old] l IH]; simpl; [discriminate|].
  destruct (q =? p) eqn:E.
  - intros [= ->]. apply String.eqb_eq in E. now subst.
  - intros H. now rewrite IH.
Qed.

Lemma store_store (p a b : string) (l : list (string * string)) :
  store p b (store p a l) = store p b l.
Proof.
  induction l as [|[q old] l IH]; simpl.
  - now rewrite String.eqb_refl.
  - destruct (q =? p) eqn:E; simpl; [now rewrite String.eqb_refl|].
    now rewrite E, IH.
Qed.

Lemma write_text_existing (fs : FS) (p old text : string) :
  read_text fs p = Some old ->
  write_text fs p text
  = Some {| files := store p text (files fs); dirs := dirs fs |}.
Proof. intros H. unfold write_text, is_file. now rewrite H. Qed.

Lemma write_text_read_same (fs fs' : FS) (p text : string) :
  write_text fs p text = Some fs' -> read_text fs' p = Some text.
Proof.
  unfold write_text. intros H.
  assert (E : fs' = {| files := store p text (files fs); dirs := dirs fs |}).
  { destruct (is_file fs p); [congruence|].
    destruct (is_dir fs p); [discriminate|].
    destruct (parent_exists fs p); congruence. }
  subst fs'. apply lookup_store_same.
Qed.

Lemma write_text_inv (fs fs' : FS) (p text : string) :
  write_text fs p text = Some fs' ->
  fs' = {| files := store p text (files fs); dirs := dirs fs |}.
Proof.
  unfold write_text. intros H.
  destruct (is_file fs p); [congruence|].
  destruct (is_dir fs p); [discriminate|].
  destruct (parent_exists fs p); congruence.
Qed.

End StoreFacts.

(* ================================================================== *)
(** * The progress log *)
(* ================================================================== *)

Module ProgressLog.

Import Akro PyStrFacts StoreFacts.

Lemma contains_false_tail (old : string) (c : ascii) (s : string) :
  contains old (String c s) = false ->
  startswith old (String c s) = false /\ contains old s = false.
Proof. simpl. intros H. now apply orb_false_iff in H. Qed.

(** Without an occurrence [str.replace] changes nothing. *)
Lemma replace_absent (old new s : string) :
  old <> EmptyString -> ~ Substring old s -> replace old new s = s.
Proof.
  intros Hne Hno. apply contains_false_iff in Hno.
  destruct old as [|a o]; [now elim Hne|]. unfold replace.
  induction s as [|c s IH]; [reflexivity|].
  apply contains_false_tail in Hno as [Hs Hc].
  cbn [replace_from]. rewrite Hs, IH; auto.
Qed.

Lemma replace_from_skip (old new x y : string) :
  replace_from old new (String.length x) (x ++ y) = replace_from old new 0 y.
Proof.
  induction x as [|c x IH]; simpl; [now destruct y | exact IH].
Qed.

(** The first occurrence is replaced and the scan goes on behind it. *)
Lemma replace_first (old new pre post : string) :
  old <> EmptyString -> FirstOccurrence old pre post ->
  replace old new (pre ++ old ++ post) = pre ++ new ++ replace old new post.
Proof.
  intros Hne. destruct old as [|a o]; [now elim Hne|]. unfold replace.
  induction pre as [|c pre IH]; intros Hfirst.
  - assert (Hs : startswith (String a o) (String a (o ++ post)) = true)
      by apply (startswith_append (String a o) post).
    cbn [append replace_from]. rewrite Hs. f_equal.
    cbn [String.length]. rewrite Nat.sub_succ, Nat.sub_0_r.
    apply replace_from_skip.
  - assert (Hc : startswith (String a o) (String c pre ++ String a o ++ post)
                 = false).
    { apply (Hfirst EmptyString (String c pre)); [reflexivity | discriminate]. }
    change (String c pre ++ String a o ++ post)
      with (String c (pre ++ String a o ++ post)) in *.
    cbn [replace_from]. rewrite Hc. cbn [append]. f_equal. apply IH.
    intros pre1 pre2 -> Hne2.
    apply (Hfirst (String c pre1) pre2); [reflexivity | exact Hne2].
Qed.

Lemma starts_nowhere_first (old pre post : string) :
  starts_nowhere old pre (old ++ post) = true -> FirstOccurrence old pre post.
Proof.
  induction pre as [|c pre IH]; intros H pre1 pre2 Hsplit Hne.
  - destruct pre1; simpl in Hsplit; congruence.
  - cbn [starts_nowhere] in H. apply andb_true_iff in H as [Hc Hrest].
    destruct pre1 as [|c1 pre1]; simpl in Hsplit.
    + subst pre2. now apply negb_true_iff in Hc.
    + injection Hsplit as _ Hsplit. now apply (IH Hrest pre1 pre2).
Qed.

Lemma sub_updated_absent (repl s : string) :
  ~ Substring Re.UPDATED_OPEN s -> Re.sub_updated repl s = s.
Proof.
  intros Hno. apply contains_false_iff in Hno. unfold Re.sub_updated.
  induction s as [|c s IH]; [reflexivity|].
  apply contains_false_tail in Hno as [Hs Hc].
  cbn [Re.sub_updated_from]. unfold Re.updated_at. rewrite Hs, IH; auto.
Qed.

Lemma activity_log_nonempty : ACTIVITY_LOG <> EmptyString.
Proof. discriminate. Qed.

(** C7, as the code has it: without a log file the update returns false
    and changes nothing.  With a log file it returns true and rewrites
    only that file: the activity entry goes on a line of its own right
    after the marker [## Activity Log], at every occurrence of the marker
    (the first one and, in the same way, each one in the text behind
    it), or, without a marker, into a new section at the end; the sync
    entry (for messages that start with [Sync]) and the rewrite of the
    [updated] field are then applied to the result.  The log
    [## Activity Log], line feed, [- old line] gains the entry between
    the two lines. *)
Theorem C7_activity_after_every_marker (strerror : string -> string)
  (timestamp action : string) (fs : FS) :
  let entry := "- " ++ timestamp ++ ": " ++ action in
  let logged := with_activity_entry timestamp action in
  (exists_ fs PROGRESS = false ->
   update_progress_log strerror timestamp action fs = (false, fs, []))
  /\ (forall text,
        read_text fs PROGRESS = Some text ->
        exists fs',
          update_progress_log strerror timestamp action fs = (true, fs', [])
          /\ read_text fs' PROGRESS
             = Some (with_updated_field timestamp
                       (with_sync_entry timestamp action (logged text)))
          /\ (forall p, p <> PROGRESS -> read_text fs' p = read_text fs p)
          /\ dirs fs' = dirs fs)
  /\ (forall text,
        ~ Substring ACTIVITY_LOG text ->
        logged text = text ++ NL ++ NL ++ ACTIVITY_LOG ++ NL ++ entry)
  /\ (forall pre post,
        FirstOccurrence ACTIVITY_LOG pre post ->
        logged (pre ++ ACTIVITY_LOG ++ post)
        = pre ++ ACTIVITY_LOG ++ NL ++ entry
          ++ (if contains ACTIVITY_LOG post then logged post else post))
  /\ logged (ACTIVITY_LOG ++ NL ++ "- old line")
     = ACTIVITY_LOG ++ NL ++ entry ++ NL ++ "- old line"
  /\ (startswith "Sync" action = false ->
      forall text, with_sync_entry timestamp action text = text)
  /\ (forall text,
        ~ Substring Re.UPDATED_OPEN text ->
        with_updated_field timestamp text = text).
Proof.
  intros entry logged.
  assert (Hfirst : forall pre post,
            FirstOccurrence ACTIVITY_LOG pre post ->
            logged (pre ++ ACTIVITY_LOG ++ post)
            = pre ++ ACTIVITY_LOG ++ NL ++ entry
              ++ (if contains ACTIVITY_LOG post then logged post else post)).
  { intros pre post Hocc. unfold logged, with_activity_entry. fold entry.
    assert (Hin : contains ACTIVITY_LOG (pre ++ ACTIVITY_LOG ++ post) = true).
    { apply contains_iff. now exists pre, post. }
    rewrite Hin, replace_first by (auto using activity_log_nonempty).
    rewrite !append_assoc. do 4 f_equal.
    destruct (contains ACTIVITY_LOG post) eqn:E; [reflexivity|].
    apply replace_absent; [apply activity_log_nonempty|].
    now apply contains_false_iff. }
  split; [|split; [|split; [|split; [|split; [|split]]]]].
  - intros H. unfold update_progress_log. now rewrite H.
  - intros text Hread. unfold update_progress_log, exists_, is_file.
    rewrite Hread. cbn [orb negb].
    rewrite (write_text_existing _ _ _ _ Hread).
    eexists. split; [reflexivity|]. split; [|split].
    + apply lookup_store_same.
    + intros p Hp. now apply lookup_store_other.
    + reflexivity.
  - intros text Hno. unfold logged, with_activity_entry.
    apply contains_false_iff in Hno. now rewrite Hno.
  - exact Hfirst.
  - etransitivity; [apply (Hfirst EmptyString (NL ++ "- old line")) |].
    + intros pre1 pre2 Hsplit Hne. destruct pre1; simpl in Hsplit; congruence.
    + reflexivity.
  - intros H text. unfold with_sync_entry. now rewrite H.
  - intros text Hno. now apply sub_updated_absent.
Qed.

(** Without a log nothing happens; the sample log gains one entry right
    after its marker and no other file changes. *)
Lemma C7_activity_after_every_marker_witness :
  update_progress_log sample_strerror T1 "Did X" no_log_fs
  = (false, no_log_fs, [])
  /\ (exists fs',
        update_progress_log sample_strerror T1 "Did X" sample_fs
        = (true, fs', [])
        /\ read_text fs' PROGRESS
           = Some ("# Log" ++ NL ++ ACTIVITY_LOG ++ NL ++ "- " ++ T1
                   ++ ": Did X" ++ NL ++ "- old line"))
  /\ with_activity_entry T1 "Did X" ("# Log" ++ NL ++ "- old line")
     = "# Log" ++ NL ++ "- old line" ++ NL ++ NL ++ ACTIVITY_LOG ++ NL
       ++ "- " ++ T1 ++ ": Did X"
  /\ with_activity_entry T1 "Did X"
       (("# Log" ++ NL) ++ ACTIVITY_LOG ++ NL ++ "- old line")
     = ("# Log" ++ NL) ++ ACTIVITY_LOG ++ NL ++ ("- " ++ T1 ++ ": Did X")
       ++ NL ++ "- old line"
  /\ with_sync_entry T1 "Did X" "text" = "text"
  /\ with_updated_field T1 "text" = "text".
Proof.
  pose proof (C7_activity_after_every_marker sample_strerror T1 "Did X"
                no_log_fs) as (Hmissing & _ & Habsent & Hfirst & _ & Hsync & Hupd).
  pose proof (C7_activity_after_every_marker sample_strerror T1 "Did X"
                sample_fs) as (_ & Hlog & _).
  split; [apply Hmissing; reflexivity|].
  split.
  { destruct (Hlog ("# Log" ++ NL ++ ACTIVITY_LOG ++ NL ++ "- old line")
                   eq_refl) as (fs' & Hrun & Hread & _).
    exists fs'. split; [exact Hrun|]. rewrite Hread. f_equal. }
  split; [rewrite Habsent|split; [rewrite Hfirst|split]].
  - now rewrite !append_assoc.
  - apply contains_false_iff. vm_compute. reflexivity.
  - reflexivity.
  - apply starts_nowhere_first. vm_compute. reflexivity.
  - apply Hsync. reflexivity.
  - apply Hupd. apply contains_false_iff. vm_compute. reflexivity.
Defined.

(** C7 as the specification words it fails: with two markers in the log
    both gain the entry, not the first one only. *)
Lemma C7_counterexample :
  update_progress_log sample_strerror T1 "Did X" two_markers_fs
  = (true,
     mkFS [("docs/progress.md",
            "## Activity Log" ++ NL ++ "- " ++ T1 ++ ": Did X" ++ NL ++ "- a"
            ++ NL ++ "## Activity Log" ++ NL ++ "- " ++ T1 ++ ": Did X" ++ NL
            ++ "- b")] ["docs"],
     [])
  /\ claimed_activity_entry T1 "Did X" two_markers
     = "## Activity Log" ++ NL ++ "- " ++ T1 ++ ": Did X" ++ NL ++ "- a"
       ++ NL ++ "## Activity Log" ++ NL ++ "- b"
  /\ with_activity_entry T1 "Did X" two_markers
     <> claimed_activity_entry T1 "Did X" two_markers.
Proof.
  split; [vm_compute; reflexivity|].
  split; [vm_compute; reflexivity|].
  apply String.eqb_neq. vm_compute. reflexivity.
Qed.

End ProgressLog.

(* ================================================================== *)
(** * The command line *)
(* ================================================================== *)

Module Cli.

Import Akro.

Section Commands.

Variable HOME CWD : string.
Variable strerror : string -> string.
Variable STAGE_TMPL : string.
Variable format_template : string -> Z -> Z -> string -> option string.
Variable setup_framework : FS -> Run.
Variable create_report : Z -> Z -> option string -> string -> FS -> Run.

Let run :=
  main HOME CWD strerror STAGE_TMPL format_template setup_framework
       create_report.

(** C10: with [--create-stage], a phase or stage given as [0] or a name
    given as the empty string ends like the option left out: the usage
    lines are printed, the exit status is 1 and the file system is as it
    was.  With [--create-report] the same holds for a phase or stage
    given as [0]. *)
Theorem C10_falsy_option_is_missing_option (args : Args) (timestamp : string)
  (fs : FS) :
  arg_setup args = false ->
  arg_sync args = false ->
  (arg_create_stage args = true ->
   (arg_phase args = Some 0%Z ->
    run args timestamp fs = mkRun fs STAGE_USAGE (SysExit 1)
    /\ run args timestamp fs = run (without_phase args) timestamp fs)
   /\ (arg_stage args = Some 0%Z ->
       run args timestamp fs = mkRun fs STAGE_USAGE (SysExit 1)
       /\ run args timestamp fs = run (without_stage args) timestamp fs)
   /\ (arg_name args = Some EmptyString ->
       run args timestamp fs = mkRun fs STAGE_USAGE (SysExit 1)
       /\ run args timestamp fs = run (without_name args) timestamp fs))
  /\ (arg_create_stage args = false ->
      arg_create_report args = true ->
      (arg_phase args = Some 0%Z ->
       run args timestamp fs = mkRun fs REPORT_USAGE (SysExit 1)
       /\ run args timestamp fs = run (without_phase args) timestamp fs)
      /\ (arg_stage args = Some 0%Z ->
          run args timestamp fs = mkRun fs REPORT_USAGE (SysExit 1)
          /\ run args timestamp fs = run (without_stage args) timestamp fs)).
Proof.
  intros Hsetup Hsync. unfold run, main, without_phase, without_stage,
    without_name. simpl. rewrite Hsetup, Hsync.
  split.
  - intros ->. split; [|split]; intros H; rewrite H; simpl;
      rewrite ?orb_true_r; split; reflexivity.
  - intros -> ->. split; intros H; rewrite H; simpl;
      rewrite ?orb_true_r; split; reflexivity.
Qed.

End Commands.

(** [--create-stage --phase=0 --stage=1 --name=Setup] exits with the usage
    error, as [--create-stage --stage=1 --name=Setup] does. *)
Lemma C10_falsy_option_is_missing_option_witness :
  main sample_home sample_cwd sample_strerror sample_tmpl sample_format
       (fun fs => mkRun fs [] Normal)
       (fun _ _ _ _ fs => mkRun fs [] Normal)
       (mkArgs false false true false (Some 0%Z) (Some 1%Z) (Some "Setup"))
       T1 sample_fs
  = mkRun sample_fs STAGE_USAGE (SysExit 1).
Proof.
  refine (proj1 (proj1 (proj1
    (C10_falsy_option_is_missing_option sample_home sample_cwd sample_strerror
       sample_tmpl sample_format (fun fs => mkRun fs [] Normal)
       (fun _ _ _ _ fs => mkRun fs [] Normal)
       (mkArgs false false true false (Some 0%Z) (Some 1%Z) (Some "Setup"))
       T1 sample_fs eq_refl eq_refl) eq_refl) eq_refl)).
Defined.

End Cli.

(* ================================================================== *)
(** * Stage documents *)
(* ================================================================== *)

Module Stage.

Import Akro PyStrFacts StoreFacts.

Lemma mem_add_dirs_old (x : string) (new ds : list string) :
  existsb (String.eqb x) ds = true ->
  existsb (String.eqb x) (add_dirs new ds) = true.
Proof.
  revert ds. induction new as [|d new IH]; intros ds H; simpl; [exact H|].
  apply IH. destruct (existsb (String.eqb d) ds); [exact H|].
  rewrite existsb_app, H. reflexivity.
Qed.

Lemma mem_add_dirs_new (x : string) (new ds : list string) :
  In x new -> existsb (String.eqb x) (add_dirs new ds) = true.
Proof.
  revert ds. induction new as [|d new IH]; intros ds Hin; simpl;
    [destruct Hin|].
  destruct Hin as [->|Hin]; [|now apply IH].
  apply mem_add_dirs_old.
  destruct (existsb (String.eqb x) ds) eqn:E; [exact E|].
  rewrite existsb_app. simpl. now rewrite String.eqb_refl, orb_true_r.
Qed.

Lemma add_dirs_present (new ds : list string) :
  (forall x, In x new -> existsb (String.eqb x) ds = true) ->
  add_dirs new ds = ds.
Proof.
  induction new as [|d new IH]; intros H; simpl; [reflexivity|].
  rewrite (H d) by now left. apply IH. intros x Hx. apply H. now right.
Qed.

Lemma add_dirs_twice (new ds : list string) :
  add_dirs new (add_dirs new ds) = add_dirs new ds.
Proof.
  apply add_dirs_present. intros x Hx. now apply mem_add_dirs_new.
Qed.

(** Making a directory a second time changes nothing. *)
Lemma mkdir_p_again (fs fs1 : FS) (p : string) :
  mkdir_p fs p = Some fs1 -> mkdir_p fs1 p = Some fs1.
Proof.
  unfold mkdir_p. destruct (existsb (is_file fs) (p :: PyPath.ancestors p)) eqn:E;
    [discriminate|].
  intros [= <-]. unfold is_file, read_text in *. cbn [files dirs].
  rewrite E. now rewrite add_dirs_twice.
Qed.

(** What the progress-log update can touch. *)
Lemma update_progress_log_frame (strerror : string -> string)
  (timestamp action : string) (fs : FS) :
  let '(_, fs', _) := update_progress_log strerror timestamp action fs in
  dirs fs' = dirs fs
  /\ (fs' = fs \/ exists text, files fs' = store PROGRESS text (files fs)).
Proof.
  unfold update_progress_log.
  destruct (negb (exists_ fs PROGRESS)); [auto|].
  destruct (read_text fs PROGRESS) as [text|]; [|auto].
  destruct (write_text _ _ _) as [fs'|] eqn:E; [|auto].
  apply write_text_inv in E. subst fs'. simpl. split; [reflexivity|].
  right. eauto.
Qed.

Lemma stage_path_shape (phase stage : Z) (name : string) :
  exists rest, stage_path phase stage name = "docs/stages/stage" ++ rest.
Proof. unfold stage_path. eexists. cbv - [append str_of_int replace lower]. reflexivity. Qed.

Lemma stage_path_not_progress (phase stage : Z) (name : string) :
  stage_path phase stage name <> PROGRESS.
Proof.
  destruct (stage_path_shape phase stage name) as [rest ->]. discriminate.
Qed.

Lemma stage_path_not_dir (phase stage : Z) (name : string) :
  ~ In (stage_path phase stage name) [STAGES; DOCS].
Proof.
  destruct (stage_path_shape phase stage name) as [rest ->].
  simpl. intros [H|[H|[]]]; discriminate.
Qed.

Section CreateStage.

Variable strerror : string -> string.
Variable STAGE_TMPL : string.
Variable format_template : string -> Z -> Z -> string -> option string.

Let run := create_stage strerror STAGE_TMPL format_template.

(** C9: when the stage file of a phase, stage and name exists (and the
    directory [docs/stages] with it), [create_stage] prints the
    already-exists error and returns with the file system as it was: the
    stage file keeps its content and the progress log gains nothing.  So a
    second call after a completed call with the same phase, stage and
    name is refused in this way. *)
Theorem C9_create_stage_refuses_overwrite (phase stage : Z) (name : string)
  (timestamp : string) (fs : FS) :
  let stage_file := stage_path phase stage name in
  let refused fs :=
    mkRun fs ["Error: " ++ stage_file ++ " already exists."] Normal in
  (mkdir_p fs STAGES = Some fs -> exists_ fs stage_file = true ->
   run phase stage name timestamp fs = refused fs)
  /\ (forall earlier,
        completion (run phase stage name earlier fs) = Normal ->
        let fs1 := final (run phase stage name earlier fs) in
        exists_ fs1 stage_file = true
        /\ run phase stage name timestamp fs1 = refused fs1).
Proof.
  intros stage_file refused.
  assert (Hrefuse : forall fs0,
            mkdir_p fs0 STAGES = Some fs0 -> exists_ fs0 stage_file = true ->
            run phase stage name timestamp fs0 = refused fs0).
  { intros fs0 Hdir Hex. unfold run, create_stage. rewrite Hdir.
    fold stage_file. now rewrite Hex. }
  split; [apply Hrefuse|].
  intros earlier Hdone fs1.
  assert (Hgoal : mkdir_p fs1 STAGES = Some fs1 /\ exists_ fs1 stage_file = true).
  { unfold fs1, run, create_stage in *.
    destruct (mkdir_p fs STAGES) as [fs0|] eqn:Hmk; [|discriminate].
    pose proof (mkdir_p_again _ _ _ Hmk) as Hagain.
    fold stage_file in Hdone |- *.
    destruct (exists_ fs0 stage_file) eqn:Hex; [simpl; auto|].
    destruct (if negb (exists_ fs0 (PyPath.joinpath TEMPLATES "stage_template.md"))
              then _ else _) as [[template out]|]; [|discriminate].
    destruct (format_template template phase stage name) as [text|];
      [|discriminate].
    destruct (write_text fs0 stage_file text) as [fs2|] eqn:Hw; [|discriminate].
    apply write_text_inv in Hw.
    pose proof (update_progress_log_frame strerror earlier
                  ("Created stage document: Stage " ++ str_of_int phase ++ "."
                   ++ str_of_int stage ++ ": " ++ name) fs2) as Hframe.
    destruct (update_progress_log _ _ _ fs2) as [[b fs3] printed].
    cbn [final]. destruct Hframe as [Hdirs Hfiles].
    assert (Hread : forall p, p <> PROGRESS ->
                              read_text fs3 p = read_text fs2 p).
    { intros p Hp. destruct Hfiles as [->|[t Ht]]; [reflexivity|].
      unfold read_text. rewrite Ht. now apply lookup_store_other. }
    assert (Hstage : read_text fs3 stage_file = Some text).
    { rewrite Hread by apply stage_path_not_progress.
      subst fs2. apply lookup_store_same. }
    split.
    - unfold mkdir_p in *.
      destruct (existsb (is_file fs0) (STAGES :: PyPath.ancestors STAGES))
        eqn:E; [discriminate|].
      assert (E3 : existsb (is_file fs3) (STAGES :: PyPath.ancestors STAGES)
                   = false).
      { rewrite <- E. change (PyPath.ancestors STAGES) with [DOCS].
        assert (Hsame : forall p, In p [STAGES; DOCS] ->
                                  is_file fs3 p = is_file fs0 p).
        { intros p Hp. unfold is_file.
          rewrite Hread by (simpl in Hp; destruct Hp as [<-|[<-|[]]]; discriminate).
          subst fs2. unfold read_text. cbn [files].
          rewrite lookup_store_other; [reflexivity|].
          intros ->. now apply (stage_path_not_dir phase stage name). }
        simpl. rewrite !Hsame; simpl; auto. }
      rewrite E3. injection Hagain as Hagain.
      f_equal. destruct fs3 as [f3 d3]. cbn [files dirs] in *.
      f_equal. subst fs2. cbn [dirs] in Hdirs. subst d3.
      now rewrite <- Hagain at 2.
    - unfold exists_, is_file. now rewrite Hstage. }
  destruct Hgoal as [Hdir Hex]. split; [exact Hex | now apply Hrefuse].
Qed.

End CreateStage.

(** The first call makes the stage file of the sample project; the second
    call with the same arguments is refused and changes nothing. *)
Lemma C9_create_stage_refuses_overwrite_witness :
  read_text (final first_stage) "docs/stages/stage1_2-my-setup.md"
  = Some "# STAGE 1.2: My Setup"
  /\ create_stage sample_strerror sample_tmpl sample_format 1 2 "My Setup" T2
                  (final first_stage)
     = mkRun (final first_stage)
             ["Error: docs/stages/stage1_2-my-setup.md already exists."] Normal
  /\ create_stage sample_strerror sample_tmpl sample_format 1 2 "My Setup" T1
                  (final first_stage)
     = mkRun (final first_stage)
             ["Error: docs/stages/stage1_2-my-setup.md already exists."] Normal.
Proof.
  split; [vm_compute; reflexivity|]. split.
  - exact (proj2 (proj2 (C9_create_stage_refuses_overwrite
                           sample_strerror sample_tmpl sample_format
                           1 2 "My Setup" T2 sample_fs) T1 eq_refl)).
  - apply (proj1 (C9_create_stage_refuses_overwrite
                    sample_strerror sample_tmpl sample_format
                    1 2 "My Setup" T1 (final first_stage)));
      vm_compute; reflexivity.
Defined.

End Stage.

(* ================================================================== *)
(** * Synchronisation *)
(* ================================================================== *)

Module Sync.

Import Akro PyStrFacts StoreFacts EngineFacts Stage.

(** ** Absolute paths stay absolute *)

Lemma absolute_inv (p : string) :
  absolute p -> exists r, p = String "/"%char r.
Proof.
  unfold absolute. intros H. apply startswith_inv in H as [r ->]. now exists r.
Qed.

Lemma absolute_not_docs (p : string) :
  absolute p -> startswith "docs" p = false.
Proof. intros H. apply absolute_inv in H as [r ->]. reflexivity. Qed.

Lemma absolute_joinpath (a b : string) : absolute a -> absolute (PyPath.joinpath a b).
Proof.
  intros H. apply absolute_inv in H as [r ->]. unfold PyPath.joinpath.
  destruct (b =? EmptyString); [reflexivity|].
  destruct (endswith "/" (String "/" r)); reflexivity.
Qed.

Lemma absolute_take (p : string) (i : nat) : absolute p -> absolute (take (S i) p).
Proof. intros H. apply absolute_inv in H as [r ->]. reflexivity. Qed.

Lemma absolute_parent (p : string) : absolute p -> absolute (PyPath.parent p).
Proof.
  intros H. unfold PyPath.parent.
  destruct (rfind_char PyPath.SLASH p) as [[|i]|] eqn:E; [reflexivity | |].
  - now apply absolute_take.
  - apply absolute_inv in H as [r ->]. cbn [rfind_char] in E.
    destruct (rfind_char PyPath.SLASH r); discriminate.
Qed.

Lemma absolute_ancestors (p : string) :
  absolute p -> Forall absolute (PyPath.ancestors p).
Proof.
  unfold PyPath.ancestors. generalize (String.length p) as fuel.
  intros fuel. revert p. induction fuel as [|k IH]; intros p H; simpl;
    [constructor|].
  destruct (rfind_char PyPath.SLASH p) as [[|i]|]; try constructor.
  - now apply absolute_take.
  - apply IH. now apply absolute_take.
Qed.

(** ** Changes outside [docs] do not show below [docs] *)

Lemma mem_add_dirs_other (p : string) (new ds : list string) :
  ~ In p new ->
  existsb (String.eqb p) (add_dirs new ds) = existsb (String.eqb p) ds.
Proof.
  revert ds. induction new as [|d new IH]; intros ds Hnot; simpl;
    [reflexivity|].
  rewrite IH by (intros H; apply Hnot; now right).
  destruct (existsb (String.eqb d) ds); [reflexivity|].
  rewrite existsb_app. simpl.
  assert (E : (p =? d) = false) by (apply String.eqb_neq; intros ->;
                                    apply Hnot; now left).
  now rewrite E, !orb_false_r.
Qed.

Lemma filter_store_other (keep : string -> bool) (p text : string)
  (l : list (string * string)) :
  keep p = false ->
  map fst (filter (fun entry => keep (fst entry)) (store p text l))
  = map fst (filter (fun entry => keep (fst entry)) l).
Proof.
  intros Hp. induction l as [|[q old] l IH]; simpl.
  - now rewrite Hp.
  - destruct (q =? p) eqn:E; simpl.
    + apply String.eqb_eq in E. subst q. now rewrite Hp.
    + destruct (keep q); simpl; now rewrite IH.
Qed.

Lemma docs_not_absolute (p : string) :
  startswith "docs" p = true -> ~ absolute p.
Proof.
  intros H Habs. apply absolute_not_docs in Habs. congruence.
Qed.

Lemma startswith_docs_below (d p : string) :
  startswith "docs" d = true -> startswith (d ++ "/") p = true ->
  startswith "docs" p = true.
Proof.
  intros Hd Hp. apply startswith_inv in Hd as [r ->].
  apply startswith_inv in Hp as [r' ->]. reflexivity.
Qed.

(** A file written at an absolute path and directories made at absolute
    paths leave everything below [docs] as it was. *)
Lemma same_docs_outside (fs fs' : FS) (mem : string) (new : list string) :
  absolute mem -> Forall absolute new ->
  (files fs' = files fs \/ exists text, files fs' = store mem text (files fs)) ->
  dirs fs' = add_dirs new (dirs fs) ->
  same_docs fs fs'.
Proof.
  intros Hmem Hnew Hfiles Hdirs. split.
  - intros p Hp. split.
    + unfold read_text. destruct Hfiles as [->|[text ->]]; [reflexivity|].
      apply lookup_store_other. intros ->. now apply (docs_not_absolute mem).
    + unfold is_dir. rewrite Hdirs. apply mem_add_dirs_other.
      intros Hin. rewrite Forall_forall in Hnew.
      now apply (docs_not_absolute p Hp), Hnew.
  - intros d Hd. unfold glob_md.
    destruct Hfiles as [->|[text ->]]; [reflexivity|].
    apply (filter_store_other
             (fun q => startswith (d ++ "/") q && endswith ".md" q)).
    destruct (startswith (d ++ "/") mem) eqn:E; [|reflexivity].
    apply (startswith_docs_below d mem Hd) in E.
    now elim (docs_not_absolute mem).
Qed.

Lemma same_docs_refl (fs : FS) : same_docs fs fs.
Proof. split; auto. Qed.

(** ** The documents a run reads *)

Lemma flat_map_ext_in {A B : Type} (f g : A -> list B) (l : list A) :
  (forall x, In x l -> f x = g x) -> flat_map f l = flat_map g l.
Proof.
  induction l as [|x l IH]; intros H; simpl; [reflexivity|].
  rewrite (H x) by now left. rewrite IH; [reflexivity|].
  intros y Hy. apply H. now right.
Qed.

(** [get_all_docs] without the loops. *)
Lemma get_all_docs_eq (fs : FS) :
  get_all_docs fs
  = (flat_map (fun item => if exists_ fs item then [item] else [])
              [CLIENT_SPEC; ROADMAP; PROGRESS]
     ++ flat_map (fun directory =>
          if exists_ fs directory then
            flat_map (fun file => if is_file fs file then [file] else [])
                     (glob_md fs directory)
          else [])
          [PHASES; STAGES; REPORTS])%list.
Proof.
  unfold get_all_docs.
  rewrite (for_each_emit
             (fun directory =>
                if exists_ fs directory then
                  flat_map (fun file => if is_file fs file then [file] else [])
                           (glob_md fs directory)
                else [])).
  2:{ intros acc d. destruct (exists_ fs d); [|now rewrite app_nil_r].
      apply for_each_emit. intros acc' f.
      destruct (is_file fs f); now rewrite ?app_nil_r. }
  rewrite (for_each_emit (fun item => if exists_ fs item then [item] else [])).
  2:{ intros acc x. destruct (exists_ fs x); now rewrite ?app_nil_r. }
  reflexivity.
Qed.

Lemma glob_md_below (fs : FS) (d p : string) :
  In p (glob_md fs d) -> startswith (d ++ "/") p = true.
Proof.
  unfold glob_md. rewrite in_map_iff. intros ([q text] & <- & Hin).
  apply filter_In in Hin as [_ H]. now apply andb_true_iff in H as [H _].
Qed.

Lemma get_all_docs_below_docs (fs : FS) (p : string) :
  In p (get_all_docs fs) -> startswith "docs" p = true.
Proof.
  rewrite get_all_docs_eq, in_app_iff, !in_flat_map.
  intros [(item & Hitem & Hp)|(d & Hd & Hp)].
  - destruct (exists_ fs item); [|destruct Hp].
    destruct Hp as [<-|[]]. simpl in Hitem.
    destruct Hitem as [<-|[<-|[<-|[]]]]; reflexivity.
  - destruct (exists_ fs d); [|destruct Hp].
    apply in_flat_map in Hp as (f & Hf & Hp).
    destruct (is_file fs f); [|destruct Hp]. destruct Hp as [<-|[]].
    apply glob_md_below in Hf. apply (startswith_docs_below d); [|exact Hf].
    simpl in Hd. destruct Hd as [<-|[<-|[<-|[]]]]; reflexivity.
Qed.

Lemma same_docs_exists (fs fs' : FS) (p : string) :
  same_docs fs fs' -> startswith "docs" p = true ->
  exists_ fs' p = exists_ fs p /\ is_file fs' p = is_file fs p.
Proof.
  intros [H _] Hp. destruct (H p Hp) as [Hr Hd].
  unfold exists_, is_file. now rewrite Hr, Hd.
Qed.

Lemma same_docs_get_all_docs (fs fs' : FS) :
  same_docs fs fs' -> get_all_docs fs' = get_all_docs fs.
Proof.
  intros Hsame. rewrite !get_all_docs_eq. f_equal.
  - apply flat_map_ext_in. intros item Hitem.
    destruct (same_docs_exists fs fs' item Hsame) as [-> _]; [|reflexivity].
    simpl in Hitem. destruct Hitem as [<-|[<-|[<-|[]]]]; reflexivity.
  - apply flat_map_ext_in. intros d Hd.
    assert (Hdocs : startswith "docs" d = true).
    { simpl in Hd. destruct Hd as [<-|[<-|[<-|[]]]]; reflexivity. }
    destruct (same_docs_exists fs fs' d Hsame Hdocs) as [-> _].
    destruct (exists_ fs d); [|reflexivity].
    destruct Hsame as [Hread Hglob]. rewrite (Hglob d Hdocs).
    apply flat_map_ext_in. intros f Hf.
    apply glob_md_below in Hf. apply (startswith_docs_below d f Hdocs) in Hf.
    unfold is_file. now destruct (Hread f Hf) as [-> _].
Qed.

(** [extract_all] without the loop. *)
Lemma extract_all_documents (strerror : string -> string) (fs : FS)
  (docs : list string) :
  fst (extract_all strerror fs docs)
  = map (fun doc => option_map (metadata doc) (read_text fs doc)) docs.
Proof.
  unfold extract_all, for_each.
  assert (H : forall acc printed,
            fst (fold_left
                   (fun acc doc =>
                      let '(documents, printed) := acc in
                      let '(document, lines) := extract_metadata strerror fs doc in
                      ((documents ++ [document])%list, (printed ++ lines)%list))
                   docs (acc, printed))
            = (acc ++ map (fun doc => option_map (metadata doc)
                                                 (read_text fs doc)) docs)%list).
  { induction docs as [|d docs IH]; intros acc printed; simpl.
    - now rewrite app_nil_r.
    - unfold extract_metadata at 2.
      destruct (read_text fs d); rewrite IH, <- app_assoc; reflexivity. }
  apply (H [] []).
Qed.

Lemma same_docs_synced_text (strerror : string -> string) (fs fs' : FS) :
  same_docs fs fs' -> synced_text strerror fs' = synced_text strerror fs.
Proof.
  intros Hsame. unfold synced_text.
  rewrite !extract_all_documents, (same_docs_get_all_docs fs fs' Hsame).
  do 3 f_equal. apply map_ext_in. intros doc Hdoc.
  apply get_all_docs_below_docs in Hdoc.
  destruct Hsame as [Hread _]. now destruct (Hread doc Hdoc) as [-> _].
Qed.

Section Runs.

Variable HOME CWD : string.
Variable strerror : string -> string.
Hypothesis HOME_absolute : absolute HOME.
Hypothesis CWD_absolute : absolute CWD.

Lemma memory_paths_absolute :
  absolute (CLAUDE_MEM HOME CWD) /\ absolute (LOCAL_MEM CWD).
Proof.
  unfold CLAUDE_MEM, LOCAL_MEM. split; repeat apply absolute_joinpath; assumption.
Qed.

(** What [choose_memory] does to the file system. *)
Lemma choose_memory_effect (fs fsA : FS) (mem : string) :
  choose_memory HOME CWD fs = Some (mem, fsA) ->
  absolute mem
  /\ files fsA = files fs
  /\ exists new, Forall absolute new /\ dirs fsA = add_dirs new (dirs fs).
Proof.
  unfold choose_memory.
  set (mem0 := if exists_ fs _ then _ else _).
  assert (Habs : absolute mem0).
  { unfold mem0. destruct memory_paths_absolute.
    destruct (exists_ fs _); assumption. }
  unfold mkdir_p.
  destruct (existsb _ _); [discriminate|]. intros [= <- <-].
  split; [exact Habs|]. split; [reflexivity|].
  eexists. split; [|reflexivity].
  apply Forall_app. split.
  - apply Forall_rev, absolute_ancestors, absolute_parent, Habs.
  - repeat constructor. now apply absolute_parent.
Qed.

Lemma update_progress_log_no_log (timestamp action : string) (fs : FS) :
  read_text fs PROGRESS = None ->
  exists printed,
    update_progress_log strerror timestamp action fs = (false, fs, printed).
Proof.
  intros H. unfold update_progress_log. rewrite H.
  destruct (negb (exists_ fs PROGRESS)); eauto.
Qed.

Lemma memory_not_progress (fs fsA : FS) (mem : string) :
  choose_memory HOME CWD fs = Some (mem, fsA) -> mem <> PROGRESS.
Proof.
  intros H ->. apply choose_memory_effect in H as [H _]. discriminate.
Qed.

(** What a completed run leaves in its memory file. *)
Lemma sync_memory_writes (timestamp : string) (fs fsA : FS) (mem : string) :
  choose_memory HOME CWD fs = Some (mem, fsA) ->
  get_all_docs fs <> [] ->
  completion (sync_memory HOME CWD strerror timestamp fs) = Normal ->
  read_text (final (sync_memory HOME CWD strerror timestamp fs)) mem
  = Some (synced_text strerror fs).
Proof.
  intros Hchoose Hdocs. unfold synced_text, sync_memory.
  destruct (get_all_docs fs) as [|d docs] eqn:Hd; [now elim Hdocs|].
  destruct (extract_all strerror fs (d :: docs)) as [documents printed] eqn:Hx.
  rewrite Hchoose. cbn [fst].
  destruct (write_text fsA mem _) as [fsB|] eqn:Hw; [|discriminate].
  pose proof (update_progress_log_frame strerror timestamp
                ("Synced " ++ str_of_len (valid documents)
                 ++ " documents to memory") fsB) as Hframe.
  destruct (update_progress_log _ _ _ fsB) as [[b fsC] printed'].
  cbn [final]. intros _. destruct Hframe as [_ Hfiles].
  apply write_text_read_same in Hw.
  destruct Hfiles as [->|[text Ht]]; [exact Hw|].
  unfold read_text in *. rewrite Ht, lookup_store_other; [exact Hw|].
  now apply (memory_not_progress fs fsA).
Qed.

(** Without a readable progress log a run changes nothing below [docs]. *)
Lemma sync_memory_same_docs (timestamp : string) (fs : FS) :
  read_text fs PROGRESS = None ->
  same_docs fs (final (sync_memory HOME CWD strerror timestamp fs)).
Proof.
  intros Hlog. unfold sync_memory.
  destruct (get_all_docs fs) as [|d docs]; [apply same_docs_refl|].
  destruct (extract_all strerror fs (d :: docs)) as [documents printed].
  destruct (choose_memory HOME CWD fs) as [[mem fsA]|] eqn:Hchoose;
    [|apply same_docs_refl].
  pose proof (memory_not_progress _ _ _ Hchoose) as Hneq.
  destruct (choose_memory_effect _ _ _ Hchoose)
    as (Hmem & Hfiles & new & Hnew & Hdirs).
  destruct (write_text fsA mem _) as [fsB|] eqn:Hw.
  - apply write_text_inv in Hw.
    assert (HlogB : read_text fsB PROGRESS = None).
    { subst fsB. unfold read_text. cbn [files].
      rewrite lookup_store_other, Hfiles by congruence. exact Hlog. }
    destruct (update_progress_log_no_log timestamp
                ("Synced " ++ str_of_len (valid documents)
                 ++ " documents to memory") fsB HlogB) as [out ->].
    cbn [final]. apply (same_docs_outside fs fsB mem new); auto.
    + right. subst fsB. cbn [files]. rewrite Hfiles. eauto.
    + subst fsB. exact Hdirs.
  - cbn [final]. apply (same_docs_outside fs fsA mem new); auto.
Qed.

(** C8, as the code has it: a run that finds no document completes and
    leaves the file system, and with it any memory file, as it was; a
    completed run that finds documents leaves in its memory file the
    serialized records of the documents as they were when it started,
    content verbatim and without any timestamp.  A run rewrites the
    progress log, which is one of the documents; when the project has no
    readable progress log a run changes no document, and two completed
    runs in a row leave byte-identical memory files. *)
Theorem C8_sync_idempotent_without_log (timestamp later : string) (fs : FS) :
  let first := sync_memory HOME CWD strerror timestamp fs in
  let second := sync_memory HOME CWD strerror later (final first) in
  (get_all_docs fs = [] -> completion first = Normal /\ final first = fs)
  /\ (get_all_docs fs <> [] -> completion first = Normal ->
      memory_file_of_run HOME CWD fs (final first)
      = Some (synced_text strerror fs))
  /\ (read_text fs PROGRESS = None ->
      synced_text strerror (final first) = synced_text strerror fs)
  /\ (read_text fs PROGRESS = None ->
      completion first = Normal -> completion second = Normal ->
      memory_file_of_run HOME CWD fs (final first)
      = memory_file_of_run HOME CWD (final first) (final second)).
Proof.
  intros first second.
  assert (Hwrites : forall ts fs0,
            get_all_docs fs0 <> [] ->
            completion (sync_memory HOME CWD strerror ts fs0) = Normal ->
            memory_file_of_run HOME CWD fs0
              (final (sync_memory HOME CWD strerror ts fs0))
            = Some (synced_text strerror fs0)).
  { intros ts fs0 Hdocs Hdone. unfold memory_file_of_run.
    destruct (choose_memory HOME CWD fs0) as [[mem fsA]|] eqn:Hchoose.
    - now apply (sync_memory_writes ts fs0 fsA).
    - exfalso. revert Hdone. unfold sync_memory.
      destruct (get_all_docs fs0); [now elim Hdocs|].
      destruct (extract_all _ _ _). rewrite Hchoose. discriminate. }
  split; [|split; [apply Hwrites|split]].
  - intros Hd. unfold first, sync_memory. rewrite Hd. now split.
  - intros Hlog. apply same_docs_synced_text.
    now apply sync_memory_same_docs.
  - intros Hlog Hdone1 Hdone2.
    pose proof (sync_memory_same_docs timestamp fs Hlog) as Hsame.
    fold first in Hsame.
    destruct (get_all_docs fs) as [|d docs] eqn:Hd.
    + assert (E1 : final first = fs).
      { unfold first, sync_memory. now rewrite Hd. }
      assert (E2 : final second = fs).
      { unfold second. rewrite E1. unfold sync_memory. now rewrite Hd. }
      now rewrite E2, E1.
    + transitivity (Some (synced_text strerror fs)).
      * apply Hwrites; [congruence | exact Hdone1].
      * symmetry.
        rewrite <- (same_docs_synced_text strerror fs (final first) Hsame).
        apply Hwrites; [|exact Hdone2].
        rewrite (same_docs_get_all_docs fs (final first) Hsame). congruence.
Qed.

End Runs.

(** Two runs on the project without a progress log. *)
Lemma C8_sync_idempotent_without_log_witness :
  memory_file_of_run sample_home sample_cwd no_log_fs
    (final (sync_memory sample_home sample_cwd sample_strerror T1 no_log_fs))
  = memory_file_of_run sample_home sample_cwd
      (final (sync_memory sample_home sample_cwd sample_strerror T1 no_log_fs))
      (final (sync_memory sample_home sample_cwd sample_strerror T2
                (final (sync_memory sample_home sample_cwd sample_strerror T1
                          no_log_fs)))).
Proof.
  apply (proj2 (proj2 (proj2 (C8_sync_idempotent_without_log
                                sample_home sample_cwd sample_strerror
                                eq_refl eq_refl T1 T2 no_log_fs))));
    vm_compute; reflexivity.
Defined.

(** C8 as the specification words it fails: the first run logs itself in
    the progress log, which is a source document, so the second run
    writes a different memory file. *)
Lemma C8_counterexample :
  completion first_sync = Normal
  /\ completion second_sync = Normal
  /\ memory_file_of_run sample_home sample_cwd sample_fs (final first_sync)
     <> memory_file_of_run sample_home sample_cwd (final first_sync)
          (final second_sync).
Proof.
  split; [vm_compute; reflexivity|]. split; [vm_compute; reflexivity|].
  intros H.
  assert (Hlen :
    option_map String.length
      (memory_file_of_run sample_home sample_cwd sample_fs (final first_sync))
    = option_map String.length
        (memory_file_of_run sample_home sample_cwd (final first_sync)
           (final second_sync))) by now rewrite H.
  vm_compute in Hlen. discriminate.
Qed.

End Sync.

(* ================================================================== *)
(** * Further properties of the inference engine *)
(* ================================================================== *)

Module EngineProps.

Import Akro AkroReport PyStrFacts EngineFacts RelationFacts.

Lemma first_of_category_present (cat : string) (D : list (option Document)) :
  first_of_category cat D = first_of_category cat (map Some (present D)).
Proof.
  unfold present. induction D as [|[d|] D IH]; simpl; auto.
  destruct (category d =? cat); auto.
Qed.

Lemma all_of_category_present (cat : string) (D : list (option Document)) :
  all_of_category cat D = all_of_category cat (map Some (present D)).
Proof.
  unfold present. induction D as [|[d|] D IH]; simpl; auto.
  destruct (category d =? cat); now rewrite IH.
Qed.

Lemma present_idem (D : list (option Document)) :
  present (map Some (present D)) = present D.
Proof. apply present_map_Some. Qed.

Lemma first_of_category_iff (cat : string) (docs : list Document)
  (d : Document) :
  first_of_category cat (map Some docs) = Some d <-> FirstOfCategory cat docs d.
Proof.
  split; [apply first_of_category_split|].
  intros (before & after & -> & Hc & Hb).
  induction before as [|x before IH]; simpl.
  - apply String.eqb_eq in Hc. now rewrite Hc.
  - assert (E : (category x =? cat) = false).
    { apply String.eqb_neq, Hb. now left. }
    rewrite E. apply IH. intros y Hy. apply Hb. now right.
Qed.

Lemma first_of_category_none (cat : string) (docs : list Document) :
  first_of_category cat (map Some docs) = None
  <-> forall d, In d docs -> category d <> cat.
Proof.
  induction docs as [|x docs IH]; simpl.
  - split; [intros _ d [] | reflexivity].
  - destruct (category x =? cat) eqn:E.
    + split; [discriminate|]. intros H. apply String.eqb_eq in E.
      now elim (H x (or_introl eq_refl)).
    + rewrite IH. apply String.eqb_neq in E. split.
      * intros H d [<-|Hd]; auto.
      * intros H d Hd. apply H. now right.
Qed.

Lemma filter_informs D :
  filter (of_type "informs") (create_memory_entries D) = informs_part D.
Proof.
  rewrite create_memory_entries_parts, !filter_app, filter_entities.
  rewrite (filter_all_typed "informs"), (filter_other_typed "tracks"),
    (filter_other_typed "contains"), (filter_other_typed "implements"),
    (filter_other_typed "completed_by");
    try discriminate;
    auto using informs_typed, tracks_typed, contains_typed, implements_typed,
      completed_by_typed.
  simpl. now rewrite app_nil_r.
Qed.

Lemma filter_contains D :
  filter (of_type "contains") (create_memory_entries D) = contains_part D.
Proof.
  rewrite create_memory_entries_parts, !filter_app, filter_entities.
  rewrite (filter_other_typed "informs"), (filter_other_typed "tracks"),
    (filter_all_typed "contains"), (filter_other_typed "implements"),
    (filter_other_typed "completed_by");
    try discriminate;
    auto using informs_typed, tracks_typed, contains_typed, implements_typed,
      completed_by_typed.
  simpl. now rewrite app_nil_r.
Qed.

Lemma filter_is_entity D :
  filter is_entity (create_memory_entries D)
  = map (fun d => Entity (title d) (capitalize (category d)) [content d])
        (present D).
Proof.
  rewrite create_memory_entries_parts, filter_app.
  assert (Hrel : forall l, forallb is_relation l = true ->
                           filter is_entity l = []).
  { induction l as [|e l IH]; simpl; [reflexivity|].
    intros H. apply andb_true_iff in H as [He Hl].
    destruct e; [discriminate | now apply IH]. }
  rewrite (Hrel _ (relations_only D)), app_nil_r.
  induction (present D) as [|d l IH]; simpl; [reflexivity | now rewrite IH].
Qed.

(** X1: the records come grouped and in a fixed order: all entities,
    then the relations of type [informs], [tracks], [contains],
    [implements] and [completed_by], each group in the order the rule
    emitted it. *)
Theorem X1_records_grouped_by_rule (documents : list (option Document)) :
  let out := create_memory_entries documents in
  out = (filter is_entity out
         ++ filter (of_type "informs") out
         ++ filter (of_type "tracks") out
         ++ filter (of_type "contains") out
         ++ filter (of_type "implements") out
         ++ filter (of_type "completed_by") out)%list.
Proof.
  intros out. unfold out.
  rewrite filter_is_entity, filter_informs, filter_tracks, filter_contains,
    filter_implements, filter_completed_by.
  apply create_memory_entries_parts.
Qed.

(** X2: the [informs] rule emits at most one relation: from the first
    spec document to the first roadmap document when both kinds exist,
    and nothing when either kind is missing. *)
Theorem X2_informs_first_spec_to_first_roadmap
  (documents : list (option Document)) :
  let informs :=
    filter (of_type "informs") (create_memory_entries documents) in
  (forall spec roadmap,
     FirstOfCategory "spec" (present documents) spec ->
     FirstOfCategory "roadmap" (present documents) roadmap ->
     informs = [Relation (title spec) (title roadmap) "informs"])
  /\ ((forall d, In d (present documents) -> category d <> "spec") ->
      informs = [])
  /\ ((forall d, In d (present documents) -> category d <> "roadmap") ->
      informs = [])
  /\ (List.length informs <= 1)%nat.
Proof.
  intros informs. unfold informs. rewrite filter_informs. unfold informs_part.
  rewrite (first_of_category_present "spec" documents),
    (first_of_category_present "roadmap" documents).
  split; [|split; [|split]].
  - intros spec roadmap Hs Hr.
    apply first_of_category_iff in Hs, Hr. now rewrite Hs, Hr.
  - intros H. apply first_of_category_none in H. now rewrite H.
  - intros H. apply first_of_category_none in H. rewrite H.
    now destruct (first_of_category "spec" (map Some (present documents))).
  - destruct (first_of_category "spec" (map Some (present documents))),
             (first_of_category "roadmap" (map Some (present documents)));
      simpl; lia.
Qed.

(** A spec and a roadmap around a failed extraction. *)
Lemma X2_informs_first_spec_to_first_roadmap_witness :
  filter (of_type "informs")
         (create_memory_entries
            [Some sample_spec; None;
             Some sample_roadmap])
  = [Relation "Client Specification" "Project Roadmap" "informs"]
  /\ filter (of_type "informs")
            (create_memory_entries [Some sample_spec; Some sample_progress])
     = [].
Proof.
  split.
  - apply (proj1 (X2_informs_first_spec_to_first_roadmap
                    [Some sample_spec; None; Some sample_roadmap])
                 sample_spec sample_roadmap).
    + exists [], [sample_roadmap]. repeat split. intros x [].
    + exists [sample_spec], []. repeat split.
      intros x [<-|[]]. discriminate.
  - apply (proj1 (proj2 (proj2 (X2_informs_first_spec_to_first_roadmap
                                  [Some sample_spec; Some sample_progress])))).
    simpl. intros d [<-|[<-|[]]]; discriminate.
Defined.

(** X3: the [contains] rule links the first roadmap document to every
    phase document, in document order, and emits nothing without a
    roadmap. *)
Theorem X3_contains_roadmap_to_phases (documents : list (option Document)) :
  let contains_relations :=
    filter (of_type "contains") (create_memory_entries documents) in
  (forall roadmap,
     FirstOfCategory "roadmap" (present documents) roadmap ->
     contains_relations
     = map (fun phase => Relation (title roadmap) (title phase) "contains")
           (filter (fun d => category d =? "phase") (present documents)))
  /\ ((forall d, In d (present documents) -> category d <> "roadmap") ->
      contains_relations = []).
Proof.
  intros rels. unfold rels. rewrite filter_contains. unfold contains_part.
  rewrite (first_of_category_present "roadmap" documents). split.
  - intros roadmap Hr. apply first_of_category_iff in Hr. rewrite Hr.
    now rewrite Inference.all_of_category_filter.
  - intros H. apply first_of_category_none in H. now rewrite H.
Qed.

(** A roadmap with one phase; and a phase without a roadmap. *)
Lemma X3_contains_roadmap_to_phases_witness :
  filter (of_type "contains")
         (create_memory_entries
            [Some sample_roadmap;
             Some sample_phase; Some sample_stage])
  = [Relation "Project Roadmap" "Phase 2: Core" "contains"]
  /\ filter (of_type "contains")
            (create_memory_entries [Some sample_phase; Some sample_stage])
     = [].
Proof.
  split.
  - apply (proj1 (X3_contains_roadmap_to_phases
                    [Some sample_roadmap; Some sample_phase; Some sample_stage])
                 sample_roadmap).
    exists [], [sample_phase; sample_stage]. repeat split. intros x [].
  - apply (proj2 (X3_contains_roadmap_to_phases
                    [Some sample_phase; Some sample_stage])).
    simpl. intros d [<-|[<-|[]]]; discriminate.
Defined.

(** X4: failed extractions in the list are skipped: the output is that
    of the list with the failures taken out. *)
Theorem X4_failures_are_skipped (documents : list (option Document)) :
  create_memory_entries documents
  = create_memory_entries (map Some (present documents)).
Proof.
  rewrite !create_memory_entries_parts.
  unfold informs_part, tracks_part, contains_part, implements_part,
    completed_by_part.
  rewrite present_idem.
  now rewrite <- (first_of_category_present "spec" documents),
    <- (first_of_category_present "roadmap" documents),
    <- (first_of_category_present "progress" documents),
    <- (all_of_category_present "phase" documents),
    <- (all_of_category_present "stage" documents),
    <- (all_of_category_present "report" documents).
Qed.

Lemma filter_split_length {A : Type} (f : A -> bool) (l : list A) :
  (List.length (filter f l) + List.length (filter (fun x => negb (f x)) l))%nat
  = List.length l.
Proof.
  induction l as [|x l IH]; simpl; [reflexivity|].
  destruct (f x); simpl; lia.
Qed.

(** X5: the progress document is compared by value: every document
    equal to the first progress document is left out of the [tracks]
    relations, so with [k] such copies among [n] documents there are
    [n - k] relations; without a progress document there is none. *)
Theorem X5_tracks_skips_equal_documents (documents : list (option Document)) :
  let tracks :=
    filter (of_type "tracks") (create_memory_entries documents) in
  (forall progress,
     FirstOfCategory "progress" (present documents) progress ->
     tracks
     = map (fun d => Relation (title progress) (title d) "tracks")
           (filter (fun d => negb (Document_eqb d progress)) (present documents))
     /\ (List.length tracks
         + List.length (filter (fun d => Document_eqb d progress)
                               (present documents)))%nat
        = List.length (present documents))
  /\ ((forall d, In d (present documents) -> category d <> "progress") ->
      tracks = []).
Proof.
  intros tracks. unfold tracks. rewrite filter_tracks. unfold tracks_part.
  rewrite (first_of_category_present "progress" documents). split.
  - intros progress Hp. apply first_of_category_iff in Hp. rewrite Hp.
    split; [reflexivity|]. rewrite length_map, Nat.add_comm.
    apply (filter_split_length (fun d => Document_eqb d progress)).
  - intros H. apply first_of_category_none in H. now rewrite H.
Qed.

(** The progress log scanned twice: both copies are left out. *)
Lemma X5_tracks_skips_equal_documents_witness :
  filter (of_type "tracks")
         (create_memory_entries
            [Some sample_progress; Some sample_stage; Some sample_progress])
  = [Relation "Project Progress Log" "Stage 2.1: Auth" "tracks"].
Proof.
  apply (proj1 (X5_tracks_skips_equal_documents
                  [Some sample_progress; Some sample_stage;
                   Some sample_progress]) sample_progress).
  exists [], [sample_stage; sample_progress]. repeat split. intros x [].
Defined.

Lemma first_of_category_In (cat : string) (D : list (option Document))
  (d : Document) :
  first_of_category cat D = Some d -> In d (present D).
Proof.
  rewrite first_of_category_present. intros H.
  apply first_of_category_split in H as (before & after & -> & _).
  apply in_or_app. right. now left.
Qed.

Lemma all_of_category_In (cat : string) (D : list (option Document))
  (d : Document) :
  In d (all_of_category cat D) -> In d (present D).
Proof.
  rewrite Inference.all_of_category_filter. intros H.
  now apply filter_In in H.
Qed.

(** X6: the graph is closed and typed: both ends of every relation
    record are names of entity records of the same output, and its type
    is one of the five relation types. *)
Theorem X6_relations_join_emitted_entities
  (documents : list (option Document)) (from to relationType : string) :
  In (Relation from to relationType) (create_memory_entries documents) ->
  (exists entityType observations,
     In (Entity from entityType observations)
        (create_memory_entries documents))
  /\ (exists entityType observations,
        In (Entity to entityType observations)
           (create_memory_entries documents))
  /\ In relationType RELATION_TYPES.
Proof.
  intros Hin.
  assert (Hentity : forall d, In d (present documents) ->
            exists entityType observations,
              In (Entity (title d) entityType observations)
                 (create_memory_entries documents)).
  { intros d Hd. exists (capitalize (category d)), [content d].
    rewrite create_memory_entries_parts. apply in_or_app. left.
    apply in_map_iff. now exists d. }
  assert (Hends :
    (exists a b, In a (present documents) /\ In b (present documents)
                 /\ from = title a /\ to = title b)
    /\ In relationType RELATION_TYPES).
  { rewrite create_memory_entries_parts in Hin.
    repeat (apply in_app_or in Hin; destruct Hin as [Hin|Hin]).
    - apply in_map_iff in Hin as (d & Hd & _). discriminate.
    - unfold informs_part in Hin.
      destruct (first_of_category "spec" documents) as [s|] eqn:Es;
        [|destruct Hin].
      destruct (first_of_category "roadmap" documents) as [r|] eqn:Er;
        [|destruct Hin].
      destruct Hin as [[= <- <- <-]|[]]. split; [|unfold RELATION_TYPES; simpl; auto 6].
      exists s, r. repeat split; eauto using first_of_category_In.
    - unfold tracks_part in Hin.
      destruct (first_of_category "progress" documents) as [p|] eqn:Ep;
        [|destruct Hin].
      apply in_map_iff in Hin as (d & [= <- <- <-] & Hd).
      apply filter_In in Hd as [Hd _]. split; [|unfold RELATION_TYPES; simpl; auto 6].
      exists p, d. repeat split; eauto using first_of_category_In.
    - unfold contains_part in Hin.
      destruct (first_of_category "roadmap" documents) as [r|] eqn:Er;
        [|destruct Hin].
      apply in_map_iff in Hin as (d & [= <- <- <-] & Hd).
      split; [|unfold RELATION_TYPES; simpl; auto 6].
      exists r, d. repeat split; eauto using first_of_category_In, all_of_category_In.
    - unfold implements_part in Hin.
      apply in_flat_map in Hin as (s & Hs & Hin).
      apply in_flat_map in Hin as (ph & Hph & Hin).
      destruct (implements_link ph s); [|destruct Hin].
      destruct Hin as [[= <- <- <-]|[]]. split; [|unfold RELATION_TYPES; simpl; auto 6].
      exists ph, s. repeat split; eauto using all_of_category_In.
    - unfold completed_by_part in Hin.
      apply in_flat_map in Hin as (s & Hs & Hin).
      apply in_flat_map in Hin as (r & Hr & Hin).
      destruct (completed_by_link s r); [|destruct Hin].
      destruct Hin as [[= <- <- <-]|[]]. split; [|unfold RELATION_TYPES; simpl; auto 6].
      exists s, r. repeat split; eauto using all_of_category_In. }
  destruct Hends as [(a & b & Ha & Hb & -> & ->) Hty].
  split; [now apply Hentity|]. split; [now apply Hentity | exact Hty].
Qed.

Lemma X6_relations_join_emitted_entities_witness :
  (exists entityType observations,
     In (Entity "Project Progress Log" entityType observations)
        (create_memory_entries (map Some sample_docs)))
  /\ (exists entityType observations,
        In (Entity "Stage 2.1: Auth" entityType observations)
           (create_memory_entries (map Some sample_docs)))
  /\ In "tracks" RELATION_TYPES.
Proof.
  apply (X6_relations_join_emitted_entities (map Some sample_docs)
           "Project Progress Log" "Stage 2.1: Auth" "tracks").
  vm_compute. auto 10.
Defined.

End EngineProps.

(* ================================================================== *)
(** * Further properties of the document locator *)
(* ================================================================== *)

Module LocatorProps.

Import Akro AkroReport PyStrFacts StoreFacts EngineFacts Sync.

Lemma lookup_In (p text : string) (l : list (string * string)) :
  lookup p l = Some text -> In (p, text) l.
Proof.
  induction l as [|[q t] l IH]; simpl; [discriminate|].
  destruct (q =? p) eqn:E.
  - intros [= ->]. apply String.eqb_eq in E. subst. now left.
  - intros H. right. auto.
Qed.

Lemma in_filter_list {A : Type} (f : A -> bool) (l : list A) (x : A) :
  In x (flat_map (fun y => if f y then [y] else []) l) <-> In x l /\ f x = true.
Proof.
  rewrite in_flat_map. split.
  - intros (y & Hy & Hx). destruct (f y) eqn:E; [|destruct Hx].
    destruct Hx as [<-|[]]. auto.
  - intros [Hx Hf]. exists x. rewrite Hf. split; [exact Hx | now left].
Qed.

(** X7: the locator lists exactly what is there: each of the three
    singleton files that exists, and each regular file below an existing
    category directory whose path ends in [.md]; the singleton files come
    first, in their fixed order. *)
Theorem X7_get_all_docs_lists_what_exists (fs : FS) :
  (forall p,
     In p (get_all_docs fs) <->
     (In p [CLIENT_SPEC; ROADMAP; PROGRESS] /\ exists_ fs p = true)
     \/ (exists d,
           In d [PHASES; STAGES; REPORTS] /\ exists_ fs d = true
           /\ is_file fs p = true
           /\ startswith (d ++ "/") p = true /\ endswith ".md" p = true))
  /\ (exists globbed,
        get_all_docs fs
        = (filter (exists_ fs) [CLIENT_SPEC; ROADMAP; PROGRESS] ++ globbed)%list
        /\ forall p, In p globbed -> ~ In p [CLIENT_SPEC; ROADMAP; PROGRESS]).
Proof.
  split.
  - intros p. rewrite get_all_docs_eq, in_app_iff, in_filter_list.
    apply or_iff_compat_l. rewrite in_flat_map. split.
    + intros (d & Hd & Hp). exists d.
      destruct (exists_ fs d) eqn:Ed; [|destruct Hp].
      apply in_filter_list in Hp as [Hp Hfile].
      unfold glob_md in Hp. apply in_map_iff in Hp as ([q t] & <- & Hq).
      apply filter_In in Hq as [_ Hq]. apply andb_true_iff in Hq as [H1 H2].
      auto.
    + intros (d & Hd & Ed & Hfile & Hstart & Hend). exists d.
      split; [exact Hd|]. rewrite Ed. apply in_filter_list.
      split; [|exact Hfile]. unfold glob_md, is_file, read_text in *.
      destruct (lookup p (files fs)) as [text|] eqn:El; [|discriminate].
      apply in_map_iff. exists (p, text). split; [reflexivity|].
      apply filter_In. split; [now apply lookup_In|].
      simpl. now rewrite Hstart, Hend.
  - eexists. split.
    + rewrite get_all_docs_eq. f_equal.
      simpl. destruct (exists_ fs CLIENT_SPEC), (exists_ fs ROADMAP),
        (exists_ fs PROGRESS); reflexivity.
    + intros p Hp Hsingle. apply in_flat_map in Hp as (d & Hd & Hp).
      destruct (exists_ fs d); [|destruct Hp].
      apply in_filter_list in Hp as [Hp _]. apply glob_md_below in Hp.
      simpl in Hd, Hsingle.
      destruct Hd as [<-|[<-|[<-|[]]]];
        destruct Hsingle as [<-|[<-|[<-|[]]]]; discriminate.
Qed.




End LocatorProps.

(* ================================================================== *)
(** * Further properties of the memory writer and of a sync run *)
(* ================================================================== *)

Module WriterProps.

Import Akro AkroReport PyStrFacts StoreFacts EngineFacts Stage Sync.

Lemma count_char_append (c : ascii) (a b : string) :
  count_char c (a ++ b) = (count_char c a + count_char c b)%nat.
Proof.
  induction a as [|x a IH]; simpl; [reflexivity|]. rewrite IH. lia.
Qed.

Lemma json_escape_char_one_line (c : ascii) :
  count_char "010"%char (json_escape_char c) = O.
Proof. destruct c as [[] [] [] [] [] [] [] []]; reflexivity. Qed.

Lemma json_string_one_line (s : string) :
  count_char "010"%char (json_string s) = O.
Proof.
  unfold json_string. rewrite !count_char_append.
  assert (H : count_char "010"%char (json_escape s) = O).
  { induction s as [|c s IH]; simpl; [reflexivity|].
    now rewrite count_char_append, json_escape_char_one_line, IH. }
  now rewrite H.
Qed.

Lemma join_one_line (parts : list string) :
  (forall x, In x parts -> count_char "010"%char x = O) ->
  count_char "010"%char (join ", " parts) = O.
Proof.
  induction parts as [|x parts IH]; intros H; [reflexivity|].
  destruct parts as [|y parts]; [apply H; now left|].
  change (join ", " (x :: y :: parts)) with (x ++ ", " ++ join ", " (y :: parts)).
  rewrite !count_char_append, (H x) by now left.
  rewrite IH; [reflexivity|]. intros z Hz. apply H. now right.
Qed.

Lemma json_dumps_one_line (entry : MemoryEntry) :
  count_char "010"%char (json_dumps entry) = O.
Proof.
  destruct entry as [name entityType observations | from to relationType];
    unfold json_dumps, json_key; rewrite !count_char_append;
    rewrite ?json_string_one_line.
  - rewrite join_one_line; [reflexivity|].
    intros x Hx. apply in_map_iff in Hx as (s & <- & _).
    apply json_string_one_line.
  - reflexivity.
Qed.

(** X9: the memory file holds one line per record: the text written for
    a list of records has exactly as many line feeds as records, whatever
    line feeds the titles and contents hold, and it ends with a line feed
    unless it is empty. *)
Theorem X9_one_line_per_record (entries : list MemoryEntry) :
  count_char "010"%char (memory_text entries) = List.length entries
  /\ (forall more entry,
        memory_text (more ++ [entry])
        = memory_text more ++ json_dumps entry ++ NL)
  /\ memory_text [] = EmptyString.
Proof.
  assert (Hsnoc : forall more entry,
            memory_text (more ++ [entry])
            = memory_text more ++ json_dumps entry ++ NL).
  { intros more entry. unfold memory_text, for_each.
    now rewrite fold_left_app. }
  split; [|split; [exact Hsnoc | reflexivity]].
  induction entries as [|entry entries IH] using rev_ind; [reflexivity|].
  rewrite Hsnoc, !count_char_append, IH, json_dumps_one_line, length_app.
  simpl. lia.
Qed.

Lemma lookup_store_keeps (p q text : string) (l : list (string * string)) :
  lookup q l <> None -> lookup q (store p text l) <> None.
Proof.
  intros H. destruct (String.eqb_spec q p) as [->|Hne].
  - rewrite lookup_store_same. discriminate.
  - now rewrite lookup_store_other.
Qed.

Section Runs.

Variable HOME CWD : string.
Variable strerror : string -> string.

(** X10: a sync run writes nothing but its memory file and the progress
    log, and removes nothing: every other path reads as before, a
    regular file stays a regular file and a directory stays a
    directory. *)
Theorem X10_sync_touches_memory_and_log_only (timestamp : string) (fs : FS) :
  let after := final (sync_memory HOME CWD strerror timestamp fs) in
  (forall p,
     p <> PROGRESS -> p <> CLAUDE_MEM HOME CWD -> p <> LOCAL_MEM CWD ->
     read_text after p = read_text fs p)
  /\ (forall p, is_file fs p = true -> is_file after p = true)
  /\ (forall d, is_dir fs d = true -> is_dir after d = true).
Proof.
  intros after.
  assert (H : exists mem new,
            (mem = CLAUDE_MEM HOME CWD \/ mem = LOCAL_MEM CWD)
            /\ dirs after = add_dirs new (dirs fs)
            /\ (files after = files fs
                \/ (exists text, files after = store mem text (files fs))
                \/ (exists text log,
                      files after
                      = store PROGRESS log (store mem text (files fs))))).
  { unfold after, sync_memory.
    destruct (get_all_docs fs) as [|d docs].
    { exists (LOCAL_MEM CWD), []. simpl. auto. }
    destruct (extract_all strerror fs (d :: docs)) as [documents printed].
    unfold choose_memory.
    set (mem := if exists_ fs _ then _ else _).
    assert (Hmem : mem = CLAUDE_MEM HOME CWD \/ mem = LOCAL_MEM CWD).
    { unfold mem. destruct (exists_ fs _); auto. }
    unfold mkdir_p. destruct (existsb _ _).
    { exists mem, []. simpl. auto. }
    set (new := (rev (PyPath.ancestors (PyPath.parent mem))
                 ++ [PyPath.parent mem])%list).
    destruct (write_text _ mem _) as [fsB|] eqn:Hw.
    2:{ exists mem, new. simpl. auto. }
    apply write_text_inv in Hw. cbn [files dirs] in Hw.
    pose proof (update_progress_log_frame strerror timestamp
                  ("Synced " ++ str_of_len (valid documents)
                   ++ " documents to memory") fsB) as Hframe.
    destruct (update_progress_log _ _ _ fsB) as [[b fsC] printed'].
    cbn [final]. destruct Hframe as [Hdirs Hfiles].
    exists mem, new. split; [exact Hmem|].
    split; [rewrite Hdirs; now subst fsB|].
    right. destruct Hfiles as [->|[log Hlog]].
    - left. subst fsB. simpl. eauto.
    - right. rewrite Hlog. subst fsB. simpl. eauto. }
  destruct H as (mem & new & Hmem & Hdirs & Hfiles).
  split; [|split].
  - intros p Hp Hc Hl. unfold read_text.
    assert (Hpm : p <> mem) by (destruct Hmem; congruence).
    destruct Hfiles as [->|[[text ->]|(text & log & ->)]];
      rewrite ?lookup_store_other; auto.
  - intros p. unfold is_file, read_text.
    destruct (lookup p (files fs)) eqn:E; [intros _|discriminate].
    assert (Hkeep : lookup p (files after) <> None).
    { destruct Hfiles as [->|[[text ->]|(text & log & ->)]].
      - congruence.
      - apply lookup_store_keeps. congruence.
      - apply lookup_store_keeps, lookup_store_keeps. congruence. }
    now destruct (lookup p (files after)).
  - intros d. unfold is_dir. rewrite Hdirs. apply mem_add_dirs_old.
Qed.

(** X11: in a project where none of the three singleton files and none
    of the three category directories exists, a sync run prints that no
    documentation was found and returns with the file system as it was:
    no memory file is written and no directory is made. *)
Theorem X11_sync_without_documents (timestamp : string) (fs : FS) :
  (forall p,
     In p [CLIENT_SPEC; ROADMAP; PROGRESS; PHASES; STAGES; REPORTS] ->
     exists_ fs p = false) ->
  sync_memory HOME CWD strerror timestamp fs
  = mkRun fs ["Syncing documentation to memory for " ++ PROJECT CWD;
              "No documentation found."] Normal.
Proof.
  intros H. unfold sync_memory.
  assert (E : get_all_docs fs = []).
  { rewrite get_all_docs_eq. simpl.
    rewrite !H; simpl; auto 10. }
  now rewrite E.
Qed.

End Runs.

Lemma X10_sync_touches_memory_and_log_only_witness :
  is_file (final first_sync) "docs/progress.md" = true.
Proof.
  apply (proj1 (proj2 (X10_sync_touches_memory_and_log_only
                         sample_home sample_cwd sample_strerror T1 sample_fs))).
  reflexivity.
Defined.

Lemma X11_sync_without_documents_witness :
  sync_memory sample_home sample_cwd sample_strerror T1 (mkFS [] [])
  = mkRun (mkFS [] [])
          ["Syncing documentation to memory for demo";
           "No documentation found."] Normal.
Proof.
  apply (X11_sync_without_documents sample_home sample_cwd sample_strerror T1
           (mkFS [] [])).
  intros p _. reflexivity.
Defined.

End WriterProps.

(* ================================================================== *)
(** * Further properties of the memory location and the progress log *)
(* ================================================================== *)

Module LogProps.

Import Akro AkroReport PyStrFacts StoreFacts Stage ProgressLog.

Section Memory.

Variable HOME CWD : string.

(** X12: [choose_memory] takes the per-assistant memory file when the
    directory of that file exists and the project-local one otherwise; it
    changes no file, keeps every directory and makes the directory of the
    chosen file, so that the file can then be written unless a directory
    stands at its path.  It fails only when a regular file stands at that
    directory or at one of its ancestors. *)
Theorem X12_choose_memory_prepares_the_directory (fs : FS) :
  let mem :=
    if exists_ fs (PyPath.parent (CLAUDE_MEM HOME CWD))
    then CLAUDE_MEM HOME CWD else LOCAL_MEM CWD in
  (forall chosen fs',
     choose_memory HOME CWD fs = Some (chosen, fs') ->
     chosen = mem
     /\ files fs' = files fs
     /\ (forall d, is_dir fs d = true -> is_dir fs' d = true)
     /\ is_dir fs' (PyPath.parent mem) = true
     /\ (forall text,
           is_dir fs' mem = false -> write_text fs' mem text <> None))
  /\ (choose_memory HOME CWD fs = None <->
      exists p,
        In p (PyPath.parent mem :: PyPath.ancestors (PyPath.parent mem))
        /\ is_file fs p = true).
Proof.
  intros mem. unfold choose_memory. fold mem. unfold mkdir_p.
  destruct (existsb (is_file fs) _) eqn:E.
  - split; [discriminate|]. split; [intros _|reflexivity].
    apply existsb_exists in E. exact E.
  - split.
    + intros chosen fs' [= <- <-]. cbn [files dirs].
      split; [reflexivity|]. split; [reflexivity|].
      assert (Hparent :
        is_dir {| files := files fs;
                  dirs := add_dirs (rev (PyPath.ancestors (PyPath.parent mem))
                                    ++ [PyPath.parent mem])%list (dirs fs) |}
               (PyPath.parent mem) = true).
      { unfold is_dir. cbn [dirs]. apply mem_add_dirs_new.
        apply in_or_app. right. now left. }
      split; [|split; [exact Hparent|]].
      * intros d. unfold is_dir. cbn [dirs]. apply mem_add_dirs_old.
      * intros text Hnodir. unfold write_text, parent_exists.
        rewrite Hnodir, Hparent, !orb_true_r.
        now destruct (is_file _ mem).
    + split; [discriminate|]. intros (p & Hp & Hfile).
      assert (existsb (is_file fs)
                (PyPath.parent mem :: PyPath.ancestors (PyPath.parent mem))
              = true) by (apply existsb_exists; eauto).
      congruence.
Qed.

End Memory.

(** On the sample project the project-local memory file is chosen and its
    directory is made. *)
Lemma X12_choose_memory_prepares_the_directory_witness :
  exists fs',
    choose_memory sample_home sample_cwd sample_fs
    = Some ("/work/demo/.claude/memory.jsonl", fs')
    /\ is_dir fs' "/work/demo/.claude" = true.
Proof.
  destruct (choose_memory sample_home sample_cwd sample_fs)
    as [[chosen fs']|] eqn:E; [|discriminate].
  destruct (proj1 (X12_choose_memory_prepares_the_directory
                     sample_home sample_cwd sample_fs) chosen fs' E)
    as (Hc & _ & _ & Hd & _).
  exists fs'. split; [now rewrite Hc | exact Hd].
Defined.

Lemma first_occurrence_exists (old s : string) :
  contains old s = true ->
  exists pre post, s = pre ++ old ++ post /\ FirstOccurrence old pre post.
Proof.
  induction s as [|c s IH]; intros H.
  - simpl in H. rewrite orb_false_r in H.
    apply startswith_inv in H as [r Hr]. exists EmptyString, r.
    split; [exact Hr|]. intros pre1 pre2 Hs Hne.
    destruct pre1; simpl in Hs; congruence.
  - destruct (startswith old (String c s)) eqn:E.
    + apply startswith_inv in E as [r Hr]. exists EmptyString, r.
      split; [exact Hr|]. intros pre1 pre2 Hs Hne.
      destruct pre1; simpl in Hs; congruence.
    + cbn [contains] in H. rewrite E in H. simpl in H.
      destruct (IH H) as (pre & post & -> & Hfirst).
      exists (String c pre), post. split; [reflexivity|].
      intros pre1 pre2 Hs Hne. destruct pre1 as [|c1 pre1]; simpl in Hs.
      * subst pre2. exact E.
      * injection Hs as _ Hs. now apply (Hfirst pre1 pre2).
Qed.

(** X13: whatever the log holds, after the activity step it holds the
    marker [## Activity Log] with the new entry on the line right after
    it. *)
Theorem X13_activity_entry_is_always_recorded (timestamp action text : string) :
  Substring (ACTIVITY_LOG ++ NL ++ "- " ++ timestamp ++ ": " ++ action)
            (with_activity_entry timestamp action text).
Proof.
  unfold with_activity_entry.
  destruct (contains ACTIVITY_LOG text) eqn:E.
  - destruct (first_occurrence_exists _ _ E) as (pre & post & -> & Hfirst).
    rewrite replace_first by (auto using activity_log_nonempty).
    eexists pre, _. rewrite !append_assoc. reflexivity.
  - exists (text ++ NL ++ NL), EmptyString.
    now rewrite !append_assoc, append_nil_r.
Qed.

Lemma memory_sync_log_nonempty : MEMORY_SYNC_LOG <> EmptyString.
Proof. discriminate. Qed.

(** X14: a message that starts with [Sync] also gets a line
    [Documentation synchronized] in the section [## Memory Sync Log]:
    right after the marker at every occurrence, or in a new section at
    the end when the marker is missing; any other message leaves the
    text alone.  The message a sync run logs is of the first kind. *)
Theorem X14_sync_entry_for_sync_messages (timestamp action : string) :
  let entry := "- " ++ timestamp ++ ": Documentation synchronized" in
  let synced := with_sync_entry timestamp action in
  (startswith "Sync" action = true ->
   (forall text,
      ~ Substring MEMORY_SYNC_LOG text ->
      synced text = text ++ NL ++ NL ++ MEMORY_SYNC_LOG ++ NL ++ entry)
   /\ (forall pre post,
         FirstOccurrence MEMORY_SYNC_LOG pre post ->
         synced (pre ++ MEMORY_SYNC_LOG ++ post)
         = pre ++ MEMORY_SYNC_LOG ++ NL ++ entry
           ++ (if contains MEMORY_SYNC_LOG post then synced post else post))
   /\ (forall text, Substring (MEMORY_SYNC_LOG ++ NL ++ entry) (synced text)))
  /\ (startswith "Sync" action = false -> forall text, synced text = text)
  /\ (forall n : nat,
        startswith "Sync"
          ("Synced " ++ str_of_int (Z.of_nat n) ++ " documents to memory")
        = true).
Proof.
  intros entry synced. unfold synced, with_sync_entry. fold entry.
  split; [|split; [|reflexivity]].
  - intros ->.
    assert (Hfirst : forall pre post,
              FirstOccurrence MEMORY_SYNC_LOG pre post ->
              replace MEMORY_SYNC_LOG (MEMORY_SYNC_LOG ++ NL ++ entry)
                      (pre ++ MEMORY_SYNC_LOG ++ post)
              = pre ++ (MEMORY_SYNC_LOG ++ NL ++ entry)
                ++ replace MEMORY_SYNC_LOG (MEMORY_SYNC_LOG ++ NL ++ entry) post).
    { intros pre post H. apply replace_first;
        auto using memory_sync_log_nonempty. }
    split; [|split].
    + intros text Hno. apply contains_false_iff in Hno. now rewrite Hno.
    + intros pre post Hocc.
      assert (Hin : contains MEMORY_SYNC_LOG (pre ++ MEMORY_SYNC_LOG ++ post)
                    = true).
      { apply contains_iff. now exists pre, post. }
      rewrite Hin, Hfirst by exact Hocc.
      rewrite !append_assoc. do 4 f_equal.
      destruct (contains MEMORY_SYNC_LOG post) eqn:E; [reflexivity|].
      apply replace_absent; [apply memory_sync_log_nonempty|].
      now apply contains_false_iff.
    + intros text. destruct (contains MEMORY_SYNC_LOG text) eqn:E.
      * destruct (first_occurrence_exists _ _ E) as (pre & post & -> & Hocc).
        rewrite Hfirst by exact Hocc. eexists pre, _. reflexivity.
      * exists (text ++ NL ++ NL), EmptyString.
        now rewrite !append_assoc, append_nil_r.
  - intros -> text. reflexivity.
Qed.

Lemma X14_sync_entry_for_sync_messages_witness :
  with_sync_entry T1 "Synced 3 documents to memory" "# Log"
  = "# Log" ++ NL ++ NL ++ MEMORY_SYNC_LOG ++ NL ++ "- " ++ T1
    ++ ": Documentation synchronized"
  /\ with_sync_entry T1 "Created stage document" "# Log" = "# Log".
Proof.
  split.
  - apply (proj1 (proj1 (X14_sync_entry_for_sync_messages
                           T1 "Synced 3 documents to memory") eq_refl)).
    apply contains_false_iff. reflexivity.
  - apply (proj1 (proj2 (X14_sync_entry_for_sync_messages
                           T1 "Created stage document")) eq_refl).
Defined.

End LogProps.

Module UpdatedProps.

Import Akro AkroReport PyStrFacts ProgressLog.

Lemma sub_updated_skip (repl x y : string) :
  Re.sub_updated_from repl (String.length x) (x ++ y)
  = Re.sub_updated_from repl 0 y.
Proof.
  induction x as [|c x IH]; simpl; [now destruct y | exact IH].
Qed.

Lemma closing_quote_append (old rest : string) :
  Re.no_newline old = true -> no_quote old = true ->
  Re.closing_quote (old ++ QUOTE ++ rest) = Some (S (String.length old)).
Proof.
  induction old as [|c old IH]; intros Hn Hq; [reflexivity|].
  cbn [Re.no_newline no_quote] in Hn, Hq.
  apply andb_true_iff in Hn as [Hn1 Hn2]. apply andb_true_iff in Hq as [Hq1 Hq2].
  apply negb_true_iff in Hn1, Hq1.
  cbn [append Re.closing_quote String.length]. rewrite Hq1, Hn1, IH by assumption.
  reflexivity.
Qed.

(** X15: the first [updated] field of the text, a quoted value on one
    line, gets the timestamp as its value and the rewrite goes on behind
    it, so every such field of the text is set; what stands before the
    field stays as it is. *)
Theorem X15_updated_field_gets_the_timestamp
  (timestamp pre old post : string) :
  FirstOccurrence Re.UPDATED_OPEN pre (old ++ QUOTE ++ post) ->
  Re.no_newline old = true -> no_quote old = true ->
  with_updated_field timestamp
    (pre ++ Re.UPDATED_OPEN ++ old ++ QUOTE ++ post)
  = pre ++ Re.UPDATED_OPEN ++ timestamp ++ QUOTE
    ++ with_updated_field timestamp post.
Proof.
  intros Hfirst Hn Hq. unfold with_updated_field, Re.sub_updated.
  set (repl := "updated: " ++ QUOTE ++ timestamp ++ QUOTE).
  assert (Hrepl : forall rest,
            Re.UPDATED_OPEN ++ timestamp ++ QUOTE ++ rest = repl ++ rest).
  { intros rest. unfold repl, Re.UPDATED_OPEN. now rewrite !append_assoc. }
  rewrite Hrepl. clear Hrepl.
  induction pre as [|c pre IH].
  - change (EmptyString ++ Re.UPDATED_OPEN ++ old ++ QUOTE ++ post)
      with (Re.UPDATED_OPEN ++ old ++ QUOTE ++ post).
    change (EmptyString ++ repl ++ Re.sub_updated_from repl 0 post)
      with (repl ++ Re.sub_updated_from repl 0 post).
    set (x := ("pdated: " ++ QUOTE) ++ old ++ QUOTE).
    assert (Hs : Re.UPDATED_OPEN ++ old ++ QUOTE ++ post
                 = String "u"%char (x ++ post)).
    { unfold x. rewrite !append_assoc. reflexivity. }
    assert (Hat : Re.updated_at (Re.UPDATED_OPEN ++ old ++ QUOTE ++ post)
                  = Some (S (String.length x))).
    { unfold Re.updated_at.
      rewrite startswith_append, drop_append, closing_quote_append by assumption.
      unfold x. rewrite !length_append. simpl. do 2 f_equal. lia. }
    rewrite Hs in *. cbn [Re.sub_updated_from]. rewrite Hat. f_equal.
    cbn [Nat.sub]. rewrite Nat.sub_0_r. apply sub_updated_skip.
  - assert (Hc : startswith Re.UPDATED_OPEN
                   (String c pre ++ Re.UPDATED_OPEN ++ old ++ QUOTE ++ post)
                 = false).
    { apply (Hfirst EmptyString (String c pre)); [reflexivity | discriminate]. }
    change (String c pre ++ Re.UPDATED_OPEN ++ old ++ QUOTE ++ post)
      with (String c (pre ++ Re.UPDATED_OPEN ++ old ++ QUOTE ++ post)) in *.
    cbn [Re.sub_updated_from]. unfold Re.updated_at at 1. rewrite Hc.
    cbn [append]. f_equal. apply IH.
    intros pre1 pre2 -> Hne.
    apply (Hfirst (String c pre1) pre2); [reflexivity | exact Hne].
Qed.

(** The front matter of the progress template. *)
Lemma X15_updated_field_gets_the_timestamp_witness :
  with_updated_field T2
    (("---" ++ NL) ++ Re.UPDATED_OPEN ++ T1 ++ QUOTE ++ (NL ++ "---"))
  = ("---" ++ NL) ++ Re.UPDATED_OPEN ++ T2 ++ QUOTE ++ NL ++ "---".
Proof.
  rewrite (X15_updated_field_gets_the_timestamp T2 ("---" ++ NL) T1 (NL ++ "---")).
  - reflexivity.
  - apply starts_nowhere_first. reflexivity.
  - reflexivity.
  - reflexivity.
Defined.

End UpdatedProps.

(* ================================================================== *)
(** * Further properties of stage creation *)
(* ================================================================== *)

Module StageProps.

Import Akro AkroReport PyStrFacts StoreFacts Stage Title.

Lemma slug_of_lower (name : string) :
  replace " " "-" (lower (lower name)) = replace " " "-" (lower name).
Proof.
  change " " with (String " "%char EmptyString).
  change "-" with (String "-"%char EmptyString).
  rewrite !replace_char. unfold lower. rewrite !map_chars_compose.
  apply map_chars_ext. intros c.
  destruct c as [[] [] [] [] [] [] [] []]; reflexivity.
Qed.

Lemma slug_of_hyphenated (name : string) :
  replace " " "-" (lower (replace " " "-" name))
  = replace " " "-" (lower name).
Proof.
  change " " with (String " "%char EmptyString).
  change "-" with (String "-"%char EmptyString).
  rewrite !replace_char. unfold lower. rewrite !map_chars_compose.
  apply map_chars_ext. intros c.
  destruct c as [[] [] [] [] [] [] [] []]; reflexivity.
Qed.

(** X16: stage and report files are named without regard to letter case
    and with blanks turned into hyphens: a name, its lower-case form and
    its form with hyphens for blanks all give the same stage file and the
    same report file, so [create_stage] refuses the second of two such
    names. *)
Theorem X16_file_names_ignore_case_and_blanks (phase stage : Z) (name : string) :
  stage_path phase stage (lower name) = stage_path phase stage name
  /\ stage_path phase stage (replace " " "-" name) = stage_path phase stage name
  /\ report_path phase stage (lower name) = report_path phase stage name
  /\ report_path phase stage (replace " " "-" name)
     = report_path phase stage name.
Proof.
  unfold stage_path, report_path.
  now rewrite slug_of_lower, slug_of_hyphenated.
Qed.

Lemma mkdir_p_effect (fs fs1 : FS) (p : string) :
  mkdir_p fs p = Some fs1 ->
  files fs1 = files fs
  /\ is_dir fs1 p = true
  /\ (forall d, is_dir fs d = true -> is_dir fs1 d = true).
Proof.
  unfold mkdir_p. destruct (existsb _ _); [discriminate|].
  intros [= <-]. unfold is_dir. cbn [files dirs].
  split; [reflexivity|]. split.
  - apply mem_add_dirs_new. apply in_or_app. right. now left.
  - intros d. apply mem_add_dirs_old.
Qed.

Section CreateStage.

Variable strerror : string -> string.
Variable STAGE_TMPL : string.
Variable format_template : string -> Z -> Z -> string -> option string.

Let run := create_stage strerror STAGE_TMPL format_template.

Let template_file := PyPath.joinpath TEMPLATES "stage_template.md".

(** The template [create_stage] takes in [fs]: the template file when it
    exists, the built-in template otherwise. *)
Let takes (fs : FS) (template : string) : Prop :=
  (exists_ fs template_file = false /\ template = STAGE_TMPL)
  \/ read_text fs template_file = Some template.

Lemma chosen_template (fs : FS) (template : string) :
  takes fs template ->
  exists out,
    (if negb (exists_ fs template_file) then
       Some (STAGE_TMPL,
             ["Using built-in template (no file found at "
              ++ template_file ++ ")"])
     else option_map (fun text => (text, [])) (read_text fs template_file))
    = Some (template, out).
Proof.
  intros [[Hno ->]|Hread].
  - rewrite Hno. simpl. eauto.
  - unfold exists_, is_file. rewrite Hread. simpl. eauto.
Qed.

(** X17: [create_stage] when every step goes through: [docs/stages] can
    be made, the stage file does not exist yet and lies right in
    [docs/stages], the template is there to take (the text of the
    template file when that is a regular file, the built-in template when
    nothing stands at its path) and [format] turns it into a text without
    an exception.  Then the call completes, the stage file holds that
    text, the creation line is printed, the creation is recorded in the
    progress log when there is one, and no other file changes. *)
Theorem X17_create_stage_writes_the_formatted_template
  (phase stage : Z) (name timestamp : string) (fs fs1 : FS)
  (template text : string) :
  let stage_file := stage_path phase stage name in
  let action :=
    "Created stage document: Stage " ++ str_of_int phase ++ "."
    ++ str_of_int stage ++ ": " ++ name in
  mkdir_p fs STAGES = Some fs1 ->
  exists_ fs1 stage_file = false ->
  PyPath.parent stage_file = STAGES ->
  takes fs1 template ->
  format_template template phase stage name = Some text ->
  let done := run phase stage name timestamp fs in
  completion done = Normal
  /\ read_text (final done) stage_file = Some text
  /\ In ("Created stage document: " ++ stage_file) (stdout done)
  /\ (forall q, q <> stage_file -> q <> PROGRESS ->
                read_text (final done) q = read_text fs q)
  /\ (forall log,
        read_text fs PROGRESS = Some log ->
        read_text (final done) PROGRESS
        = Some (with_updated_field timestamp
                  (with_activity_entry timestamp action log)))
  /\ (read_text fs PROGRESS = None -> read_text (final done) PROGRESS = None).
Proof.
  intros stage_file action Hmk Hnew Hparent Htakes Hformat done.
  destruct (mkdir_p_effect _ _ _ Hmk) as (Hfiles & Hdir & _).
  destruct (chosen_template fs1 template Htakes) as [out Hchosen].
  assert (Hwrite : write_text fs1 stage_file text
                   = Some {| files := store stage_file text (files fs1);
                             dirs := dirs fs1 |}).
  { unfold write_text, parent_exists. apply orb_false_iff in Hnew as [Hf Hd].
    now rewrite Hf, Hd, Hparent, Hdir, !orb_true_r. }
  set (fs2 := {| files := store stage_file text (files fs1); dirs := dirs fs1 |})
    in Hwrite.
  assert (Hlog2 : read_text fs2 PROGRESS = read_text fs PROGRESS).
  { unfold read_text, fs2. cbn [files]. rewrite Hfiles.
    apply lookup_store_other. intros H. symmetry in H.
    now apply (stage_path_not_progress phase stage name). }
  unfold done, run, create_stage. rewrite Hmk. fold stage_file.
  rewrite Hnew. fold template_file. rewrite Hchosen, Hformat, Hwrite.
  fold action.
  pose proof (update_progress_log_frame strerror timestamp action fs2) as Hframe.
  assert (Hupd :
    forall log, read_text fs PROGRESS = Some log ->
      update_progress_log strerror timestamp action fs2
      = (true,
         {| files := store PROGRESS
                       (with_updated_field timestamp
                          (with_activity_entry timestamp action log))
                       (files fs2);
            dirs := dirs fs2 |}, [])).
  { intros log Hlog. rewrite <- Hlog2 in Hlog.
    unfold update_progress_log, exists_, is_file. rewrite Hlog. cbn [orb negb].
    rewrite (write_text_existing _ _ _ _ Hlog). reflexivity. }
  assert (Hnone :
    read_text fs PROGRESS = None ->
    exists printed,
      update_progress_log strerror timestamp action fs2 = (false, fs2, printed)).
  { intros Hlog. rewrite <- Hlog2 in Hlog.
    unfold update_progress_log. rewrite Hlog.
    destruct (negb (exists_ fs2 PROGRESS)); eauto. }
  destruct (update_progress_log strerror timestamp action fs2)
    as [[b fs3] printed] eqn:Hrun.
  cbn [final stdout completion]. destruct Hframe as [_ Hfs3].
  assert (Hother : forall q, q <> PROGRESS -> read_text fs3 q = read_text fs2 q).
  { intros q Hq. destruct Hfs3 as [->|[t Ht]]; [reflexivity|].
    unfold read_text. rewrite Ht. now apply lookup_store_other. }
  split; [reflexivity|]. split; [|split; [|split; [|split]]].
  - rewrite Hother by (intros H; now apply (stage_path_not_progress phase stage name)).
    unfold read_text, fs2. cbn [files]. apply lookup_store_same.
  - apply in_or_app. left. unfold print. apply in_or_app. right. now left.
  - intros q Hq1 Hq2. rewrite (Hother q Hq2). unfold read_text, fs2.
    cbn [files]. rewrite Hfiles. now apply lookup_store_other.
  - intros log Hlog. specialize (Hupd log Hlog). rewrite ?Hrun in Hupd.
    injection Hupd as _ -> _. unfold read_text. cbn [files].
    apply lookup_store_same.
  - intros Hlog. destruct (Hnone Hlog) as [pr Hpr]. rewrite ?Hrun in Hpr.
    injection Hpr as _ -> _. now rewrite Hlog2.
Qed.

(** X18: when the template cannot be formatted, [create_stage] ends with
    the exception: no stage file is written and no progress-log entry is
    made; only the directory [docs/stages] may be new. *)
Theorem X18_create_stage_without_a_formatted_template
  (phase stage : Z) (name timestamp : string) (fs fs1 : FS) (template : string) :
  mkdir_p fs STAGES = Some fs1 ->
  exists_ fs1 (stage_path phase stage name) = false ->
  takes fs1 template ->
  format_template template phase stage name = None ->
  let failed := run phase stage name timestamp fs in
  completion failed = Uncaught
  /\ files (final failed) = files fs
  /\ final failed = fs1.
Proof.
  intros Hmk Hnew Htakes Hformat failed.
  destruct (chosen_template fs1 template Htakes) as [out Hchosen].
  unfold failed, run, create_stage. rewrite Hmk, Hnew.
  fold template_file. rewrite Hchosen, Hformat. cbn [final completion].
  split; [reflexivity|]. split; [|reflexivity].
  now destruct (mkdir_p_effect _ _ _ Hmk) as (Hfiles & _).
Qed.

End CreateStage.

Lemma X17_create_stage_writes_the_formatted_template_witness :
  read_text (final first_stage) "docs/stages/stage1_2-my-setup.md"
  = Some "# STAGE 1.2: My Setup".
Proof.
  refine (proj1 (proj2 (X17_create_stage_writes_the_formatted_template
    sample_strerror sample_tmpl sample_format 1 2 "My Setup" T1 sample_fs
    (mkFS (files sample_fs) ["docs"; "docs/stages"]) sample_tmpl
    "# STAGE 1.2: My Setup" eq_refl eq_refl eq_refl _ eq_refl))).
  left. split; reflexivity.
Defined.

Lemma X18_create_stage_without_a_formatted_template_witness :
  completion (create_stage sample_strerror sample_tmpl (fun _ _ _ _ => None)
                1 2 "My Setup" T1 sample_fs) = Uncaught.
Proof.
  refine (proj1 (X18_create_stage_without_a_formatted_template
    sample_strerror sample_tmpl (fun _ _ _ _ => None) 1 2 "My Setup" T1
    sample_fs (mkFS (files sample_fs) ["docs"; "docs/stages"]) sample_tmpl
    eq_refl eq_refl _ eq_refl)).
  left. split; reflexivity.
Defined.

End StageProps.

(* ================================================================== *)
(** * Properties of completion reports *)
(* ================================================================== *)

Module ReportProps.

Import Akro AkroReport PyStrFacts StoreFacts Stage ProgressLog StageProps.

Lemma In_lookup (p text : string) (l : list (string * string)) :
  In (p, text) l -> lookup p l <> None.
Proof.
  induction l as [|[q t] l IH]; simpl; [intros []|].
  intros [[= -> ->]|H].
  - rewrite String.eqb_refl. discriminate.
  - destruct (q =? p); [discriminate | auto].
Qed.

Lemma existsb_ext_in {A : Type} (f g : A -> bool) (l : list A) :
  (forall x, In x l -> f x = g x) -> existsb f l = existsb g l.
Proof.
  induction l as [|x l IH]; intros H; simpl; [reflexivity|].
  rewrite (H x) by now left. rewrite IH; [reflexivity|].
  intros y Hy. apply H. now right.
Qed.

(** A directory in place stays in place when files elsewhere change. *)
Lemma mkdir_p_in_place (fs0 fs3 : FS) (d : string) :
  mkdir_p fs0 d = Some fs0 ->
  dirs fs3 = dirs fs0 ->
  (forall p, In p (d :: PyPath.ancestors d) -> is_file fs3 p = is_file fs0 p) ->
  mkdir_p fs3 d = Some fs3.
Proof.
  unfold mkdir_p. intros H0 Hdirs Hfiles.
  rewrite (existsb_ext_in _ (is_file fs0) _ Hfiles).
  destruct (existsb (is_file fs0) _); [discriminate|].
  injection H0 as H0. apply (f_equal dirs) in H0. cbn [dirs] in H0.
  rewrite Hdirs, H0. destruct fs3 as [f3 d3]. cbn [files dirs] in *.
  now subst d3.
Qed.

Lemma is_file_In (fs : FS) (p : string) :
  is_file fs p = true -> In p (map fst (files fs)).
Proof.
  unfold is_file, read_text. induction (files fs) as [|[q t] l IH]; simpl;
    [discriminate|].
  destruct (String.eqb_spec q p) as [->|_]; [now left | intros H; right; auto].
Qed.

Lemma In_is_file (fs : FS) (p : string) :
  In p (map fst (files fs)) -> is_file fs p = true.
Proof.
  intros H. apply in_map_iff in H as ([q t] & <- & Hin).
  unfold is_file, read_text. cbn [fst]. apply In_lookup in Hin.
  now destruct (lookup q (files fs)).
Qed.

Lemma is_dir_In (fs : FS) (d : string) :
  is_dir fs d = true <-> In d (dirs fs).
Proof.
  unfold is_dir. rewrite existsb_exists. split.
  - intros (x & Hx & E). apply String.eqb_eq in E. now subst x.
  - intros H. exists d. split; [exact H | apply String.eqb_refl].
Qed.

(** The directories [mkdir_p] leaves are the old ones and the path with
    its ancestors. *)
Lemma mkdir_p_new_dirs (fs fs1 : FS) (p d : string) :
  mkdir_p fs p = Some fs1 ->
  is_dir fs1 d = true ->
  is_dir fs d = true \/ In d (p :: PyPath.ancestors p).
Proof.
  unfold mkdir_p. destruct (existsb _ _); [discriminate|].
  intros [= <-]. unfold is_dir at 1. cbn [dirs]. intros H.
  destruct (in_dec string_dec d (p :: PyPath.ancestors p)) as [Hin|Hnot];
    [now right|].
  left. rewrite Sync.mem_add_dirs_other in H; [exact H|].
  intros Hin. apply Hnot. apply in_app_or in Hin as [Hin|[<-|[]]].
  - right. now apply in_rev.
  - now left.
Qed.

(** What [glob_stage] finds is an entry right in [docs/stages] with a name
    the pattern accepts. *)
Lemma glob_stage_In (fs : FS) (phase stage : Z) (e : string) :
  In e (glob_stage fs phase stage) ->
  (is_file fs e = true \/ is_dir fs e = true)
  /\ PyPath.parent e = STAGES
  /\ stage_pattern phase stage (PyPath.name e) = true.
Proof.
  unfold glob_stage. destruct (is_dir fs STAGES); [|intros []].
  intros H. apply filter_In in H as [Hin Hok].
  apply andb_true_iff in Hok as [Hp Hpat]. apply String.eqb_eq in Hp.
  split; [|now split].
  apply in_app_or in Hin as [Hin|Hin].
  - left. now apply In_is_file.
  - right. now apply is_dir_In.
Qed.

Lemma glob_stage_In_dir (fs : FS) (phase stage : Z) (d : string) :
  is_dir fs STAGES = true ->
  is_dir fs d = true ->
  PyPath.parent d = STAGES ->
  stage_pattern phase stage (PyPath.name d) = true ->
  In d (glob_stage fs phase stage).
Proof.
  intros Hs Hd Hp Hpat. unfold glob_stage. rewrite Hs.
  apply filter_In. split.
  - apply in_or_app. right. now apply is_dir_In.
  - now rewrite Hp, Hpat, String.eqb_refl.
Qed.

Lemma report_path_shape (phase stage : Z) (name : string) :
  exists rest, report_path phase stage name = "docs/reports/report" ++ rest.
Proof.
  unfold report_path. eexists.
  cbv - [append str_of_int replace lower]. reflexivity.
Qed.

Lemma completion_log_nonempty : STAGE_COMPLETION_LOG <> EmptyString.
Proof. discriminate. Qed.

Lemma current_status_nonempty : CURRENT_STATUS <> EmptyString.
Proof. discriminate. Qed.

(** X19: the completion entry goes right after the marker
    [## Stage Completion Log], at every occurrence; without that marker a
    new section with the entry is put right after the marker
    [## Current Status], at every occurrence, so that the lines that
    stood below [## Current Status] come to stand below the entry;
    without either marker the new section goes to the end. *)
Theorem X19_completion_entry_placement (timestamp : string) (phase stage : Z)
  (name : string) :
  let entry :=
    "- " ++ timestamp ++ ": Stage " ++ str_of_int phase ++ "."
    ++ str_of_int stage ++ ": " ++ name ++ " completed" in
  let logged := with_completion_entry timestamp phase stage name in
  let section := STAGE_COMPLETION_LOG ++ NL ++ entry in
  (forall pre post,
     FirstOccurrence STAGE_COMPLETION_LOG pre post ->
     logged (pre ++ STAGE_COMPLETION_LOG ++ post)
     = pre ++ section
       ++ replace STAGE_COMPLETION_LOG section post)
  /\ (forall pre post,
        ~ Substring STAGE_COMPLETION_LOG (pre ++ CURRENT_STATUS ++ post) ->
        FirstOccurrence CURRENT_STATUS pre post ->
        logged (pre ++ CURRENT_STATUS ++ post)
        = pre ++ CURRENT_STATUS ++ NL ++ NL ++ section
          ++ replace CURRENT_STATUS (CURRENT_STATUS ++ NL ++ NL ++ section)
                     post)
  /\ (forall text,
        ~ Substring STAGE_COMPLETION_LOG text ->
        ~ Substring CURRENT_STATUS text ->
        logged text = text ++ NL ++ NL ++ section).
Proof.
  intros entry logged section. unfold logged, with_completion_entry.
  fold entry. fold section. split; [|split].
  - intros pre post Hocc.
    assert (Hin : contains STAGE_COMPLETION_LOG
                    (pre ++ STAGE_COMPLETION_LOG ++ post) = true).
    { apply contains_iff. now exists pre, post. }
    rewrite Hin. apply replace_first; auto using completion_log_nonempty.
  - intros pre post Hno Hocc. apply contains_false_iff in Hno. rewrite Hno.
    assert (Hin : contains CURRENT_STATUS (pre ++ CURRENT_STATUS ++ post)
                  = true).
    { apply contains_iff. now exists pre, post. }
    rewrite Hin, replace_first by (auto using current_status_nonempty).
    now rewrite !append_assoc.
  - intros text H1 H2. apply contains_false_iff in H1, H2.
    rewrite H1, H2. reflexivity.
Qed.

(** The log of the sample project: the status line ends up below the
    completion entry. *)
Lemma X19_completion_entry_placement_witness :
  with_completion_entry T2 1 2 "My Setup"
    (("# Log" ++ NL) ++ CURRENT_STATUS ++ (NL ++ "- started"))
  = ("# Log" ++ NL) ++ CURRENT_STATUS ++ NL ++ NL
    ++ (STAGE_COMPLETION_LOG ++ NL ++ "- " ++ T2
        ++ ": Stage 1.2: My Setup completed")
    ++ NL ++ "- started".
Proof.
  rewrite (proj1 (proj2 (X19_completion_entry_placement T2 1 2 "My Setup"))).
  - reflexivity.
  - apply contains_false_iff. reflexivity.
  - apply starts_nowhere_first. reflexivity.
Defined.

Section CreateReport.

Variable strerror : string -> string.
Variable REPORT_TMPL : string.
Variable format_template : string -> Z -> Z -> string -> option string.
Variable stage_heading_name : string -> option string.

Let run :=
  create_report strerror REPORT_TMPL format_template stage_heading_name.

Lemma log_completion_frame (timestamp : string) (phase stage : Z)
  (name : string) (fs : FS) :
  let '(fs', _) := log_completion strerror timestamp phase stage name fs in
  dirs fs' = dirs fs
  /\ (fs' = fs \/ exists text, files fs' = store PROGRESS text (files fs)).
Proof.
  unfold log_completion.
  destruct (exists_ fs PROGRESS); [|auto].
  destruct (read_text fs PROGRESS) as [text|]; [|auto].
  destruct (write_text _ _ _) as [fs'|] eqn:E; [|auto].
  apply write_text_inv in E. subst fs'. simpl. split; [reflexivity|].
  right. eauto.
Qed.

(** X20: [create_report] without a name, when [docs/reports] can be made
    and no regular file right in [docs/stages] has a name the pattern
    [stage<phase>_<stage>*.md] accepts.  When no directory there has such
    a name either, it prints that no stage document was found and
    returns; when a directory has, the search finds it, opening it fails
    and the call ends with the exception.  Either way no file is written
    or changed: no report, and the progress log as it was. *)
Theorem X20_create_report_without_stage_document
  (phase stage : Z) (timestamp completed_at : string) (fs fs1 : FS) :
  mkdir_p fs REPORTS = Some fs1 ->
  (forall p,
     is_file fs p = true -> PyPath.parent p = STAGES ->
     stage_pattern phase stage (PyPath.name p) = false) ->
  files fs1 = files fs
  /\ ((forall d,
         is_dir fs d = true -> PyPath.parent d = STAGES ->
         stage_pattern phase stage (PyPath.name d) = false) ->
      run phase stage None timestamp completed_at fs
      = mkRun fs1 ["Error: No stage document found for Stage "
                   ++ str_of_int phase ++ "." ++ str_of_int stage] Normal)
  /\ (is_dir fs STAGES = true ->
      (exists d,
         is_dir fs d = true /\ PyPath.parent d = STAGES
         /\ stage_pattern phase stage (PyPath.name d) = true) ->
      run phase stage None timestamp completed_at fs = mkRun fs1 [] Uncaught).
Proof.
  intros Hmk Hfile.
  destruct (mkdir_p_effect _ _ _ Hmk) as (Hfiles & _ & Hold).
  split; [exact Hfiles|].
  assert (Hfile1 : forall p,
            is_file fs1 p = true -> PyPath.parent p = STAGES ->
            stage_pattern phase stage (PyPath.name p) = false).
  { intros p. unfold is_file, read_text. rewrite Hfiles. apply Hfile. }
  split.
  - intros Hdir.
    assert (E : glob_stage fs1 phase stage = []).
    { destruct (glob_stage fs1 phase stage) as [|e l] eqn:Hg; [reflexivity|].
      exfalso.
      destruct (glob_stage_In fs1 phase stage e) as (Hwhat & Hp & Hpat);
        [rewrite Hg; now left|].
      destruct Hwhat as [Hf|Hd].
      - now rewrite (Hfile1 e Hf Hp) in Hpat.
      - destruct (mkdir_p_new_dirs _ _ _ e Hmk Hd) as [Hd0|Hnew].
        + now rewrite (Hdir e Hd0 Hp) in Hpat.
        + change (PyPath.ancestors REPORTS) with [DOCS] in Hnew.
          simpl in Hnew. destruct Hnew as [<-|[<-|[]]]; discriminate Hp. }
    unfold run, create_report. rewrite Hmk. unfold resolve_name.
    now rewrite E.
  - intros Hstages (d & Hd & Hp & Hpat).
    destruct (glob_stage fs1 phase stage) as [|e l] eqn:Hg.
    + exfalso.
      assert (Hin : In d (glob_stage fs1 phase stage)).
      { apply glob_stage_In_dir; auto. }
      now rewrite Hg in Hin.
    + destruct (glob_stage_In fs1 phase stage e) as (_ & Hpe & Hpate);
        [rewrite Hg; now left|].
      assert (Hread : read_text fs1 e = None).
      { destruct (read_text fs1 e) as [text|] eqn:Hr; [|reflexivity].
        assert (Hf : is_file fs1 e = true) by (unfold is_file; now rewrite Hr).
        now rewrite (Hfile1 e Hf Hpe) in Hpate. }
      unfold run, create_report. rewrite Hmk. unfold resolve_name.
      now rewrite Hg, Hread.
Qed.

(** X21: [create_report] refuses to overwrite: when the report file of a
    phase, stage and given name exists (with [docs/reports] in place) the
    already-exists line is printed and the file system stays as it was;
    after a completed call with a given name the report file exists, so
    the same call again is refused and changes nothing. *)
Theorem X21_create_report_refuses_overwrite
  (phase stage : Z) (name timestamp completed_at : string) (fs : FS) :
  let report_file := report_path phase stage name in
  let refused fs :=
    mkRun fs ["Error: " ++ report_file ++ " already exists."] Normal in
  (mkdir_p fs REPORTS = Some fs -> exists_ fs report_file = true ->
   run phase stage (Some name) timestamp completed_at fs = refused fs)
  /\ (forall earlier earlier_completed,
        let first :=
          run phase stage (Some name) earlier earlier_completed fs in
        completion first = Normal ->
        exists_ (final first) report_file = true
        /\ run phase stage (Some name) timestamp completed_at (final first)
           = refused (final first)).
Proof.
  intros report_file refused.
  assert (Hrefuse : forall fs0,
            mkdir_p fs0 REPORTS = Some fs0 -> exists_ fs0 report_file = true ->
            run phase stage (Some name) timestamp completed_at fs0
            = refused fs0).
  { intros fs0 Hdir Hex. unfold run, create_report. rewrite Hdir.
    cbn [resolve_name]. fold report_file. now rewrite Hex. }
  split; [apply Hrefuse|].
  intros earlier earlier_completed first Hdone.
  assert (Hgoal : mkdir_p (final first) REPORTS = Some (final first)
                  /\ exists_ (final first) report_file = true).
  { unfold first, run, create_report in *.
    destruct (mkdir_p fs REPORTS) as [fs0|] eqn:Hmk; [|discriminate].
    pose proof (mkdir_p_again _ _ _ Hmk) as Hagain.
    cbn [resolve_name] in *. fold report_file in Hdone |- *.
    destruct (exists_ fs0 report_file) eqn:Hex; [simpl; auto|].
    destruct (if negb (exists_ fs0 (PyPath.joinpath TEMPLATES "report_template.md"))
              then _ else _) as [[template out]|]; [|discriminate].
    destruct (format_template template phase stage name) as [text|];
      [|discriminate].
    destruct (write_text fs0 report_file text) as [fs2|] eqn:Hw; [|discriminate].
    apply write_text_inv in Hw.
    pose proof (update_progress_log_frame strerror earlier
                  ("Created completion report for Stage " ++ str_of_int phase
                   ++ "." ++ str_of_int stage ++ ": " ++ name) fs2) as Hframe.
    destruct (update_progress_log _ _ _ fs2) as [[b fs3] printed].
    pose proof (log_completion_frame earlier_completed phase stage name fs3)
      as Hframe2.
    destruct (log_completion _ _ _ _ _ fs3) as [fs4 printed2].
    cbn [final]. destruct Hframe as [Hdirs Hfiles].
    destruct Hframe2 as [Hdirs2 Hfiles2].
    destruct (report_path_shape phase stage name) as [rest Hshape].
    fold report_file in Hshape.
    assert (Hread : forall p, p <> PROGRESS ->
                              read_text fs4 p = read_text fs2 p).
    { intros p Hp. transitivity (read_text fs3 p).
      - destruct Hfiles2 as [->|[t Ht]]; [reflexivity|].
        unfold read_text. rewrite Ht. now apply lookup_store_other.
      - destruct Hfiles as [->|[t Ht]]; [reflexivity|].
        unfold read_text. rewrite Ht. now apply lookup_store_other. }
    split.
    - apply (mkdir_p_in_place fs0); [exact Hagain | |].
      + rewrite Hdirs2, Hdirs. now subst fs2.
      + intros p Hp. change (PyPath.ancestors REPORTS) with [DOCS] in Hp.
        unfold is_file.
        rewrite Hread by (simpl in Hp; destruct Hp as [<-|[<-|[]]]; discriminate).
        subst fs2. unfold read_text. cbn [files].
        rewrite lookup_store_other; [reflexivity|].
        intros ->. rewrite Hshape in Hp. simpl in Hp.
        destruct Hp as [H|[H|[]]]; discriminate.
    - unfold exists_, is_file.
      rewrite Hread by (rewrite Hshape; discriminate).
      subst fs2. unfold read_text. cbn [files].
      now rewrite lookup_store_same. }
  destruct Hgoal as [Hdir Hex]. split; [exact Hex | now apply Hrefuse].
Qed.

End CreateReport.

(** The sample project holds stage 1.2 only, so a report for stage 1.3
    without a name finds no stage document; where a directory bears the
    name of stage 1.2, the call for that stage ends with the exception. *)
Lemma X20_create_report_without_stage_document_witness :
  create_report sample_strerror sample_tmpl sample_format (fun _ => None)
                1 3 None T1 T2 stage_only_fs
  = mkRun (mkFS (files stage_only_fs) ["docs"; "docs/stages"; "docs/reports"])
          ["Error: No stage document found for Stage 1.3"] Normal
  /\ create_report sample_strerror sample_tmpl sample_format (fun _ => None)
                   1 2 None T1 T2 stage_directory_fs
     = mkRun (mkFS (files stage_directory_fs)
                   ["docs"; "docs/stages"; "docs/stages/stage1_2-drafts.md";
                    "docs/reports"])
             [] Uncaught.
Proof.
  split.
  - refine (proj1 (proj2 (X20_create_report_without_stage_document
      sample_strerror sample_tmpl sample_format (fun _ => None) 1 3 T1 T2
      stage_only_fs
      (mkFS (files stage_only_fs) ["docs"; "docs/stages"; "docs/reports"])
      eq_refl _)) _).
    + intros p Hf _. apply is_file_In in Hf. simpl in Hf.
      destruct Hf as [<-|[<-|[]]]; reflexivity.
    + intros d Hd _. apply is_dir_In in Hd. simpl in Hd.
      destruct Hd as [<-|[<-|[]]]; reflexivity.
  - refine (proj2 (proj2 (X20_create_report_without_stage_document
      sample_strerror sample_tmpl sample_format (fun _ => None) 1 2 T1 T2
      stage_directory_fs
      (mkFS (files stage_directory_fs)
            ["docs"; "docs/stages"; "docs/stages/stage1_2-drafts.md";
             "docs/reports"])
      eq_refl _)) eq_refl _).
    + intros p Hf _. apply is_file_In in Hf. simpl in Hf.
      destruct Hf as [<-|[]]; reflexivity.
    + exists "docs/stages/stage1_2-drafts.md". repeat split.
Defined.

Lemma X21_create_report_refuses_overwrite_witness :
  let first :=
    create_report sample_strerror sample_tmpl sample_format (fun _ => None)
                  1 2 (Some "My Setup") T1 T2 stage_only_fs in
  create_report sample_strerror sample_tmpl sample_format (fun _ => None)
                1 2 (Some "My Setup") T2 T2 (final first)
  = mkRun (final first)
          ["Error: docs/reports/report1_2-my-setup.md already exists."] Normal.
Proof.
  exact (proj2 (proj2 (X21_create_report_refuses_overwrite
                         sample_strerror sample_tmpl sample_format
                         (fun _ => None) 1 2 "My Setup" T2 T2 stage_only_fs)
                      T1 T2 eq_refl)).
Defined.

End ReportProps.

(* ================================================================== *)
(** * Further properties of the title patterns and of a run's ending *)
(* ================================================================== *)

Module RunProps.

Import Akro AkroReport PyStrFacts ReFacts StoreFacts Stage StageProps.

(** X22: a stage title that yields a stage identifier for the
    [completed_by] rule also yields a phase number for the [implements]
    rule: a stage that can be linked to a report is never without a
    phase number. *)
Theorem X22_stage_identifier_implies_phase_number (title id : string) :
  Re.stage_id_search title = Some id ->
  exists digits, Re.stage_phase_search title = Some digits.
Proof.
  intros H. apply stage_id_search_first in H as (pre & rest & -> & Hm & _).
  destruct (Re.stage_phase_search (pre ++ rest)) as [digits|] eqn:E;
    [now exists digits|].
  exfalso. apply stage_phase_search_none in E.
  destruct Hm as (major & sep & minor & tail & -> & -> & Hne & Hd & Hsep & _).
  apply (E pre ("Stage " ++ (major ++ String sep minor) ++ tail) major eq_refl).
  exists sep, (minor ++ tail). repeat split; auto.
  now rewrite !append_assoc.
Qed.

Lemma X22_stage_identifier_implies_phase_number_witness :
  exists digits, Re.stage_phase_search "Stage 3.2: Setup" = Some digits.
Proof.
  apply (X22_stage_identifier_implies_phase_number "Stage 3.2: Setup" "3.2").
  reflexivity.
Defined.

Section Runs.

Variable HOME CWD : string.
Variable strerror : string -> string.

(** X23: a sync run is never ended by a document it cannot read: it ends
    with an uncaught exception only when there are documents and the
    memory file cannot be written, because its directory cannot be made
    or a directory stands at its path; in every other case it
    completes. *)
Theorem X23_sync_completes_unless_memory_is_unwritable
  (timestamp : string) (fs : FS) :
  let run := sync_memory HOME CWD strerror timestamp fs in
  (completion run = Normal \/ completion run = Uncaught)
  /\ (completion run = Uncaught <->
      get_all_docs fs <> []
      /\ (choose_memory HOME CWD fs = None
          \/ exists mem fs',
               choose_memory HOME CWD fs = Some (mem, fs')
               /\ is_file fs' mem = false /\ is_dir fs' mem = true)).
Proof.
  intros run. unfold run, sync_memory.
  destruct (get_all_docs fs) as [|d docs].
  { cbn [completion]. split; [now left|].
    split; [discriminate | intros [H _]; now elim H]. }
  destruct (extract_all strerror fs (d :: docs)) as [documents printed].
  destruct (choose_memory HOME CWD fs) as [[mem fs']|] eqn:Hchoose.
  2:{ cbn [completion]. split; [now right|].
      split; [intros _; split; [discriminate | now left] | reflexivity]. }
  assert (Hparent : parent_exists fs' mem = true).
  { unfold choose_memory in Hchoose.
    destruct (mkdir_p fs _) as [fsA|] eqn:Hmk; [|discriminate].
    injection Hchoose as <- <-.
    destruct (mkdir_p_effect _ _ _ Hmk) as (_ & Hdir & _).
    unfold parent_exists. now rewrite Hdir, !orb_true_r. }
  unfold write_text. rewrite Hparent.
  destruct (is_file fs' mem) eqn:Hfile.
  - destruct (update_progress_log _ _ _ _) as [[b fs3] pr].
    cbn [completion]. split; [now left|].
    split; [discriminate|].
    intros [_ [H|(m & f & [= <- <-] & H & _)]]; congruence.
  - destruct (is_dir fs' mem) eqn:Hdir.
    + cbn [completion]. split; [now right|].
      split; [intros _; split; [discriminate|] | reflexivity].
      right. exists mem, fs'. auto.
    + destruct (update_progress_log _ _ _ _) as [[b fs3] pr].
      cbn [completion]. split; [now left|].
      split; [discriminate|].
      intros [_ [H|(m & f & [= <- <-] & _ & H)]]; congruence.
Qed.

End Runs.

(** The progress log of this project is a directory: the run skips it and
    completes. *)
Lemma X23_sync_completes_unless_memory_is_unwritable_witness :
  completion
    (sync_memory sample_home sample_cwd sample_strerror T1
       (mkFS [("docs/client_spec.md", "# Client Specification")]
             ["docs"; "docs/progress.md"]))
  = Normal.
Proof.
  destruct (X23_sync_completes_unless_memory_is_unwritable
              sample_home sample_cwd sample_strerror T1
              (mkFS [("docs/client_spec.md", "# Client Specification")]
                    ["docs"; "docs/progress.md"])) as [[H|H] [Hwhy _]].
  - exact H.
  - exfalso. destruct (Hwhy H) as [_ [Hc|(mem & fs' & Hc & _ & Hd)]].
    + discriminate Hc.
    + vm_compute in Hc. injection Hc as <- <-. discriminate Hd.
Defined.

End RunProps.
